(** * ckb-daemon: the per-device USB session manager (src/ckb-daemon/usb.c)

    A shallow embedding of [usbqueue], [setupusb], [revertusb], [_resetusb],
    [usb_tryreset] and [closeusb], and the properties of the session
    lifecycle proved about them.

    The C functions act on one [usbdevice] record through a pointer and call
    into the rest of the daemon (device nodes, input, firmware, profile
    store, OS transport).  The embedding threads the record, the global
    [features_mask] and an abstract outside world through a small monad that
    also records every call made to a collaborator, in order. *)

From Stdlib Require Import ZArith List String Ascii Bool Lia.
From Stdlib Require Import Init.Byte Numbers.DecimalString.
From stdpp Require Import base list.
Import ListNotations.

Local Open Scope string_scope.
Local Open Scope list_scope.
Local Open Scope Z_scope.

(** ** Integers

    [int] is a 32-bit two's-complement integer; arithmetic on it is written
    with its wrap-around. *)

Definition INT_MIN : Z := - 2 ^ 31.
Definition INT_MAX : Z := 2 ^ 31 - 1.

Definition wrap_int (z : Z) : Z := (z + 2 ^ 31) mod 2 ^ 32 - 2 ^ 31.

Definition int_range (z : Z) : Prop := INT_MIN <= z <= INT_MAX.

(** ** Data model *)

(** A [pthread_mutex_t] as the code uses it.  [LkZero] is the all-zero
    storage of a record that was never set up or was wiped by [memset]. *)
Inductive lockstate : Type :=
| LkZero
| LkUnlocked
| LkLocked
| LkDestroyed.

Inductive mutex_id : Type :=
| Mutex
| Keymutex.

(** Modelled from the spec: the struct [usbprofile] is declared in a header
    that is not part of usb.c.  It has the fields usb.c reads and writes
    ([serial], [keymap], [currentmode]) and, by section 3 of the spec, zero or
    more modes, of which the record keeps the number.  Pointers ([keymap],
    [currentmode]) are addresses, 0 being the null pointer. *)
Record usbprofile : Type := Usbprofile {
  serial : string;
  keymap : Z;
  currentmode : Z;
  modecount : Z
}.

Definition usbprofile_zero : usbprofile :=
  {| serial := ""; keymap := 0; currentmode := 0; modecount := 0 |}.

(** A queue slot is a pointer to a message buffer: [None] is the null
    pointer, [Some b] a buffer holding the bytes [b]. *)
Abbreviation slot := (option (list byte)) (only parsing).

(** Modelled from the spec: the struct [usbdevice] is declared in a header
    that is not part of usb.c.  These are the fields usb.c reads or writes, the
    ones section 3 of the spec lists.  [handle], [infifo] and [hw] are tested
    against zero only. *)
Record usbdevice : Type := Usbdevice {
  handle : Z;
  infifo : Z;
  model : Z;
  vendor : Z;
  product : Z;
  features : Z;
  name : string;
  active : Z;
  pollrate : Z;
  fwversion : Z;
  hw : Z;
  queue : list slot;
  queuecount : Z;
  profile : usbprofile;
  mutex : lockstate;
  keymutex : lockstate
}.

Definition set_handle (v : Z) (kb : usbdevice) : usbdevice :=
  Usbdevice v (infifo kb) (model kb) (vendor kb) (product kb) (features kb)
    (name kb) (active kb) (pollrate kb) (fwversion kb) (hw kb) (queue kb)
    (queuecount kb) (profile kb) (mutex kb) (keymutex kb).

Definition set_infifo (v : Z) (kb : usbdevice) : usbdevice :=
  Usbdevice (handle kb) v (model kb) (vendor kb) (product kb) (features kb)
    (name kb) (active kb) (pollrate kb) (fwversion kb) (hw kb) (queue kb)
    (queuecount kb) (profile kb) (mutex kb) (keymutex kb).

Definition set_fwversion (v : Z) (kb : usbdevice) : usbdevice :=
  Usbdevice (handle kb) (infifo kb) (model kb) (vendor kb) (product kb)
    (features kb) (name kb) (active kb) (pollrate kb) v (hw kb) (queue kb)
    (queuecount kb) (profile kb) (mutex kb) (keymutex kb).

Definition set_hw (v : Z) (kb : usbdevice) : usbdevice :=
  Usbdevice (handle kb) (infifo kb) (model kb) (vendor kb) (product kb)
    (features kb) (name kb) (active kb) (pollrate kb) (fwversion kb) v
    (queue kb) (queuecount kb) (profile kb) (mutex kb) (keymutex kb).

Definition set_model (v : Z) (kb : usbdevice) : usbdevice :=
  Usbdevice (handle kb) (infifo kb) v (vendor kb) (product kb) (features kb)
    (name kb) (active kb) (pollrate kb) (fwversion kb) (hw kb) (queue kb)
    (queuecount kb) (profile kb) (mutex kb) (keymutex kb).

Definition set_vendor (v : Z) (kb : usbdevice) : usbdevice :=
  Usbdevice (handle kb) (infifo kb) (model kb) v (product kb) (features kb)
    (name kb) (active kb) (pollrate kb) (fwversion kb) (hw kb) (queue kb)
    (queuecount kb) (profile kb) (mutex kb) (keymutex kb).

Definition set_product (v : Z) (kb : usbdevice) : usbdevice :=
  Usbdevice (handle kb) (infifo kb) (model kb) (vendor kb) v (features kb)
    (name kb) (active kb) (pollrate kb) (fwversion kb) (hw kb) (queue kb)
    (queuecount kb) (profile kb) (mutex kb) (keymutex kb).

Definition set_features (v : Z) (kb : usbdevice) : usbdevice :=
  Usbdevice (handle kb) (infifo kb) (model kb) (vendor kb) (product kb) v
    (name kb) (active kb) (pollrate kb) (fwversion kb) (hw kb) (queue kb)
    (queuecount kb) (profile kb) (mutex kb) (keymutex kb).

Definition set_name (v : string) (kb : usbdevice) : usbdevice :=
  Usbdevice (handle kb) (infifo kb) (model kb) (vendor kb) (product kb)
    (features kb) v (active kb) (pollrate kb) (fwversion kb) (hw kb)
    (queue kb) (queuecount kb) (profile kb) (mutex kb) (keymutex kb).

Definition set_active (v : Z) (kb : usbdevice) : usbdevice :=
  Usbdevice (handle kb) (infifo kb) (model kb) (vendor kb) (product kb)
    (features kb) (name kb) v (pollrate kb) (fwversion kb) (hw kb)
    (queue kb) (queuecount kb) (profile kb) (mutex kb) (keymutex kb).

Definition set_pollrate (v : Z) (kb : usbdevice) : usbdevice :=
  Usbdevice (handle kb) (infifo kb) (model kb) (vendor kb) (product kb)
    (features kb) (name kb) (active kb) v (fwversion kb) (hw kb)
    (queue kb) (queuecount kb) (profile kb) (mutex kb) (keymutex kb).

Definition set_queue (v : list slot) (kb : usbdevice) : usbdevice :=
  Usbdevice (handle kb) (infifo kb) (model kb) (vendor kb) (product kb)
    (features kb) (name kb) (active kb) (pollrate kb) (fwversion kb) (hw kb)
    v (queuecount kb) (profile kb) (mutex kb) (keymutex kb).

Definition set_queuecount (v : Z) (kb : usbdevice) : usbdevice :=
  Usbdevice (handle kb) (infifo kb) (model kb) (vendor kb) (product kb)
    (features kb) (name kb) (active kb) (pollrate kb) (fwversion kb) (hw kb)
    (queue kb) v (profile kb) (mutex kb) (keymutex kb).

Definition set_profile (v : usbprofile) (kb : usbdevice) : usbdevice :=
  Usbdevice (handle kb) (infifo kb) (model kb) (vendor kb) (product kb)
    (features kb) (name kb) (active kb) (pollrate kb) (fwversion kb) (hw kb)
    (queue kb) (queuecount kb) v (mutex kb) (keymutex kb).

Definition set_lock (m : mutex_id) (v : lockstate) (kb : usbdevice) : usbdevice :=
  match m with
  | Mutex =>
      Usbdevice (handle kb) (infifo kb) (model kb) (vendor kb) (product kb)
        (features kb) (name kb) (active kb) (pollrate kb) (fwversion kb)
        (hw kb) (queue kb) (queuecount kb) (profile kb) v (keymutex kb)
  | Keymutex =>
      Usbdevice (handle kb) (infifo kb) (model kb) (vendor kb) (product kb)
        (features kb) (name kb) (active kb) (pollrate kb) (fwversion kb)
        (hw kb) (queue kb) (queuecount kb) (profile kb) (mutex kb) v
  end.

Definition set_keymap (v : Z) (p : usbprofile) : usbprofile :=
  Usbprofile (serial p) v (currentmode p) (modecount p).

Definition set_currentmode (v : Z) (p : usbprofile) : usbprofile :=
  Usbprofile (serial p) (keymap p) v (modecount p).

Definition set_modecount (v : Z) (p : usbprofile) : usbprofile :=
  Usbprofile (serial p) (keymap p) (currentmode p) v.

(** ** Calls to the rest of the daemon

    Every call that leaves usb.c is recorded with its arguments and, where
    the code looks at it, its result. *)

Inductive delay : Type :=
| DELAY_SHORT
| DELAY_MEDIUM
| DELAY_LONG.

Inductive event : Type :=
| Ev_mutex_init (m : mutex_id)
| Ev_mutex_lock (m : mutex_id)
| Ev_mutex_unlock (m : mutex_id)
| Ev_mutex_destroy (m : mutex_id)
| Ev_makedevpath (res : Z)
| Ev_rmdevpath
| Ev_inputopen (res : Z)
| Ev_inputclose
| Ev_updateindicators (force : Z)
| Ev_nk95cmd (cmd : Z)
| Ev_writefwnode
| Ev_getusbmode (id : Z)
| Ev_malloc (size : Z)
| Ev_free (q : nat)
| Ev_getfwversion (res : Z)
| Ev_findstore (ser : string) (found : option usbprofile)
| Ev_hwloadprofile (apply : Z) (res : Z)
| Ev_addstore (ser : string) (hint : Z) (entry : Z)
| Ev_store_write (entry : Z) (p : usbprofile)
| Ev_freeprofile
| Ev_closehandle
| Ev_notifyconnect (connected : Z)
| Ev_updateconnected
| Ev_setactive (a : Z)
| Ev_updatergb (force : Z)
| Ev_usbdequeue (res : Z)
| Ev_os_resetusb (res : Z)
| Ev_delay (d : delay)
| Ev_printf (s : string).

(** The interface usb.c is compiled against.  None of it is defined in
    usb.c: the constants and macros come from the headers it includes, the
    functions from the other translation units of the daemon and from libc.
    They are parameters of the development.  A function that receives the
    [usbdevice*] may change any field of the record; [W] is everything
    outside the record (the hardware, the OS, the heap, the profile store). *)
Record Env (W : Type) : Type := {
  QUEUE_LEN : Z;
  MSG_SIZE : Z;
  NAME_LEN : Z;
  FEAT_RGB : Z;
  FEAT_FWVERSION : Z;
  FEAT_FWUPDATE : Z;
  FEAT_STD_RGB : Z;
  FEAT_STD_NRGB : Z;
  P_K65 : Z;
  P_K70 : Z;
  P_K70_NRGB : Z;
  NK95_HWOFF : Z;
  NK95_HWON : Z;
  keymap_system : Z;
  IS_RGB : Z -> Z -> bool;
  NEEDS_FW_UPDATE : usbdevice -> bool;
  makedevpath : usbdevice -> W -> Z * usbdevice * W;
  rmdevpath : usbdevice -> W -> usbdevice * W;
  inputopen : usbdevice -> W -> Z * usbdevice * W;
  inputclose : usbdevice -> W -> usbdevice * W;
  updateindicators : usbdevice -> Z -> W -> usbdevice * W;
  nk95cmd : usbdevice -> Z -> W -> usbdevice * W;
  writefwnode : usbdevice -> W -> usbdevice * W;
  getusbmode : Z -> usbprofile -> Z -> Z * usbprofile;
  malloc : Z -> W -> slot * W;
  free : slot -> W -> W;
  getfwversion : usbdevice -> W -> Z * usbdevice * W;
  findstore : string -> W -> option usbprofile * W;
  hwloadprofile : usbdevice -> Z -> W -> Z * usbdevice * W;
  addstore : string -> Z -> W -> Z * W;
  store_write : Z -> usbprofile -> W -> W;
  freeprofile : usbprofile -> W -> usbprofile * W;
  closehandle : usbdevice -> W -> usbdevice * W;
  notifyconnect : usbdevice -> Z -> W -> usbdevice * W;
  updateconnected : W -> W;
  setactive : usbdevice -> Z -> W -> usbdevice * W;
  updatergb : usbdevice -> Z -> W -> usbdevice * W;
  usbdequeue : usbdevice -> W -> Z * usbdevice * W;
  os_resetusb : usbdevice -> string -> Z -> W -> Z * usbdevice * W
}.

Arguments QUEUE_LEN {W} _.
Arguments MSG_SIZE {W} _.
Arguments NAME_LEN {W} _.
Arguments FEAT_RGB {W} _.
Arguments FEAT_FWVERSION {W} _.
Arguments FEAT_FWUPDATE {W} _.
Arguments FEAT_STD_RGB {W} _.
Arguments FEAT_STD_NRGB {W} _.
Arguments P_K65 {W} _.
Arguments P_K70 {W} _.
Arguments P_K70_NRGB {W} _.
Arguments NK95_HWOFF {W} _.
Arguments NK95_HWON {W} _.
Arguments keymap_system {W} _.
Arguments IS_RGB {W} _ _ _.
Arguments NEEDS_FW_UPDATE {W} _ _.
Arguments makedevpath {W} _ _ _.
Arguments rmdevpath {W} _ _ _.
Arguments inputopen {W} _ _ _.
Arguments inputclose {W} _ _ _.
Arguments updateindicators {W} _ _ _ _.
Arguments nk95cmd {W} _ _ _ _.
Arguments writefwnode {W} _ _ _.
Arguments getusbmode {W} _ _ _ _.
Arguments malloc {W} _ _ _.
Arguments free {W} _ _ _.
Arguments getfwversion {W} _ _ _.
Arguments findstore {W} _ _ _.
Arguments hwloadprofile {W} _ _ _ _.
Arguments addstore {W} _ _ _ _.
Arguments store_write {W} _ _ _ _.
Arguments freeprofile {W} _ _ _.
Arguments closehandle {W} _ _ _.
Arguments notifyconnect {W} _ _ _ _.
Arguments updateconnected {W} _ _.
Arguments setactive {W} _ _ _ _.
Arguments updatergb {W} _ _ _ _.
Arguments usbdequeue {W} _ _ _.
Arguments os_resetusb {W} _ _ _ _ _.

(** ** The machine and its monad *)

(** What a function of usb.c runs on: the device record behind [kb], the
    global [features_mask] of usb.c, and the world. *)
Record machine (W : Type) : Type := Machine {
  dev : usbdevice;
  features_mask : Z;
  world : W
}.

(** [int features_mask = -1;] (line 11): no feature is excluded until
    another part of the daemon changes the mask. *)
Definition features_mask_init : Z := -1.

Arguments Machine {W} _ _ _.
Arguments dev {W} _.
Arguments features_mask {W} _.
Arguments world {W} _.

(** A computation returns its result, the machine it leaves and the calls
    it made, oldest first. *)
Definition M (W A : Type) : Type := machine W -> A * machine W * list event.

Definition ret {W A} (a : A) : M W A := fun s => (a, s, []).

Definition bind {W A B} (m : M W A) (f : A -> M W B) : M W B :=
  fun s =>
    let '(a, s1, l1) := m s in
    let '(b, s2, l2) := f a s1 in
    (b, s2, l1 ++ l2).

Declare Scope usb_scope.
Delimit Scope usb_scope with usb.

Notation "x <- m ;; k" := (bind m (fun x => k))
  (at level 100, m at next level, right associativity) : usb_scope.
Notation "m ;; k" := (bind m (fun _ => k))
  (at level 100, right associativity) : usb_scope.

Definition result {W A} (o : A * machine W * list event) : A := fst (fst o).
Definition final {W A} (o : A * machine W * list event) : machine W := snd (fst o).
Definition calls {W A} (o : A * machine W * list event) : list event := snd o.

Definition get_dev {W} : M W usbdevice := fun s => (dev s, s, []).

Definition modify_dev {W} (f : usbdevice -> usbdevice) : M W unit :=
  fun s => (tt, Machine (f (dev s)) (features_mask s) (world s), []).

Definition get_features_mask {W} : M W Z := fun s => (features_mask s, s, []).

Definition emit {W} (e : event) : M W unit := fun s => (tt, s, [e]).

(** ** The program *)

Section Program.

Context {W : Type} (E : Env W).

Local Open Scope usb_scope.

(** *** Macros and libc *)

(** Modelled from the spec: the macro [HAS_FEATURES] (a header that usb.c
    includes) is missing; [features] is a bitmask of capabilities, and a
    device has a feature set when every bit of it is set in the mask. *)
Definition HAS_FEATURES (kb : usbdevice) (feat : Z) : bool :=
  Z.land (features kb) feat =? feat.

Definition pthread_mutex_init (m : mutex_id) : M W unit :=
  emit (Ev_mutex_init m) ;; modify_dev (set_lock m LkUnlocked).

Definition pthread_mutex_lock (m : mutex_id) : M W unit :=
  emit (Ev_mutex_lock m) ;; modify_dev (set_lock m LkLocked).

Definition pthread_mutex_unlock (m : mutex_id) : M W unit :=
  emit (Ev_mutex_unlock m) ;; modify_dev (set_lock m LkUnlocked).

Definition pthread_mutex_destroy (m : mutex_id) : M W unit :=
  emit (Ev_mutex_destroy m) ;; modify_dev (set_lock m LkDestroyed).

Definition printf (s : string) : M W unit := emit (Ev_printf s).

Definition usleep (d : delay) : M W unit := emit (Ev_delay d).

(** [for(int i = 0; i < n; i++) body(i)] *)
Fixpoint for_each (l : list nat) (body : nat -> M W unit) : M W unit :=
  match l with
  | [] => ret tt
  | i :: l' => body i ;; for_each l' body
  end.

Definition for_upto (n : Z) (body : nat -> M W unit) : M W unit :=
  for_each (seq 0 (Z.to_nat n)) body.

(** The record after [memset(kb, 0, sizeof(usbdevice))]. *)
Definition usbdevice_zero : usbdevice :=
  {| handle := 0; infifo := 0; model := 0; vendor := 0; product := 0;
     features := 0; name := ""; active := 0; pollrate := 0; fwversion := 0;
     hw := 0; queue := replicate (Z.to_nat (QUEUE_LEN E)) None;
     queuecount := 0; profile := usbprofile_zero;
     mutex := LkZero; keymutex := LkZero |}.

(** *** Calls into the rest of the daemon, each recorded *)

Definition call_int (f : usbdevice -> W -> Z * usbdevice * W) (ev : Z -> event)
  : M W Z :=
  fun s =>
    let '(r, kb, w) := f (dev s) (world s) in
    (r, Machine kb (features_mask s) w, [ev r]).

Definition call_void (f : usbdevice -> W -> usbdevice * W) (ev : event)
  : M W unit :=
  fun s =>
    let '(kb, w) := f (dev s) (world s) in
    (tt, Machine kb (features_mask s) w, [ev]).

Definition call_makedevpath : M W Z := call_int (makedevpath E) Ev_makedevpath.
Definition call_rmdevpath : M W unit := call_void (rmdevpath E) Ev_rmdevpath.
Definition call_inputopen : M W Z := call_int (inputopen E) Ev_inputopen.
Definition call_inputclose : M W unit := call_void (inputclose E) Ev_inputclose.

Definition call_updateindicators (force : Z) : M W unit :=
  call_void (fun kb => updateindicators E kb force) (Ev_updateindicators force).

Definition call_nk95cmd (cmd : Z) : M W unit :=
  call_void (fun kb => nk95cmd E kb cmd) (Ev_nk95cmd cmd).

Definition call_writefwnode : M W unit := call_void (writefwnode E) Ev_writefwnode.

(** [getusbmode(id, &kb->profile, keymap_system)]: works on the profile in
    place and returns the address of the mode. *)
Definition call_getusbmode (id : Z) : M W Z :=
  fun s =>
    let '(m, p) := getusbmode E id (profile (dev s)) (keymap_system E) in
    (m, Machine (set_profile p (dev s)) (features_mask s) (world s),
     [Ev_getusbmode id]).

Definition call_malloc (size : Z) : M W slot :=
  fun s =>
    let '(b, w) := malloc E size (world s) in
    (b, Machine (dev s) (features_mask s) w, [Ev_malloc size]).

(** [free(kb->queue[q])] *)
Definition call_free (q : nat) : M W unit :=
  fun s =>
    (tt,
     Machine (dev s) (features_mask s)
       (free E (default None (queue (dev s) !! q)) (world s)),
     [Ev_free q]).

Definition call_getfwversion : M W Z := call_int (getfwversion E) Ev_getfwversion.

Definition call_findstore (ser : string) : M W (option usbprofile) :=
  fun s =>
    let '(o, w) := findstore E ser (world s) in
    (o, Machine (dev s) (features_mask s) w, [Ev_findstore ser o]).

Definition call_hwloadprofile (apply : Z) : M W Z :=
  call_int (fun kb => hwloadprofile E kb apply) (Ev_hwloadprofile apply).

Definition call_addstore (ser : string) (hint : Z) : M W Z :=
  fun s =>
    let '(entry, w) := addstore E ser hint (world s) in
    (entry, Machine (dev s) (features_mask s) w, [Ev_addstore ser hint entry]).

(** [memcpy(store, &kb->profile, sizeof(usbprofile))]: the store entry is
    memory of the profile store. *)
Definition call_store_write (entry : Z) : M W unit :=
  fun s =>
    (tt,
     Machine (dev s) (features_mask s)
       (store_write E entry (profile (dev s)) (world s)),
     [Ev_store_write entry (profile (dev s))]).

(** [freeprofile(&kb->profile)] *)
Definition call_freeprofile : M W unit :=
  fun s =>
    let '(p, w) := freeprofile E (profile (dev s)) (world s) in
    (tt, Machine (set_profile p (dev s)) (features_mask s) w, [Ev_freeprofile]).

Definition call_closehandle : M W unit := call_void (closehandle E) Ev_closehandle.

Definition call_notifyconnect (connected : Z) : M W unit :=
  call_void (fun kb => notifyconnect E kb connected) (Ev_notifyconnect connected).

Definition call_updateconnected : M W unit :=
  fun s =>
    (tt, Machine (dev s) (features_mask s) (updateconnected E (world s)),
     [Ev_updateconnected]).

Definition call_setactive (a : Z) : M W unit :=
  call_void (fun kb => setactive E kb a) (Ev_setactive a).

Definition call_updatergb (force : Z) : M W unit :=
  call_void (fun kb => updatergb E kb force) (Ev_updatergb force).

Definition call_usbdequeue : M W Z := call_int (usbdequeue E) Ev_usbdequeue.

Definition call_os_resetusb (file : string) (line : Z) : M W Z :=
  call_int (fun kb => os_resetusb E kb file line) Ev_os_resetusb.

(** *** usbqueue (usb.c, lines 16-26) *)

(** The [MSG_SIZE] bytes at [messages + MSG_SIZE * i].  Reading past the
    end of [messages] is undefined in C; here it yields the bytes there are. *)
Definition msg_at (messages : list byte) (i : Z) : list byte :=
  take (Z.to_nat (MSG_SIZE E))
       (drop (Z.to_nat (wrap_int (MSG_SIZE E * i))) messages).

(** [memcpy(queue[idx], src, MSG_SIZE)].  Writing outside the array or
    through a null pointer is undefined in C; here it changes nothing. *)
Definition queue_store (q : list slot) (idx : Z) (src : list byte) : list slot :=
  if idx <? 0 then q
  else
    match q !! Z.to_nat idx with
    | Some (Some _) => <[Z.to_nat idx := Some src]> q
    | _ => q
    end.

Definition usbqueue (messages : list byte) (count : Z) : M W Z :=
  kb <- get_dev ;;
  if (handle kb =? 0) || negb (HAS_FEATURES kb (FEAT_RGB E)) then ret 0
  else if wrap_int (queuecount kb + count) >? QUEUE_LEN E then ret (-1)
  else
    for_upto count (fun i =>
      modify_dev (fun kb =>
        set_queue
          (queue_store (queue kb)
             (wrap_int (queuecount kb + Z.of_nat i))
             (msg_at messages (Z.of_nat i)))
          kb)) ;;
    modify_dev (fun kb => set_queuecount (wrap_int (queuecount kb + count)) kb) ;;
    ret 0.

(** *** setupusb (usb.c, lines 28-120) *)

(** ["Corsair K%d%s"] printed into a buffer of [NAME_LEN] bytes. *)
Definition default_name (kb : usbdevice) : string :=
  substring 0 (Z.to_nat (NAME_LEN E - 1))
    ("Corsair K" ++ NilZero.string_of_int (Z.to_int (model kb))
       ++ (if HAS_FEATURES kb (FEAT_RGB E) then " RGB" else "")).

(** Lines 61-74: a board without RGB. *)
Definition setupusb_nonrgb : M W Z :=
  call_nk95cmd (NK95_HWOFF E) ;;
  modify_dev (set_active 1) ;;
  call_writefwnode ;;
  modify_dev (fun kb => set_profile (set_keymap (keymap_system E) (profile kb)) kb) ;;
  modify_dev (set_pollrate (-1)) ;;
  m <- call_getusbmode 0 ;;
  modify_dev (fun kb => set_profile (set_currentmode m (profile kb)) kb) ;;
  kb <- get_dev ;;
  (if model kb =? 95 then
     call_getusbmode 1 ;; call_getusbmode 2 ;; ret tt
   else ret tt) ;;
  ret 0.

(** Lines 95-119: restore the profile from the store, or load it from the
    device. [fail] is the outcome of the firmware query on line 81. *)
Definition setupusb_restore (fail : bool) : M W Z :=
  usleep DELAY_LONG ;;
  kb <- get_dev ;;
  store <- call_findstore (serial (profile kb)) ;;
  match store with
  | Some p =>
      modify_dev (set_profile p) ;;
      kb <- get_dev ;;
      (if model kb =? 95 then
         call_getusbmode 1 ;; call_getusbmode 2 ;; ret tt
       else ret tt) ;;
      if fail then ret (-2)
      else
        r <- call_hwloadprofile 0 ;;
        if negb (r =? 0) then ret (-2)
        else usleep DELAY_SHORT ;; ret 0
  | None =>
      modify_dev (fun kb => set_profile (set_keymap (keymap_system E) (profile kb)) kb) ;;
      m <- call_getusbmode 0 ;;
      modify_dev (fun kb => set_profile (set_currentmode m (profile kb)) kb) ;;
      kb <- get_dev ;;
      (if model kb =? 95 then
         call_getusbmode 1 ;; call_getusbmode 2 ;; ret tt
       else ret tt) ;;
      if fail then ret (-2)
      else
        r <- call_hwloadprofile 1 ;;
        if negb (r =? 0) then ret (-2)
        else usleep DELAY_SHORT ;; ret 0
  end.

(** Lines 80-119: the firmware query and what follows it. *)
Definition setupusb_firmware : M W Z :=
  r <- call_getfwversion ;;
  let fail := negb (r =? 0) in
  kb <- get_dev ;;
  if negb fail && NEEDS_FW_UPDATE E kb then
    printf "Device needs a firmware update. Please issue a fwupdate command.
" ;;
    modify_dev (set_features
      (Z.lor (Z.lor (FEAT_RGB E) (FEAT_FWVERSION E)) (FEAT_FWUPDATE E))) ;;
    modify_dev (set_active 1) ;;
    modify_dev (fun kb => set_profile (set_keymap (keymap_system E) (profile kb)) kb) ;;
    m <- call_getusbmode 0 ;;
    modify_dev (fun kb => set_profile (set_currentmode m (profile kb)) kb) ;;
    call_getusbmode 1 ;;
    call_getusbmode 2 ;;
    ret 0
  else setupusb_restore fail.

(** Lines 28-59: resolve the model and the features, create the control
    path and the input device. [None]: carry on with line 60. *)
Definition setupusb_attach (vendor product : Z) : M W (option Z) :=
  modify_dev (set_model
    (if product =? P_K65 E then 65
     else if (product =? P_K70 E) || (product =? P_K70_NRGB E) then 70
     else 95)) ;;
  modify_dev (set_vendor vendor) ;;
  modify_dev (set_product product) ;;
  mask <- get_features_mask ;;
  modify_dev (set_features
    (Z.land (if IS_RGB E vendor product then FEAT_STD_RGB E else FEAT_STD_NRGB E)
            mask)) ;;
  kb <- get_dev ;;
  (if String.eqb (name kb) "" then modify_dev (set_name (default_name kb))
   else ret tt) ;;
  pthread_mutex_init Mutex ;;
  pthread_mutex_init Keymutex ;;
  pthread_mutex_lock Mutex ;;
  r <- call_makedevpath ;;
  if negb (r =? 0) then
    pthread_mutex_unlock Mutex ;;
    pthread_mutex_destroy Mutex ;;
    pthread_mutex_destroy Keymutex ;;
    ret (Some (-1))
  else
    r <- call_inputopen ;;
    if r =? 0 then
      call_rmdevpath ;;
      pthread_mutex_unlock Mutex ;;
      pthread_mutex_destroy Mutex ;;
      pthread_mutex_destroy Keymutex ;;
      ret (Some (-1))
    else
      call_updateindicators 1 ;;
      ret None.

(** Lines 76-78: the queue buffers. *)
Definition setupusb_queue : M W unit :=
  for_upto (QUEUE_LEN E) (fun q =>
    b <- call_malloc (MSG_SIZE E) ;;
    modify_dev (fun kb => set_queue (<[q := b]> (queue kb)) kb)).

Definition setupusb (vendor product : Z) : M W Z :=
  o <- setupusb_attach vendor product ;;
  match o with
  | Some r => ret r
  | None =>
      kb <- get_dev ;;
      if negb (HAS_FEATURES kb (FEAT_RGB E)) then setupusb_nonrgb
      else setupusb_queue ;; setupusb_firmware
  end.

(** *** revertusb (usb.c, lines 122-144) *)

(** How a [while] loop that is run with a bound on its iterations ends. *)
Inductive loop_exit : Type :=
| Fell_through
| Returned (r : Z)
| Out_of_fuel.

(** [while(kb->queuecount > 0){ delay; if(usbdequeue(kb) <= 0) return -1; }] *)
Fixpoint drain (d : delay) (fuel : nat) : M W loop_exit :=
  kb <- get_dev ;;
  if queuecount kb >? 0 then
    match fuel with
    | O => ret Out_of_fuel
    | S fuel' =>
        usleep d ;;
        r <- call_usbdequeue ;;
        if r <=? 0 then ret (Returned (-1)) else drain d fuel'
    end
  else ret Fell_through.

(** [None]: the bound on the iterations of a drain loop was reached. *)
Definition revertusb (fuel : nat) : M W (option Z) :=
  kb <- get_dev ;;
  if NEEDS_FW_UPDATE E kb then ret (Some 0)
  else if negb (HAS_FEATURES kb (FEAT_RGB E)) then
    call_nk95cmd (NK95_HWON E) ;; ret (Some 0)
  else
    x <- drain DELAY_SHORT fuel ;;
    match x with
    | Returned r => ret (Some r)
    | Out_of_fuel => ret None
    | Fell_through =>
        usleep DELAY_MEDIUM ;;
        call_setactive 0 ;;
        y <- drain DELAY_MEDIUM fuel ;;
        match y with
        | Returned r => ret (Some r)
        | Out_of_fuel => ret None
        | Fell_through => ret (Some 0)
        end
    end.

(** *** _resetusb (usb.c, lines 146-172) *)

Definition _resetusb (file : string) (line : Z) : M W Z :=
  usleep DELAY_LONG ;;
  res <- call_os_resetusb file line ;;
  if negb (res =? 0) then ret res
  else
    usleep DELAY_LONG ;;
    modify_dev (set_queuecount 0) ;;
    kb <- get_dev ;;
    if negb (HAS_FEATURES kb (FEAT_RGB E)) then ret 0
    else
      r <- call_getfwversion ;;
      if negb (r =? 0) then ret (-1)
      else
        kb <- get_dev ;;
        if NEEDS_FW_UPDATE E kb then ret 0
        else
          call_setactive (active kb) ;;
          kb <- get_dev ;;
          res <- (if hw kb =? 0 then
                    st <- call_findstore (serial (profile kb)) ;;
                    match st with
                    | Some _ => call_hwloadprofile 0
                    | None => call_hwloadprofile 1
                    end
                  else ret 0) ;;
          call_updatergb 1 ;;
          ret (if negb (res =? 0) then -1 else 0).

(** The macro [resetusb(kb)] of usb.h, not in usb.c: it calls [_resetusb]
    with the place of the call. *)
Definition resetusb : M W Z := _resetusb "usb.c" 178.

(** *** usb_tryreset (usb.c, lines 174-188) *)

(** The [while(1)] loop, run for at most [fuel] iterations. *)
Fixpoint usb_tryreset_loop (fuel : nat) : M W loop_exit :=
  match fuel with
  | O => ret Out_of_fuel
  | S fuel' =>
      usleep DELAY_LONG ;;
      res <- resetusb ;;
      if res =? 0 then
        printf "Reset success
" ;; ret (Returned 0)
      else if res =? -2 then ret Fell_through
      else usb_tryreset_loop fuel'
  end.

(** [None]: the loop was still retrying after [fuel] attempts. *)
Definition usb_tryreset (fuel : nat) : M W (option Z) :=
  printf "Attempting reset...
" ;;
  x <- usb_tryreset_loop fuel ;;
  match x with
  | Returned r => ret (Some r)
  | Out_of_fuel => ret None
  | Fell_through =>
      printf "Reset failed. Disconnecting.
" ;; ret (Some (-1))
  end.

(** *** closeusb (usb.c, lines 190-223) *)

Definition closeusb : M W Z :=
  kb <- get_dev ;;
  if infifo kb =? 0 then ret 0
  else
    pthread_mutex_lock Keymutex ;;
    kb <- get_dev ;;
    (if negb (handle kb =? 0) then
       printf ("Disconnecting " ++ name kb ++ " (S/N: "
                 ++ serial (profile kb) ++ ")
") ;;
       call_inputclose ;;
       call_updateconnected ;;
       for_upto (QUEUE_LEN E) call_free ;;
       kb <- get_dev ;;
       (if fwversion kb =? 0 then call_freeprofile
        else
          store <- call_addstore (serial (profile kb)) 0 ;;
          call_store_write store) ;;
       call_closehandle ;;
       call_notifyconnect 0
     else call_updateconnected) ;;
    call_rmdevpath ;;
    pthread_mutex_unlock Keymutex ;;
    pthread_mutex_destroy Keymutex ;;
    pthread_mutex_unlock Mutex ;;
    pthread_mutex_destroy Mutex ;;
    modify_dev (fun _ => usbdevice_zero) ;;
    ret 0.

End Program.

(** ** A simulated daemon

    One concrete instance of the interface, used to run the program on
    examples: values for the constants, and collaborators that follow a
    script.  Each scripted collaborator touches only the fields it is
    responsible for; none of them puts a command into the queue (the
    daemon [queueing] further down has a [setactive] that does). *)

Module Sim.

Record world : Type := World {
  w_makedevpath : Z;            (* what makedevpath returns *)
  w_inputopen : Z;              (* what inputopen returns *)
  w_getfw : list Z;             (* results of the next firmware queries, then 0 *)
  w_fwversion : Z;              (* the version a successful query reports *)
  w_hwload : Z;                 (* what hwloadprofile returns *)
  w_osreset : list Z;           (* results of the next OS resets, then 0 *)
  w_dequeue : list Z;           (* results of the next dequeues, then MSG_SIZE *)
  w_store : list usbprofile     (* the profile store *)
}.

Definition set_w_getfw (v : list Z) (w : world) : world :=
  World (w_makedevpath w) (w_inputopen w) v (w_fwversion w) (w_hwload w)
    (w_osreset w) (w_dequeue w) (w_store w).

Definition set_w_osreset (v : list Z) (w : world) : world :=
  World (w_makedevpath w) (w_inputopen w) (w_getfw w) (w_fwversion w)
    (w_hwload w) v (w_dequeue w) (w_store w).

Definition set_w_dequeue (v : list Z) (w : world) : world :=
  World (w_makedevpath w) (w_inputopen w) (w_getfw w) (w_fwversion w)
    (w_hwload w) (w_osreset w) v (w_store w).

Definition set_w_store (v : list usbprofile) (w : world) : world :=
  World (w_makedevpath w) (w_inputopen w) (w_getfw w) (w_fwversion w)
    (w_hwload w) (w_osreset w) (w_dequeue w) v.

Definition feat_rgb : Z := 1.
Definition feat_pollrate : Z := 2.
Definition feat_bind : Z := 4.
Definition feat_notify : Z := 8.
Definition feat_fwversion : Z := 16.
Definition feat_fwupdate : Z := 32.
Definition feat_std_nrgb : Z := Z.lor feat_bind feat_notify.
Definition feat_std_rgb : Z :=
  Z.lor feat_rgb (Z.lor feat_pollrate (Z.lor feat_bind
    (Z.lor feat_notify (Z.lor feat_fwversion feat_fwupdate)))).

Definition v_corsair : Z := 0x1b1c.
Definition p_k65 : Z := 0x1b17.
Definition p_k70 : Z := 0x1b13.
Definition p_k70_nrgb : Z := 0x1b09.
Definition p_k95 : Z := 0x1b11.
Definition p_k95_nrgb : Z := 0x1b08.

Definition is_rgb (vendor product : Z) : bool :=
  (vendor =? v_corsair) && negb (product =? p_k70_nrgb)
    && negb (product =? p_k95_nrgb).

Definition needs_fw_update (kb : usbdevice) : bool :=
  (Z.land (features kb) feat_fwupdate =? feat_fwupdate)
    && (0 <? fwversion kb) && (fwversion kb <? 0x0120).

Definition sim_getusbmode (id : Z) (p : usbprofile) (km : Z) : Z * usbprofile :=
  (0x1000 + id, set_modecount (Z.max (modecount p) (id + 1)) p).

Definition sim_getfwversion (kb : usbdevice) (w : world) : Z * usbdevice * world :=
  match w_getfw w with
  | [] => (0, set_fwversion (w_fwversion w) kb, w)
  | r :: rest =>
      (r, if r =? 0 then set_fwversion (w_fwversion w) kb else kb,
       set_w_getfw rest w)
  end.

Definition sim_findstore (ser : string) (w : world) : option usbprofile * world :=
  (find (fun p => String.eqb (serial p) ser) (w_store w), w).

Fixpoint store_index (ser : string) (l : list usbprofile) : option nat :=
  match l with
  | [] => None
  | p :: l' =>
      if String.eqb (serial p) ser then Some O
      else option_map S (store_index ser l')
  end.

Definition sim_addstore (ser : string) (hint : Z) (w : world) : Z * world :=
  match store_index ser (w_store w) with
  | Some i => (Z.of_nat i, w)
  | None =>
      (Z.of_nat (length (w_store w)),
       set_w_store (w_store w ++ [Usbprofile ser 0 0 0]) w)
  end.

Definition sim_store_write (entry : Z) (p : usbprofile) (w : world) : world :=
  set_w_store (<[Z.to_nat entry := p]> (w_store w)) w.

Definition sim_usbdequeue (kb : usbdevice) (w : world) : Z * usbdevice * world :=
  let sent := set_queuecount (queuecount kb - 1)
                (set_queue (drop 1 (queue kb) ++ take 1 (queue kb)) kb) in
  match w_dequeue w with
  | [] => (64, sent, w)
  | r :: rest => (r, if 0 <? r then sent else kb, set_w_dequeue rest w)
  end.

Definition sim_os_resetusb (kb : usbdevice) (file : string) (line : Z) (w : world)
  : Z * usbdevice * world :=
  match w_osreset w with
  | [] => (0, kb, w)
  | r :: rest => (r, kb, set_w_osreset rest w)
  end.

Definition env : Env world :=
  {| QUEUE_LEN := 40;
     MSG_SIZE := 64;
     NAME_LEN := 33;
     FEAT_RGB := feat_rgb;
     FEAT_FWVERSION := feat_fwversion;
     FEAT_FWUPDATE := feat_fwupdate;
     FEAT_STD_RGB := feat_std_rgb;
     FEAT_STD_NRGB := feat_std_nrgb;
     P_K65 := p_k65;
     P_K70 := p_k70;
     P_K70_NRGB := p_k70_nrgb;
     NK95_HWOFF := 0x020030;
     NK95_HWON := 0x020001;
     keymap_system := 0x2000;
     IS_RGB := is_rgb;
     NEEDS_FW_UPDATE := needs_fw_update;
     makedevpath := fun kb w =>
       (w_makedevpath w, if w_makedevpath w =? 0 then set_infifo 1 kb else kb, w);
     rmdevpath := fun kb w => (set_infifo 0 kb, w);
     inputopen := fun kb w => (w_inputopen w, kb, w);
     inputclose := fun kb w => (kb, w);
     updateindicators := fun kb _ w => (kb, w);
     nk95cmd := fun kb _ w => (kb, w);
     writefwnode := fun kb w => (kb, w);
     getusbmode := sim_getusbmode;
     malloc := fun size w => (Some (replicate (Z.to_nat size) x00), w);
     free := fun _ w => w;
     getfwversion := sim_getfwversion;
     findstore := sim_findstore;
     hwloadprofile := fun kb _ w =>
       (w_hwload w, if w_hwload w =? 0 then set_hw 1 kb else kb, w);
     addstore := sim_addstore;
     store_write := sim_store_write;
     freeprofile := fun p w => (set_modecount 0 (set_currentmode 0 p), w);
     closehandle := fun kb w => (set_handle 0 kb, w);
     notifyconnect := fun kb _ w => (kb, w);
     updateconnected := fun w => w;
     setactive := fun kb a w => (set_active a kb, w);
     updatergb := fun kb _ w => (kb, w);
     usbdequeue := sim_usbdequeue;
     os_resetusb := sim_os_resetusb |}.

(** A world in which every collaborator succeeds; the firmware is current. *)
Definition calm : world :=
  {| w_makedevpath := 0; w_inputopen := 1; w_getfw := []; w_fwversion := 0x0205;
     w_hwload := 0; w_osreset := []; w_dequeue := []; w_store := [] |}.

(** A record that was opened by the OS layer (it has a transport handle and
    a serial) and not set up yet. *)
Definition opened : usbdevice :=
  set_profile (Usbprofile "0F0120" 0 0 0)
    (set_handle 7 (usbdevice_zero env)).

Definition boot (kb : usbdevice) (w : world) : machine world :=
  Machine kb features_mask_init w.

End Sim.

(** ** Reading a record of calls *)

Definition is_free (e : event) : bool :=
  match e with Ev_free _ => true | _ => false end.

Definition is_malloc (e : event) : bool :=
  match e with Ev_malloc _ => true | _ => false end.

Definition is_freeprofile (e : event) : bool :=
  match e with Ev_freeprofile => true | _ => false end.

Definition is_addstore (e : event) : bool :=
  match e with Ev_addstore _ _ _ => true | _ => false end.

Definition is_store_write (e : event) : bool :=
  match e with Ev_store_write _ _ => true | _ => false end.

Definition is_findstore (e : event) : bool :=
  match e with Ev_findstore _ _ => true | _ => false end.

Definition is_hwloadprofile (e : event) : bool :=
  match e with Ev_hwloadprofile _ _ => true | _ => false end.

Definition is_getfwversion (e : event) : bool :=
  match e with Ev_getfwversion _ => true | _ => false end.

Definition is_unlock (e : event) : bool :=
  match e with Ev_mutex_unlock _ => true | _ => false end.

Definition is_mutex_destroy (e : event) : bool :=
  match e with Ev_mutex_destroy _ => true | _ => false end.

Definition is_usbdequeue (e : event) : bool :=
  match e with Ev_usbdequeue _ => true | _ => false end.

Definition is_os_resetusb (e : event) : bool :=
  match e with Ev_os_resetusb _ => true | _ => false end.

(** What [closeusb] does about the profile: a store entry, a copy into it,
    or freeing the profile. *)
Definition is_persist (e : event) : bool :=
  is_addstore e || is_store_write e || is_freeprofile e.

Definition is_rmdevpath (e : event) : bool :=
  match e with Ev_rmdevpath => true | _ => false end.

(** A dequeue that sent nothing: [usbdequeue(kb) <= 0]. *)
Definition is_failed_dequeue (e : event) : bool :=
  match e with Ev_usbdequeue r => r <=? 0 | _ => false end.

(** A failed step of the re-initialisation in [_resetusb]: the firmware
    query or the profile load returned non-zero. *)
Definition is_reinit_failure (e : event) : bool :=
  match e with
  | Ev_getfwversion r => negb (r =? 0)
  | Ev_hwloadprofile _ r => negb (r =? 0)
  | _ => false
  end.

(** A call that takes back what [setupusb] has set up: removing the
    control path, closing the input device or the handle, freeing a buffer
    or the profile, releasing or destroying a lock. *)
Definition is_unwind (e : event) : bool :=
  match e with
  | Ev_rmdevpath | Ev_inputclose | Ev_closehandle | Ev_free _
  | Ev_freeprofile | Ev_mutex_unlock _ | Ev_mutex_destroy _ => true
  | _ => false
  end.

(** How often a kind of call occurs. *)
Definition count_calls (f : event -> bool) (l : list event) : nat :=
  length (List.filter f l).

(** No call of a kind occurs. *)
Definition no_calls (f : event -> bool) (l : list event) : Prop :=
  Forall (fun e => f e = false) l.

(** ** What is assumed of a collaborator

    A collaborator gets the whole record.  Where a property of usb.c needs
    one of them to leave a field alone, that is said with [keeps]. *)

Definition keeps {W A : Type} (field : usbdevice -> A)
    (f : usbdevice -> W -> usbdevice * W) : Prop :=
  forall kb w, field (fst (f kb w)) = field kb.

Definition keeps_r {W A : Type} (field : usbdevice -> A)
    (f : usbdevice -> W -> Z * usbdevice * W) : Prop :=
  forall kb w, field (snd (fst (f kb w))) = field kb.

(** The collaborators that [setupusb] calls on a board without RGB leave
    the resolved [model], [features] and the [queue] pointers alone, and
    [getusbmode id] leaves a profile with at least [id + 1] modes, never
    fewer than it had. *)
Record attach_keeps {W : Type} (E : Env W) : Prop := {
  ak_makedevpath :
    keeps_r (fun kb => (model kb, features kb, queue kb)) (makedevpath E);
  ak_inputopen :
    keeps_r (fun kb => (model kb, features kb, queue kb)) (inputopen E);
  ak_updateindicators : forall f,
    keeps (fun kb => (model kb, features kb, queue kb))
          (fun kb => updateindicators E kb f);
  ak_nk95cmd : forall c,
    keeps (fun kb => (model kb, features kb, queue kb))
          (fun kb => nk95cmd E kb c);
  ak_writefwnode :
    keeps (fun kb => (model kb, features kb, queue kb)) (writefwnode E);
  ak_getusbmode : forall id p km,
    id + 1 <= modecount (snd (getusbmode E id p km))
    /\ modecount p <= modecount (snd (getusbmode E id p km))
}.

(** [inputclose] leaves the firmware version and the profile alone. *)
Definition inputclose_keeps {W : Type} (E : Env W) : Prop :=
  keeps fwversion (inputclose E) /\ keeps profile (inputclose E).

(** What [closeusb] does about the profile, given the record it looks at
    on line 203 (the one [inputclose] left). *)
Definition persist_calls (kb : usbdevice) (entry : Z) : list event :=
  if fwversion kb =? 0 then [Ev_freeprofile]
  else [Ev_addstore (serial (profile kb)) 0 entry;
        Ev_store_write entry (profile kb)].

(** The record after the first [n] rounds of the copy loop of [usbqueue]. *)
Definition copied {W : Type} (E : Env W) (messages : list byte) (n : nat)
    (kb : usbdevice) : usbdevice :=
  fold_left
    (fun kb i =>
       set_queue
         (queue_store (queue kb) (wrap_int (queuecount kb + Z.of_nat i))
            (msg_at E messages (Z.of_nat i)))
         kb)
    (seq 0 n) kb.

(** Lines 100-104 of [setupusb]: on a K95 the restored profile gets its
    modes 1 and 2. *)
Definition with_k95_modes {W : Type} (E : Env W) (model : Z) (p : usbprofile)
    : usbprofile :=
  if model =? 95 then
    snd (getusbmode E 2 (snd (getusbmode E 1 p (keymap_system E)))
           (keymap_system E))
  else p.

(** A run of enqueue calls, one after the other. *)
Fixpoint enqueue_all {W : Type} (E : Env W) (l : list (list byte * Z))
    (s : machine W) : machine W :=
  match l with
  | [] => s
  | (messages, count) :: l' =>
      enqueue_all E l' (final (usbqueue E messages count s))
  end.

(** [n] reset attempts in a row in which [os_resetusb] fails with a result
    other than -2, followed by an attempt in which [_resetusb] succeeds. *)
Fixpoint os_fails_then_ok {W : Type} (E : Env W) (n : nat) (s : machine W)
    : Prop :=
  match n with
  | O => result (resetusb E s) = 0
  | S n' =>
      let '(r, kb, w) := os_resetusb E (dev s) "usb.c" 178 (world s) in
      r <> 0 /\ r <> -2
      /\ os_fails_then_ok E n' (Machine kb (features_mask s) w)
  end.

(** ** Sessions and worlds to run the program on *)

(** One message of [MSG_SIZE] bytes. *)
Definition one_message : list byte := replicate 64 x01.

(** A session that lost its device: by its features it queues RGB commands,
    and it has no transport handle. *)
Definition lost_device : machine Sim.world :=
  Sim.boot (set_features Sim.feat_std_rgb (usbdevice_zero Sim.env)) Sim.calm.

(** A K70 RGB after a successful [setupusb] in a calm world. *)
Definition live_rgb : machine Sim.world :=
  Eval vm_compute in
  final (setupusb Sim.env Sim.v_corsair Sim.p_k70 (Sim.boot Sim.opened Sim.calm)).

(** The same session with 39 of its 40 queue slots in use. *)
Definition nearly_full_rgb : machine Sim.world :=
  Machine (set_queuecount 39 (dev live_rgb)) (features_mask live_rgb)
    (world live_rgb).

(** The nearly full session after its transport handle was lost. *)
Definition nearly_full_lost : machine Sim.world :=
  Machine (set_handle 0 (dev nearly_full_rgb)) (features_mask nearly_full_rgb)
    (world nearly_full_rgb).

(** A K95 without RGB after a successful [setupusb] in a calm world. *)
Definition live_nonrgb : machine Sim.world :=
  Eval vm_compute in
  final (setupusb Sim.env Sim.v_corsair Sim.p_k95_nrgb
           (Sim.boot Sim.opened Sim.calm)).

(** The RGB session after its transport handle was closed and zeroed. *)
Definition handle_gone : machine Sim.world :=
  Machine (set_handle 0 (dev live_rgb)) (features_mask live_rgb)
    (world live_rgb).

(** A K70 RGB session with three messages waiting in its queue. *)
Definition queued_rgb : machine Sim.world :=
  Machine (set_queuecount 3 (dev live_rgb)) (features_mask live_rgb)
    (world live_rgb).

(** The same session in a world whose next OS reset fails with -1. *)
Definition queued_rgb_bad_link : machine Sim.world :=
  Machine (dev queued_rgb) (features_mask queued_rgb)
    (Sim.set_w_osreset [-1] (world queued_rgb)).

(** The queued session on a transport that sends one message and then
    nothing. *)
Definition queued_rgb_stuck : machine Sim.world :=
  Machine (dev queued_rgb) (features_mask queued_rgb)
    (Sim.set_w_dequeue [64; 0] (world queued_rgb)).

(** The queued session with a firmware that needs an update. *)
Definition queued_rgb_old_firmware : machine Sim.world :=
  Machine (set_fwversion 0x0100 (dev queued_rgb)) (features_mask queued_rgb)
    (world queued_rgb).

(** The RGB session on a link whose next five OS resets fail with -1. *)
Definition flaky_link : machine Sim.world :=
  Machine (dev live_rgb) (features_mask live_rgb)
    (Sim.set_w_osreset [-1; -1; -1; -1; -1] (world live_rgb)).

(** The RGB session with a device whose next firmware query fails. *)
Definition flaky_firmware : machine Sim.world :=
  Machine (dev live_rgb) (features_mask live_rgb)
    (Sim.set_w_getfw [-1] (world live_rgb)).

(** The opened record in a world whose firmware query fails. *)
Definition query_fails : machine Sim.world :=
  Sim.boot Sim.opened (Sim.set_w_getfw [-1] Sim.calm).

(** The opened record in a world whose device reports firmware 1.00, which
    needs an update. *)
Definition old_firmware : machine Sim.world :=
  Sim.boot Sim.opened
    (Sim.World 0 1 [] 0x0100 0 [] [] []).

(** The opened record in a world where the control path cannot be made. *)
Definition no_devpath : machine Sim.world :=
  Sim.boot Sim.opened (Sim.World (-1) 1 [] 0x0205 0 [] [] []).

(** The opened record in a world whose store holds a profile for its
    serial and whose firmware query fails. *)
Definition stored_query_fails : machine Sim.world :=
  Sim.boot Sim.opened
    (Sim.set_w_store [Usbprofile "0F0120" 0x2000 0x1001 2]
       (Sim.set_w_getfw [-1] Sim.calm)).

(** ** The ways through [setupusb] and [_resetusb]

    Which way a run takes is told by what the collaborators return; each
    way has its calls, in order, and its result. *)

Definition is_lock (e : event) : bool :=
  match e with Ev_mutex_lock _ => true | _ => false end.

Definition is_mutex_init (e : event) : bool :=
  match e with Ev_mutex_init _ => true | _ => false end.

Definition is_setactive (e : event) : bool :=
  match e with Ev_setactive _ => true | _ => false end.

Definition is_long_delay (e : event) : bool :=
  match e with Ev_delay DELAY_LONG => true | _ => false end.

(** An OS reset that succeeded. *)
Definition is_reset_ok (e : event) : bool :=
  match e with Ev_os_resetusb r => r =? 0 | _ => false end.

Inductive setup_path : Type :=
| Setup_no_devpath (r : Z)
    (* makedevpath returned r <> 0: lines 41-46 *)
| Setup_no_input
    (* inputopen returned 0: lines 49-55 *)
| Setup_nonrgb (r0 : Z) (k95 : bool)
    (* a board without RGB: lines 61-74 *)
| Setup_update (r0 : Z)
    (* the firmware needs an update: lines 83-93 *)
| Setup_restore (r0 res : Z) (ser : string) (found : option usbprofile)
    (k95 : bool) (x : Z).
    (* lines 95-119; x is what hwloadprofile returned, if it was called *)

(** Lines 36-58, when the control path and the input device are made. *)
Definition attach_calls (r0 : Z) : list event :=
  [Ev_mutex_init Mutex; Ev_mutex_init Keymutex; Ev_mutex_lock Mutex;
   Ev_makedevpath 0; Ev_inputopen r0; Ev_updateindicators 1].

(** Lines 77-78. *)
Definition malloc_calls {W : Type} (E : Env W) : list event :=
  map (fun _ => Ev_malloc (MSG_SIZE E)) (seq 0 (Z.to_nat (QUEUE_LEN E))).

(** The two further modes of a K95. *)
Definition k95_calls (k95 : bool) : list event :=
  if k95 then [Ev_getusbmode 1; Ev_getusbmode 2] else [].

Definition setup_calls {W : Type} (E : Env W) (p : setup_path) : list event :=
  match p with
  | Setup_no_devpath r =>
      [Ev_mutex_init Mutex; Ev_mutex_init Keymutex; Ev_mutex_lock Mutex;
       Ev_makedevpath r; Ev_mutex_unlock Mutex; Ev_mutex_destroy Mutex;
       Ev_mutex_destroy Keymutex]
  | Setup_no_input =>
      [Ev_mutex_init Mutex; Ev_mutex_init Keymutex; Ev_mutex_lock Mutex;
       Ev_makedevpath 0; Ev_inputopen 0; Ev_rmdevpath; Ev_mutex_unlock Mutex;
       Ev_mutex_destroy Mutex; Ev_mutex_destroy Keymutex]
  | Setup_nonrgb r0 k95 =>
      attach_calls r0
        ++ [Ev_nk95cmd (NK95_HWOFF E); Ev_writefwnode; Ev_getusbmode 0]
        ++ k95_calls k95
  | Setup_update r0 =>
      attach_calls r0 ++ malloc_calls E
        ++ [Ev_getfwversion 0;
            Ev_printf "Device needs a firmware update. Please issue a fwupdate command.
";
            Ev_getusbmode 0; Ev_getusbmode 1; Ev_getusbmode 2]
  | Setup_restore r0 res ser found k95 x =>
      attach_calls r0 ++ malloc_calls E
        ++ [Ev_getfwversion res; Ev_delay DELAY_LONG; Ev_findstore ser found]
        ++ match found with Some _ => [] | None => [Ev_getusbmode 0] end
        ++ k95_calls k95
        ++ (if res =? 0 then
              Ev_hwloadprofile (match found with Some _ => 0 | None => 1 end) x
                :: (if x =? 0 then [Ev_delay DELAY_SHORT] else [])
            else [])
  end.

Definition setup_result (p : setup_path) : Z :=
  match p with
  | Setup_no_devpath _ | Setup_no_input => -1
  | Setup_nonrgb _ _ | Setup_update _ => 0
  | Setup_restore _ res _ _ _ x => if (res =? 0) && (x =? 0) then 0 else -2
  end.

(** The results that send a run along a way. *)
Definition setup_path_ok (p : setup_path) : Prop :=
  match p with
  | Setup_no_devpath r => r <> 0
  | Setup_no_input => True
  | Setup_nonrgb r0 _ | Setup_update r0 | Setup_restore r0 _ _ _ _ _ => r0 <> 0
  end.

Inductive reset_path : Type :=
| Reset_os_failed (r : Z)
    (* os_resetusb returned r <> 0: lines 149-151 *)
| Reset_nonrgb
    (* a board without RGB: lines 155-156 *)
| Reset_query_failed (r1 : Z)
    (* getfwversion returned r1 <> 0: lines 157-158 *)
| Reset_update
    (* the firmware needs an update: lines 159-160 *)
| Reset_loaded (a : Z)
    (* the hardware profile was loaded before: kb->hw is set *)
| Reset_reload (a : Z) (ser : string) (found : option usbprofile) (x : Z).
    (* lines 164-169; x is what hwloadprofile returned *)

Definition reset_calls (p : reset_path) : list event :=
  match p with
  | Reset_os_failed r => [Ev_delay DELAY_LONG; Ev_os_resetusb r]
  | Reset_nonrgb =>
      [Ev_delay DELAY_LONG; Ev_os_resetusb 0; Ev_delay DELAY_LONG]
  | Reset_query_failed r1 =>
      [Ev_delay DELAY_LONG; Ev_os_resetusb 0; Ev_delay DELAY_LONG;
       Ev_getfwversion r1]
  | Reset_update =>
      [Ev_delay DELAY_LONG; Ev_os_resetusb 0; Ev_delay DELAY_LONG;
       Ev_getfwversion 0]
  | Reset_loaded a =>
      [Ev_delay DELAY_LONG; Ev_os_resetusb 0; Ev_delay DELAY_LONG;
       Ev_getfwversion 0; Ev_setactive a; Ev_updatergb 1]
  | Reset_reload a ser found x =>
      [Ev_delay DELAY_LONG; Ev_os_resetusb 0; Ev_delay DELAY_LONG;
       Ev_getfwversion 0; Ev_setactive a; Ev_findstore ser found;
       Ev_hwloadprofile (match found with Some _ => 0 | None => 1 end) x;
       Ev_updatergb 1]
  end.

Definition reset_result (p : reset_path) : Z :=
  match p with
  | Reset_os_failed r => r
  | Reset_nonrgb | Reset_update | Reset_loaded _ => 0
  | Reset_query_failed _ => -1
  | Reset_reload _ _ _ x => if x =? 0 then 0 else -1
  end.

Definition reset_path_ok (p : reset_path) : Prop :=
  match p with
  | Reset_os_failed r => r <> 0
  | Reset_query_failed r1 => r1 <> 0
  | _ => True
  end.

(** ** The firmware query of [setupusb]

    The machine in which line 81 runs and what the collaborators return
    from there on, written out so that a property can name them. *)

(** A run of [setupusb] reaches the firmware query of line 81 when the
    control path and the input device are made (lines 41-55 do not return)
    and the record has the RGB capability on line 61. *)
Definition reaches_query {W : Type} (E : Env W) (vendor product : Z)
    (s : machine W) : Prop :=
  result (setupusb_attach E vendor product s) = None
  /\ HAS_FEATURES (dev (final (setupusb_attach E vendor product s))) (FEAT_RGB E)
     = true.

(** The machine in which the firmware query is made: the one that lines
    28-59 and the queue loop of lines 77-78 leave. *)
Definition query_state {W : Type} (E : Env W) (vendor product : Z)
    (s : machine W) : machine W :=
  final (setupusb_queue E (final (setupusb_attach E vendor product s))).

(** The firmware query of line 81: its result, the record and the world
    it leaves. *)
Definition queried {W : Type} (E : Env W) (vendor product : Z)
    (s : machine W) : Z * usbdevice * W :=
  getfwversion E (dev (query_state E vendor product s))
    (world (query_state E vendor product s)).

(** The store lookup of line 97, made with the serial of the record that
    the firmware query left. *)
Definition looked_up {W : Type} (E : Env W) (vendor product : Z)
    (s : machine W) : option usbprofile * W :=
  findstore E (serial (profile (snd (fst (queried E vendor product s)))))
    (snd (queried E vendor product s)).

(** ** A daemon whose [setactive] queues its commands *)

(** Two messages of [MSG_SIZE] bytes. *)
Definition activation : list byte := replicate 128 x07.

(** Modelled from the spec: [setactive] is not in usb.c.  Section 2 of the
    spec has the command queue fed by the writers of the upper layers, and
    [revertusb] drains the queue a second time right after
    [setactive(kb, 0)] (lines 136-142).  This [setactive] sets the flag and
    queues its two messages with [usbqueue]. *)
Definition sim_setactive_queued (kb : usbdevice) (a : Z) (w : Sim.world)
    : usbdevice * Sim.world :=
  let o := usbqueue Sim.env activation 2
             (Machine (set_active a kb) features_mask_init w) in
  (dev (final o), world (final o)).

(** The simulated daemon with that [setactive]. *)
Definition queueing : Env Sim.world :=
  {| QUEUE_LEN := QUEUE_LEN Sim.env;
     MSG_SIZE := MSG_SIZE Sim.env;
     NAME_LEN := NAME_LEN Sim.env;
     FEAT_RGB := FEAT_RGB Sim.env;
     FEAT_FWVERSION := FEAT_FWVERSION Sim.env;
     FEAT_FWUPDATE := FEAT_FWUPDATE Sim.env;
     FEAT_STD_RGB := FEAT_STD_RGB Sim.env;
     FEAT_STD_NRGB := FEAT_STD_NRGB Sim.env;
     P_K65 := P_K65 Sim.env;
     P_K70 := P_K70 Sim.env;
     P_K70_NRGB := P_K70_NRGB Sim.env;
     NK95_HWOFF := NK95_HWOFF Sim.env;
     NK95_HWON := NK95_HWON Sim.env;
     keymap_system := keymap_system Sim.env;
     IS_RGB := IS_RGB Sim.env;
     NEEDS_FW_UPDATE := NEEDS_FW_UPDATE Sim.env;
     makedevpath := makedevpath Sim.env;
     rmdevpath := rmdevpath Sim.env;
     inputopen := inputopen Sim.env;
     inputclose := inputclose Sim.env;
     updateindicators := updateindicators Sim.env;
     nk95cmd := nk95cmd Sim.env;
     writefwnode := writefwnode Sim.env;
     getusbmode := getusbmode Sim.env;
     malloc := malloc Sim.env;
     free := free Sim.env;
     getfwversion := getfwversion Sim.env;
     findstore := findstore Sim.env;
     hwloadprofile := hwloadprofile Sim.env;
     addstore := addstore Sim.env;
     store_write := store_write Sim.env;
     freeprofile := freeprofile Sim.env;
     closehandle := closehandle Sim.env;
     notifyconnect := notifyconnect Sim.env;
     updateconnected := updateconnected Sim.env;
     setactive := sim_setactive_queued;
     updatergb := updatergb Sim.env;
     usbdequeue := usbdequeue Sim.env;
     os_resetusb := os_resetusb Sim.env |}.

(** A K95 without RGB whose [queuecount] is 3. *)
Definition stale_nonrgb : machine Sim.world :=
  Machine (set_queuecount 3 (dev live_nonrgb)) (features_mask live_nonrgb)
    (world live_nonrgb).

(** ** Well-formed queues *)

(** A well-formed command queue: the array of [QUEUE_LEN] slots, each with
    its buffer, and [queuecount] within it. *)
Definition queue_ok {W : Type} (E : Env W) (kb : usbdevice) : Prop :=
  0 <= queuecount kb <= QUEUE_LEN E
  /\ Z.of_nat (length (queue kb)) = QUEUE_LEN E
  /\ Forall is_Some (queue kb).

(** An enqueue request whose count is not negative and cannot overflow
    [queuecount + count]. *)
Definition enqueue_ok {W : Type} (E : Env W) (c : list byte * Z) : Prop :=
  0 <= snd c /\ snd c + QUEUE_LEN E <= INT_MAX.

(** The second record differs from the first in [queue] and [queuecount]
    at most. *)
Definition same_but_queue (kb kb' : usbdevice) : Prop :=
  kb' = set_queuecount (queuecount kb') (set_queue (queue kb') kb).

(** ** Sessions across a reset, and a device that never answers *)

(** The collaborators that [_resetusb] calls before it looks at
    [features], [hw] and [active] leave them alone. *)
Record reset_keeps_session {W : Type} (E : Env W) : Prop := {
  rs_os_resetusb : forall file line,
    keeps_r (fun kb => (features kb, hw kb, active kb))
            (fun kb => os_resetusb E kb file line);
  rs_getfwversion :
    keeps_r (fun kb => (hw kb, active kb)) (getfwversion E);
  rs_setactive : forall a, keeps hw (fun kb => setactive E kb a)
}.

(** The simulated daemon with a device whose firmware query fails every
    time, behind an OS reset that always succeeds. *)
Definition dead_firmware : Env Sim.world :=
  {| QUEUE_LEN := QUEUE_LEN Sim.env;
     MSG_SIZE := MSG_SIZE Sim.env;
     NAME_LEN := NAME_LEN Sim.env;
     FEAT_RGB := FEAT_RGB Sim.env;
     FEAT_FWVERSION := FEAT_FWVERSION Sim.env;
     FEAT_FWUPDATE := FEAT_FWUPDATE Sim.env;
     FEAT_STD_RGB := FEAT_STD_RGB Sim.env;
     FEAT_STD_NRGB := FEAT_STD_NRGB Sim.env;
     P_K65 := P_K65 Sim.env;
     P_K70 := P_K70 Sim.env;
     P_K70_NRGB := P_K70_NRGB Sim.env;
     NK95_HWOFF := NK95_HWOFF Sim.env;
     NK95_HWON := NK95_HWON Sim.env;
     keymap_system := keymap_system Sim.env;
     IS_RGB := IS_RGB Sim.env;
     NEEDS_FW_UPDATE := NEEDS_FW_UPDATE Sim.env;
     makedevpath := makedevpath Sim.env;
     rmdevpath := rmdevpath Sim.env;
     inputopen := inputopen Sim.env;
     inputclose := inputclose Sim.env;
     updateindicators := updateindicators Sim.env;
     nk95cmd := nk95cmd Sim.env;
     writefwnode := writefwnode Sim.env;
     getusbmode := getusbmode Sim.env;
     malloc := malloc Sim.env;
     free := free Sim.env;
     getfwversion := fun kb w => (-1, kb, w);
     findstore := findstore Sim.env;
     hwloadprofile := hwloadprofile Sim.env;
     addstore := addstore Sim.env;
     store_write := store_write Sim.env;
     freeprofile := freeprofile Sim.env;
     closehandle := closehandle Sim.env;
     notifyconnect := notifyconnect Sim.env;
     updateconnected := updateconnected Sim.env;
     setactive := setactive Sim.env;
     updatergb := updatergb Sim.env;
     usbdequeue := usbdequeue Sim.env;
     os_resetusb := fun kb _ _ w => (0, kb, w) |}.

(** ** Draining the queue *)

(** The calls of a drain loop whose dequeues returned [rs]: each dequeue
    after its delay. *)
Definition drain_calls (d : delay) (rs : list Z) : list event :=
  flat_map (fun r => [Ev_delay d; Ev_usbdequeue r]) rs.

(** A dequeue that sent a message took it off the queue. *)
Definition dequeue_progress {W : Type} (E : Env W) : Prop :=
  forall kb w,
    0 < fst (fst (usbdequeue E kb w)) ->
    queuecount (snd (fst (usbdequeue E kb w))) < queuecount kb.

(** ** A session from setup to teardown *)

(** The calls of a [setupusb] followed by a [closeusb] of the session it
    leaves. *)
Definition setup_then_close {W : Type} (E : Env W) (vendor product : Z)
    (s : machine W) : list event :=
  calls (setupusb E vendor product s)
    ++ calls (closeusb E (final (setupusb E vendor product s))).

(** The opened record in a calm world, with RGB masked out of every
    device. *)
Definition rgb_masked : machine Sim.world :=
  Machine Sim.opened (Z.lnot Sim.feat_rgb) Sim.calm.

(** ** The identity of a device *)

(** What [setupusb] resolves of a device before it attaches it: lines
    29-35. *)
Definition identity (kb : usbdevice) : Z * Z * Z * string :=
  (model kb, vendor kb, product kb, name kb).

(** The collaborators that [setupusb] hands the record to leave its
    identity alone. *)
Record setup_keeps_identity {W : Type} (E : Env W) : Prop := {
  ki_makedevpath : keeps_r identity (makedevpath E);
  ki_rmdevpath : keeps identity (rmdevpath E);
  ki_inputopen : keeps_r identity (inputopen E);
  ki_updateindicators : forall f,
    keeps identity (fun kb => updateindicators E kb f);
  ki_nk95cmd : forall c, keeps identity (fun kb => nk95cmd E kb c);
  ki_writefwnode : keeps identity (writefwnode E);
  ki_getfwversion : keeps_r identity (getfwversion E);
  ki_hwloadprofile : forall a,
    keeps_r identity (fun kb => hwloadprofile E kb a)
}.

(** A computation that leaves the identity of the record as it finds it. *)
Definition keeps_identity {W A : Type} (m : M W A) : Prop :=
  forall s, identity (dev (final (m s))) = identity (dev s).

(** The opened record with a name given by the OS layer. *)
Definition named : usbdevice := set_name "K70 on port 2" Sim.opened.

(** The record that a failed [setupusb] of a K70 RGB leaves behind, in a
    world where the control path can be made the next time. *)
Definition failed_slot : machine Sim.world :=
  Machine (dev (final (setupusb Sim.env Sim.v_corsair Sim.p_k70 no_devpath)))
    features_mask_init Sim.calm.

(** ** Proofs *)

Ltac unfold_m :=
  unfold bind, ret, get_dev, modify_dev, get_features_mask, emit, printf,
    usleep, pthread_mutex_init, pthread_mutex_lock, pthread_mutex_unlock,
    pthread_mutex_destroy, call_makedevpath, call_rmdevpath, call_inputopen,
    call_inputclose, call_updateindicators, call_nk95cmd, call_writefwnode,
    call_getusbmode, call_malloc, call_getfwversion,
    call_findstore, call_hwloadprofile, call_addstore, call_store_write,
    call_freeprofile, call_closehandle, call_notifyconnect,
    call_updateconnected, call_setactive, call_updatergb, call_usbdequeue,
    call_os_resetusb, call_int, call_void in *.

(** Name the outcome of the next call to a collaborator. *)
Ltac next_call :=
  match goal with
  | |- context [match ?x with pair _ _ => _ end] =>
      lazymatch x with
      | context [match _ with pair _ _ => _ end] => fail
      | _ => idtac
      end;
      let H := fresh "Hcall" in destruct x eqn:H; simpl
  end.

Lemma wrap_int_small (z : Z) : int_range z -> wrap_int z = z.
Proof.
  unfold int_range, INT_MIN, INT_MAX, wrap_int. intros H.
  rewrite Z.mod_small; lia.
Qed.

Lemma count_calls_app (f : event -> bool) (l1 l2 : list event) :
  count_calls f (l1 ++ l2) = (count_calls f l1 + count_calls f l2)%nat.
Proof. unfold count_calls. rewrite List.filter_app, length_app. reflexivity. Qed.

Lemma count_calls_cons (f : event -> bool) (e : event) (l : list event) :
  count_calls f (e :: l) = ((if f e then 1 else 0) + count_calls f l)%nat.
Proof. unfold count_calls. simpl. destruct (f e); reflexivity. Qed.

Lemma count_calls_none (f : event -> bool) (l : list event) :
  no_calls f l <-> count_calls f l = 0%nat.
Proof.
  unfold no_calls, count_calls. induction l as [|e l IH]; simpl.
  - split; [reflexivity | constructor].
  - destruct (f e) eqn:He; simpl.
    + split; [|discriminate]. intros H. inversion H; congruence.
    + rewrite <- IH. split.
      * intros H. inversion H; assumption.
      * intros H. constructor; assumption.
Qed.

Lemma no_calls_app (f : event -> bool) (l1 l2 : list event) :
  no_calls f (l1 ++ l2) <-> no_calls f l1 /\ no_calls f l2.
Proof. unfold no_calls. apply Forall_app. Qed.

Lemma no_calls_map (f : event -> bool) {A : Type} (g : A -> event) (l : list A) :
  (forall a, f (g a) = false) -> no_calls f (map g l).
Proof.
  intros H. unfold no_calls. apply List.Forall_forall. intros e He.
  apply in_map_iff in He. destruct He as [a [<- _]]. apply H.
Qed.

Section Proofs.

Context {W : Type} (E : Env W).

(** *** Loops *)

Lemma for_each_modify (g : nat -> usbdevice -> usbdevice) (l : list nat)
    (s : machine W) :
  for_each l (fun i => modify_dev (g i)) s =
    (tt,
     Machine (fold_left (fun kb i => g i kb) l (dev s)) (features_mask s) (world s),
     []).
Proof.
  revert s. induction l as [|i l IH]; intros s; simpl.
  - destruct s; reflexivity.
  - unfold bind at 1. unfold modify_dev at 1. rewrite IH. reflexivity.
Qed.

Lemma for_each_call_free (l : list nat) (s : machine W) :
  for_each l (call_free E) s =
    (tt,
     Machine (dev s) (features_mask s)
       (fold_left (fun w q => free E (default None (queue (dev s) !! q)) w)
          l (world s)),
     map Ev_free l).
Proof.
  revert s. induction l as [|q l IH]; intros s; simpl.
  - destruct s; reflexivity.
  - unfold bind at 1. unfold call_free at 1. rewrite IH. reflexivity.
Qed.

(** *** usbqueue *)

Lemma usbqueue_guard (messages : list byte) (count : Z) (s : machine W) :
  handle (dev s) = 0 \/ HAS_FEATURES (dev s) (FEAT_RGB E) = false ->
  usbqueue E messages count s = (0, s, []).
Proof.
  intros H. unfold usbqueue. unfold_m.
  assert (Hg : (handle (dev s) =? 0) || negb (HAS_FEATURES (dev s) (FEAT_RGB E)) = true).
  { destruct H as [H | H]; rewrite H; simpl; auto using orb_true_r. }
  simpl. rewrite Hg. reflexivity.
Qed.

Lemma usbqueue_full (messages : list byte) (count : Z) (s : machine W) :
  handle (dev s) <> 0 -> HAS_FEATURES (dev s) (FEAT_RGB E) = true ->
  wrap_int (queuecount (dev s) + count) > QUEUE_LEN E ->
  usbqueue E messages count s = (-1, s, []).
Proof.
  intros Hh Hf Hc. unfold usbqueue. unfold_m. simpl.
  apply Z.eqb_neq in Hh. rewrite Hh, Hf. simpl.
  apply Z.gt_lt, Z.gtb_lt in Hc. rewrite Hc. reflexivity.
Qed.

Lemma usbqueue_accept (messages : list byte) (count : Z) (s : machine W) :
  handle (dev s) <> 0 -> HAS_FEATURES (dev s) (FEAT_RGB E) = true ->
  wrap_int (queuecount (dev s) + count) <= QUEUE_LEN E ->
  usbqueue E messages count s =
    (0,
     Machine
       (set_queuecount
          (wrap_int (queuecount (copied E messages (Z.to_nat count) (dev s)) + count))
          (copied E messages (Z.to_nat count) (dev s)))
       (features_mask s) (world s),
     []).
Proof.
  intros Hh Hf Hc. unfold usbqueue, for_upto.
  unfold bind at 1. unfold get_dev at 1.
  apply Z.eqb_neq in Hh. rewrite Hh, Hf. simpl.
  assert (Hc' : (wrap_int (queuecount (dev s) + count) >? QUEUE_LEN E) = false).
  { destruct (Z.gtb_spec (wrap_int (queuecount (dev s) + count)) (QUEUE_LEN E)); [lia | reflexivity]. }
  rewrite Hc'. unfold bind at 1. rewrite for_each_modify.
  unfold_m. simpl. reflexivity.
Qed.

Lemma usbqueue_calls (messages : list byte) (count : Z) (s : machine W) :
  calls (usbqueue E messages count s) = [].
Proof.
  destruct (Z.eq_dec (handle (dev s)) 0) as [Hh | Hh].
  { rewrite usbqueue_guard by auto. reflexivity. }
  destruct (HAS_FEATURES (dev s) (FEAT_RGB E)) eqn:Hf.
  2:{ rewrite usbqueue_guard by auto. reflexivity. }
  destruct (Z_gt_le_dec (wrap_int (queuecount (dev s) + count)) (QUEUE_LEN E)).
  - rewrite usbqueue_full by auto. reflexivity.
  - rewrite usbqueue_accept by auto. reflexivity.
Qed.

Lemma copied_queuecount (messages : list byte) (n : nat) (kb : usbdevice) :
  queuecount (copied E messages n kb) = queuecount kb.
Proof.
  unfold copied. generalize (seq 0 n) as l. intros l. revert kb.
  induction l as [|i l IH]; intros kb; simpl; [reflexivity|].
  rewrite IH. reflexivity.
Qed.

Lemma usbqueue_bounded (messages : list byte) (count : Z) (s : machine W) :
  queuecount (dev s) <= QUEUE_LEN E ->
  queuecount (dev (final (usbqueue E messages count s))) <= QUEUE_LEN E.
Proof.
  intros Hq.
  destruct (Z.eq_dec (handle (dev s)) 0) as [Hh | Hh].
  { rewrite usbqueue_guard by auto. exact Hq. }
  destruct (HAS_FEATURES (dev s) (FEAT_RGB E)) eqn:Hf.
  2:{ rewrite usbqueue_guard by auto. exact Hq. }
  destruct (Z_gt_le_dec (wrap_int (queuecount (dev s) + count)) (QUEUE_LEN E)).
  - rewrite usbqueue_full by auto. exact Hq.
  - rewrite usbqueue_accept by auto. simpl.
    rewrite copied_queuecount. assumption.
Qed.

Lemma enqueue_all_bounded (l : list (list byte * Z)) (s : machine W) :
  queuecount (dev s) <= QUEUE_LEN E ->
  queuecount (dev (enqueue_all E l s)) <= QUEUE_LEN E.
Proof.
  revert s. induction l as [|[messages count] l IH]; intros s Hq; simpl.
  - exact Hq.
  - apply IH. apply usbqueue_bounded. exact Hq.
Qed.

Lemma queue_store_ok (q : list slot) (idx : Z) (src : list byte) :
  0 <= idx < Z.of_nat (length q) -> Forall is_Some q ->
  queue_store q idx src = <[Z.to_nat idx := Some src]> q.
Proof.
  intros Hi Hq. unfold queue_store.
  destruct (Z.ltb_spec idx 0) as [|_]; [lia|].
  destruct (q !! Z.to_nat idx) as [x|] eqn:Hl.
  - rewrite Forall_lookup in Hq. destruct (Hq _ _ Hl) as [b ->]. reflexivity.
  - apply lookup_ge_None in Hl. exfalso. lia.
Qed.

Lemma copied_spec (messages : list byte) (kb : usbdevice) (n : nat) :
  0 <= queuecount kb ->
  queuecount kb + Z.of_nat n <= Z.of_nat (length (queue kb)) ->
  queuecount kb + Z.of_nat n <= INT_MAX ->
  Forall is_Some (queue kb) ->
  0 <= MSG_SIZE E -> MSG_SIZE E * Z.of_nat n <= INT_MAX ->
  let kb' := copied E messages n kb in
  kb' = set_queue (queue kb') kb
  /\ length (queue kb') = length (queue kb)
  /\ Forall is_Some (queue kb')
  /\ (forall i, (i < n)%nat ->
        queue kb' !! (Z.to_nat (queuecount kb) + i)%nat =
          Some (Some (take (Z.to_nat (MSG_SIZE E))
                        (drop (Z.to_nat (MSG_SIZE E) * i) messages))))
  /\ (forall j, (j < Z.to_nat (queuecount kb) \/ Z.to_nat (queuecount kb) + n <= j)%nat ->
        queue kb' !! j = queue kb !! j).
Proof.
  intros H0. induction n as [|n IH]; intros Hlen Hmax Hall Hm Hmm.
  - simpl. repeat split; auto.
    + destruct kb; reflexivity.
    + intros i Hi. lia.
  - unfold copied. rewrite seq_S, fold_left_app. simpl.
    fold (copied E messages n kb).
    destruct IH as (Heq & Hl & Hs & Hin & Hout); try lia; auto; try nia.
    set (kb1 := copied E messages n kb) in *.
    assert (Hqc : queuecount kb1 = queuecount kb) by apply copied_queuecount.
    rewrite Hqc.
    rewrite wrap_int_small by (unfold int_range, INT_MIN; lia).
    rewrite queue_store_ok by (auto; lia).
    unfold msg_at.
    rewrite wrap_int_small by (unfold int_range, INT_MIN; nia).
    replace (Z.to_nat (queuecount kb + Z.of_nat n))
      with (Z.to_nat (queuecount kb) + n)%nat by lia.
    replace (Z.to_nat (MSG_SIZE E * Z.of_nat n))
      with (Z.to_nat (MSG_SIZE E) * n)%nat by nia.
    simpl. repeat split.
    + rewrite Heq at 2. reflexivity.
    + rewrite length_insert. exact Hl.
    + apply Forall_insert; [exact Hs | eexists; reflexivity].
    + intros i Hi. destruct (Nat.eq_dec i n) as [-> | Hne].
      * apply list_lookup_insert_eq. lia.
      * rewrite list_lookup_insert_ne by lia. apply Hin. lia.
    + intros j Hj. rewrite list_lookup_insert_ne by lia. apply Hout. lia.
Qed.

(** *** closeusb *)

Lemma filter_map_free_self (l : list nat) :
  List.filter is_free (map Ev_free l) = map Ev_free l.
Proof. induction l as [|q l IH]; simpl; [reflexivity | rewrite IH; reflexivity]. Qed.

Lemma filter_map_free_other (f : event -> bool) (l : list nat) :
  (forall q, f (Ev_free q) = false) -> List.filter f (map Ev_free l) = [].
Proof.
  intros Hf. induction l as [|q l IH]; simpl; [reflexivity|].
  rewrite Hf. exact IH.
Qed.

Lemma persist_calls_cases (kb : usbdevice) (entry : Z) :
  (fwversion kb = 0 /\ persist_calls kb entry = [Ev_freeprofile])
  \/ (fwversion kb <> 0
      /\ persist_calls kb entry =
           [Ev_addstore (serial (profile kb)) 0 entry;
            Ev_store_write entry (profile kb)]).
Proof.
  unfold persist_calls. destruct (Z.eqb_spec (fwversion kb) 0); auto.
Qed.

Lemma closeusb_noop (s : machine W) :
  infifo (dev s) = 0 -> closeusb E s = (0, s, []).
Proof.
  intros H. unfold closeusb. unfold_m. rewrite H. reflexivity.
Qed.

(** The calls of a teardown of a record without a transport handle. *)
Lemma closeusb_nohandle (s : machine W) :
  infifo (dev s) <> 0 -> handle (dev s) = 0 ->
  exists w',
    closeusb E s =
      (0, Machine (usbdevice_zero E) (features_mask s) w',
       [Ev_mutex_lock Keymutex; Ev_updateconnected; Ev_rmdevpath;
        Ev_mutex_unlock Keymutex; Ev_mutex_destroy Keymutex;
        Ev_mutex_unlock Mutex; Ev_mutex_destroy Mutex]).
Proof.
  intros Hi Hh. unfold closeusb. unfold_m.
  apply Z.eqb_neq in Hi. rewrite Hi. simpl. rewrite Hh. simpl.
  next_call. eexists. reflexivity.
Qed.

(** The calls of a teardown of a record with a transport handle. *)
Lemma closeusb_handle (s : machine W) :
  infifo (dev s) <> 0 -> handle (dev s) <> 0 ->
  let kb0 := set_lock Keymutex LkLocked (dev s) in
  let kb1 := fst (inputclose E kb0 (world s)) in
  exists entry w',
    closeusb E s =
      (0, Machine (usbdevice_zero E) (features_mask s) w',
       [Ev_mutex_lock Keymutex;
        Ev_printf ("Disconnecting " ++ name kb0 ++ " (S/N: "
                     ++ serial (profile kb0) ++ ")
");
        Ev_inputclose; Ev_updateconnected]
       ++ map Ev_free (seq 0 (Z.to_nat (QUEUE_LEN E)))
       ++ persist_calls kb1 entry
       ++ [Ev_closehandle; Ev_notifyconnect 0; Ev_rmdevpath;
           Ev_mutex_unlock Keymutex; Ev_mutex_destroy Keymutex;
           Ev_mutex_unlock Mutex; Ev_mutex_destroy Mutex]).
Proof.
  intros Hi Hh. cbv zeta. unfold closeusb, for_upto.
  unfold bind at 1. unfold get_dev at 1.
  apply Z.eqb_neq in Hi. rewrite Hi.
  unfold bind at 1. unfold pthread_mutex_lock at 1. unfold_m. simpl.
  apply Z.eqb_neq in Hh. rewrite Hh. simpl.
  next_call. rewrite for_each_call_free. simpl.
  unfold persist_calls.
  destruct (fwversion u =? 0); simpl.
  - repeat next_call. exists 0. eexists.
    rewrite <- !app_assoc. reflexivity.
  - repeat next_call. do 2 eexists.
    rewrite <- !app_assoc. reflexivity.
Qed.

(** *** revertusb *)

(** A record of calls without a failed dequeue cannot be cut at one. *)
Lemma clean_split (good tail pre post : list event) (r : Z) :
  no_calls is_failed_dequeue good -> r <= 0 ->
  good ++ tail = pre ++ Ev_usbdequeue r :: post ->
  exists pre', pre = good ++ pre' /\ tail = pre' ++ Ev_usbdequeue r :: post.
Proof.
  intros Hgood Hr. revert pre.
  induction good as [|e good IH]; intros pre Heq; simpl in *.
  - exists pre. auto.
  - inversion Hgood as [|? ? He Hgood']; subst.
    destruct pre as [|e' pre]; simpl in Heq; inversion Heq; subst.
    + simpl in He. apply Z.leb_gt in He. lia.
    + destruct (IH Hgood' pre) as (pre' & -> & ->); [assumption|].
      exists pre'. auto.
Qed.

(** A drain loop makes no call after a dequeue that sent nothing. *)
Lemma drain_shape (d : delay) (fuel : nat) (s : machine W) :
  exists good,
    no_calls is_failed_dequeue good
    /\ match result (drain E d fuel s) with
       | Returned r =>
           r = -1 /\ exists x, x <= 0
             /\ calls (drain E d fuel s) = good ++ [Ev_usbdequeue x]
       | _ => calls (drain E d fuel s) = good
       end.
Proof.
  revert s. induction fuel as [|fuel IH]; intros s; simpl; unfold_m.
  - destruct (queuecount (dev s) >? 0); simpl; exists []; split;
      auto; constructor.
  - destruct (queuecount (dev s) >? 0); simpl.
    2:{ exists []. split; [constructor | reflexivity]. }
    destruct (usbdequeue E (dev s) (world s)) as [[r kb] w]. simpl.
    destruct (Z.leb_spec r 0) as [Hr | Hr]; simpl.
    + exists [Ev_delay d]. split.
      * constructor; [reflexivity | constructor].
      * split; [reflexivity|]. exists r. auto.
    + destruct (IH (Machine kb (features_mask s) w)) as (good & Hgood & Hres).
      destruct (drain E d fuel (Machine kb (features_mask s) w)) as [[x s'] l].
      simpl in *.
      exists (Ev_delay d :: Ev_usbdequeue r :: good). split.
      * constructor; [reflexivity|].
        constructor; [simpl; apply Z.leb_gt; lia | assumption].
      * destruct x as [|r'|]; unfold result, calls in *; simpl in *;
          [subst; reflexivity | | subst; reflexivity].
        destruct Hres as (-> & x & Hx & ->). split; [reflexivity|].
        exists x. auto.
Qed.

Lemma revertusb_shape (fuel : nat) (s : machine W) :
  exists good,
    no_calls is_failed_dequeue good
    /\ ((calls (revertusb E fuel s) = good
         /\ result (revertusb E fuel s) <> Some (-1))
        \/ (exists x, x <= 0
            /\ calls (revertusb E fuel s) = good ++ [Ev_usbdequeue x]
            /\ result (revertusb E fuel s) = Some (-1))).
Proof.
  unfold revertusb. unfold_m. unfold result, calls.
  destruct (NEEDS_FW_UPDATE E (dev s)); simpl.
  { exists []. split; [constructor|]. left. split; [reflexivity | discriminate]. }
  destruct (HAS_FEATURES (dev s) (FEAT_RGB E)); simpl.
  2:{ destruct (nk95cmd E (dev s) (NK95_HWON E) (world s)). simpl.
      exists [Ev_nk95cmd (NK95_HWON E)]. split.
      - constructor; [reflexivity | constructor].
      - left. split; [reflexivity | discriminate]. }
  destruct (drain_shape DELAY_SHORT fuel s) as (good1 & Hgood1 & Hres1).
  unfold result, calls in Hres1.
  destruct (drain E DELAY_SHORT fuel s) as [[x s1] l1]. simpl in Hres1.
  destruct x as [|r|]; simpl.
  - subst l1.
    destruct (setactive E (dev s1) 0 (world s1)) as [kb2 w2]. simpl.
    destruct (drain_shape DELAY_MEDIUM fuel (Machine kb2 (features_mask s1) w2))
      as (good2 & Hgood2 & Hres2).
    unfold result, calls in Hres2.
    destruct (drain E DELAY_MEDIUM fuel (Machine kb2 (features_mask s1) w2))
      as [[y s2] l2]. simpl in Hres2.
    assert (Hmid : no_calls is_failed_dequeue
              (good1 ++ Ev_delay DELAY_MEDIUM :: Ev_setactive 0 :: good2)).
    { apply no_calls_app. split; [assumption|].
      constructor; [reflexivity|]. constructor; [reflexivity | assumption]. }
    destruct y as [|r|]; simpl.
    + subst l2. rewrite app_nil_r. eexists. split; [exact Hmid|].
      left. split; [reflexivity | discriminate].
    + destruct Hres2 as (-> & x & Hx & ->). rewrite app_nil_r.
      eexists. split; [exact Hmid|]. right. exists x.
      split; [assumption|]. split; [|reflexivity].
      simpl. rewrite <- app_assoc. reflexivity.
    + subst l2. rewrite app_nil_r. eexists. split; [exact Hmid|].
      left. split; [reflexivity | discriminate].
  - destruct Hres1 as (-> & x & Hx & ->). rewrite app_nil_r.
    exists good1. split; [assumption|]. right. exists x. auto.
  - subst l1. rewrite app_nil_r. exists good1. split; [assumption|].
    left. split; [reflexivity | discriminate].
Qed.

Lemma revertusb_update_pending (fuel : nat) (s : machine W) :
  NEEDS_FW_UPDATE E (dev s) = true -> revertusb E fuel s = (Some 0, s, []).
Proof.
  intros H. unfold revertusb. unfold_m. rewrite H. reflexivity.
Qed.

Lemma revertusb_nonrgb_no_dequeue (fuel : nat) (s : machine W) :
  HAS_FEATURES (dev s) (FEAT_RGB E) = false ->
  no_calls is_usbdequeue (calls (revertusb E fuel s)).
Proof.
  intros Hf. unfold revertusb. unfold_m. unfold calls.
  destruct (NEEDS_FW_UPDATE E (dev s)); simpl; [constructor|].
  rewrite Hf. simpl.
  destruct (nk95cmd E (dev s) (NK95_HWON E) (world s)). simpl.
  repeat constructor.
Qed.

(** *** _resetusb *)

(** A failed OS reset ends the attempt at once, with the OS result. *)
Lemma resetusb_os_fail (s : machine W) (r : Z) (kb : usbdevice) (w : W) :
  os_resetusb E (dev s) "usb.c" 178 (world s) = (r, kb, w) -> r <> 0 ->
  resetusb E s =
    (r, Machine kb (features_mask s) w,
     [Ev_delay DELAY_LONG; Ev_os_resetusb r]).
Proof.
  intros Hos Hr. unfold resetusb, _resetusb. unfold_m. simpl.
  rewrite Hos. simpl. apply Z.eqb_neq in Hr. rewrite Hr. reflexivity.
Qed.

(** One attempt makes one OS reset; a non-zero OS result is passed on, and
    after a successful OS reset the attempt returns 0 or -1. *)
Lemma resetusb_calls (s : machine W) :
  exists r0 rest,
    calls (resetusb E s) = Ev_delay DELAY_LONG :: Ev_os_resetusb r0 :: rest
    /\ no_calls is_os_resetusb rest
    /\ (r0 <> 0 -> result (resetusb E s) = r0)
    /\ (r0 = 0 -> result (resetusb E s) = 0 \/ result (resetusb E s) = -1).
Proof.
  unfold resetusb, _resetusb. unfold_m. unfold result, calls. simpl.
  destruct (os_resetusb E (dev s) "usb.c" 178 (world s)) as [[r0 kb0] w0].
  simpl. exists r0.
  assert (Hleaf : forall (res : Z) (rest : list event),
    no_calls is_os_resetusb rest ->
    (r0 <> 0 -> res = r0) -> (r0 = 0 -> res = 0 \/ res = -1) ->
    exists rest0,
      Ev_delay DELAY_LONG :: Ev_os_resetusb r0 :: rest =
        Ev_delay DELAY_LONG :: Ev_os_resetusb r0 :: rest0
      /\ no_calls is_os_resetusb rest0
      /\ (r0 <> 0 -> res = r0)
      /\ (r0 = 0 -> res = 0 \/ res = -1)).
  { intros res rest H1 H2 H3. exists rest. auto. }
  destruct (Z.eqb_spec r0 0) as [-> | Hr0]; simpl.
  2:{ apply Hleaf; [constructor | auto | tauto]. }
  destruct (HAS_FEATURES _ _); simpl.
  2:{ apply Hleaf; [repeat constructor | tauto | auto]. }
  destruct (getfwversion E _ _) as [[r1 kb1] w1]. simpl.
  destruct (r1 =? 0); simpl.
  2:{ apply Hleaf; [repeat constructor | tauto | auto]. }
  destruct (NEEDS_FW_UPDATE E kb1); simpl.
  { apply Hleaf; [repeat constructor | tauto | auto]. }
  destruct (setactive E kb1 (active kb1) w1) as [kb2 w2]. simpl.
  destruct (hw kb2 =? 0); simpl.
  - destruct (findstore E _ _) as [[p|] w3]; simpl;
      destruct (hwloadprofile E _ _ _) as [[r4 kb4] w4]; simpl;
      destruct (updatergb E _ _ _) as [kb5 w5]; simpl;
      (apply Hleaf; [repeat constructor | tauto | destruct (r4 =? 0); auto]).
  - destruct (updatergb E _ _ _) as [kb5 w5]; simpl.
    apply Hleaf; [repeat constructor | tauto | auto].
Qed.

Lemma resetusb_one_os_reset (s : machine W) :
  count_calls is_os_resetusb (calls (resetusb E s)) = 1%nat.
Proof.
  destruct (resetusb_calls s) as (r0 & rest & -> & Hrest & _).
  apply count_calls_none in Hrest.
  unfold count_calls in *. simpl. rewrite Hrest. reflexivity.
Qed.

Lemma resetusb_minus2 (s : machine W) :
  result (resetusb E s) = -2 <-> In (Ev_os_resetusb (-2)) (calls (resetusb E s)).
Proof.
  destruct (resetusb_calls s) as (r0 & rest & -> & Hrest & Hne & Heq).
  split.
  - intros Hres. destruct (Z.eq_dec r0 0) as [-> | Hr0].
    + destruct (Heq eq_refl); lia.
    + rewrite (Hne Hr0) in Hres. subst. simpl. auto.
  - intros [Hin | [Hin | Hin]]; [discriminate | |].
    + inversion Hin; subst. apply Hne. lia.
    + unfold no_calls in Hrest. rewrite List.Forall_forall in Hrest.
      apply Hrest in Hin. discriminate.
Qed.

(** A failed firmware query or profile load makes the attempt return -1. *)
Lemma resetusb_reinit_failure (s : machine W) (e : event) :
  In e (calls (resetusb E s)) -> is_reinit_failure e = true ->
  result (resetusb E s) = -1.
Proof.
  destruct (resetusb E s) as [[res s'] l] eqn:Hrun.
  unfold result, calls. cbn [fst snd].
  unfold resetusb, _resetusb in Hrun. unfold_m. simpl in Hrun.
  destruct (os_resetusb E (dev s) "usb.c" 178 (world s)) as [[r0 kb0] w0].
  simpl in Hrun.
  assert (Hin : forall l0 : list event,
    (forall e0, In e0 l0 -> is_reinit_failure e0 = false) ->
    In e l0 -> is_reinit_failure e = true -> res = -1).
  { intros l0 Hl0 Hin He. rewrite (Hl0 e Hin) in He. discriminate. }
  assert (Hclean : forall l0 : list event,
    Forall (fun e0 => is_reinit_failure e0 = false) l0 ->
    forall e0, In e0 l0 -> is_reinit_failure e0 = false).
  { intros l0 Hl0. apply List.Forall_forall. exact Hl0. }
  destruct (r0 =? 0); simpl in Hrun.
  2:{ inversion Hrun; subst. apply Hin, Hclean. repeat constructor. }
  destruct (HAS_FEATURES _ _); simpl in Hrun.
  2:{ inversion Hrun; subst. apply Hin, Hclean. repeat constructor. }
  destruct (getfwversion E _ _) as [[r1 kb1] w1]. simpl in Hrun.
  destruct (r1 =? 0) eqn:Hr1; simpl in Hrun.
  2:{ inversion Hrun; subst. reflexivity. }
  destruct (NEEDS_FW_UPDATE E kb1); simpl in Hrun.
  { inversion Hrun; subst. apply Hin, Hclean.
    repeat (constructor; [simpl; try rewrite Hr1; reflexivity|]). constructor. }
  destruct (setactive E kb1 (active kb1) w1) as [kb2 w2]. simpl in Hrun.
  destruct (hw kb2 =? 0); simpl in Hrun.
  - destruct (findstore E _ _) as [[p|] w3]; simpl in Hrun;
      destruct (hwloadprofile E _ _ _) as [[r4 kb4] w4]; simpl in Hrun;
      destruct (updatergb E _ _ _) as [kb5 w5]; simpl in Hrun;
      destruct (r4 =? 0) eqn:Hr4; simpl in Hrun; inversion Hrun; subst;
      try reflexivity;
      (apply Hin, Hclean;
       repeat (constructor;
               [simpl; try rewrite Hr1; try rewrite Hr4; reflexivity|]);
       constructor).
  - destruct (updatergb E _ _ _) as [kb5 w5]; simpl in Hrun.
    inversion Hrun; subst. apply Hin, Hclean.
    repeat (constructor; [simpl; try rewrite Hr1; reflexivity|]). constructor.
Qed.

(** *** usb_tryreset *)

Lemma usb_tryreset_loop_S (fuel : nat) (s : machine W) :
  usb_tryreset_loop E (S fuel) s =
    let '(res, s1, l1) := resetusb E s in
    if res =? 0 then
      (Returned 0, s1, Ev_delay DELAY_LONG :: l1 ++ [Ev_printf "Reset success
"])
    else if res =? -2 then (Fell_through, s1, Ev_delay DELAY_LONG :: l1 ++ [])
    else
      let '(x, s2, l2) := usb_tryreset_loop E fuel s1 in
      (x, s2, Ev_delay DELAY_LONG :: l1 ++ l2).
Proof.
  simpl. unfold bind, usleep, printf, emit, ret. simpl.
  destruct (resetusb E s) as [[res s1] l1].
  destruct (res =? 0); [reflexivity|].
  destruct (res =? -2); [reflexivity|].
  destruct (usb_tryreset_loop E fuel s1) as [[x s2] l2]. reflexivity.
Qed.

Lemma usb_tryreset_loop_shape (fuel : nat) (s : machine W) :
  match result (usb_tryreset_loop E fuel s) with
  | Returned r =>
      r = 0 /\ ~ In (Ev_os_resetusb (-2)) (calls (usb_tryreset_loop E fuel s))
  | Fell_through =>
      In (Ev_os_resetusb (-2)) (calls (usb_tryreset_loop E fuel s))
  | Out_of_fuel =>
      ~ In (Ev_os_resetusb (-2)) (calls (usb_tryreset_loop E fuel s))
      /\ count_calls is_os_resetusb (calls (usb_tryreset_loop E fuel s)) = fuel
  end.
Proof.
  revert s. induction fuel as [|fuel IH]; intros s.
  - simpl. unfold ret, result, calls. simpl. auto.
  - rewrite usb_tryreset_loop_S.
    pose proof (resetusb_minus2 s) as Hm2.
    pose proof (resetusb_one_os_reset s) as Hone.
    unfold result, calls in *.
    destruct (resetusb E s) as [[res s1] l1]. simpl in *.
    destruct (Z.eqb_spec res 0) as [-> | Hres]; simpl.
    { split; [reflexivity|].
      intros [Hin | Hin]; [discriminate|].
      apply in_app_or in Hin. destruct Hin as [Hin | [Hin | []]];
        [|discriminate].
      apply Hm2 in Hin. lia. }
    destruct (Z.eqb_spec res (-2)) as [-> | Hres2]; simpl.
    { right. apply in_or_app. left. apply Hm2. reflexivity. }
    specialize (IH s1).
    destruct (usb_tryreset_loop E fuel s1) as [[x s2] l2]. simpl in *.
    assert (Hno : ~ In (Ev_os_resetusb (-2)) l1) by (rewrite <- Hm2; assumption).
    destruct x as [|r|]; simpl.
    + right. apply in_or_app. right. assumption.
    + destruct IH as [-> IH]. split; [reflexivity|].
      intros [Hin | Hin]; [discriminate|].
      apply in_app_or in Hin. tauto.
    + destruct IH as [IH Hc]. split.
      * intros [Hin | Hin]; [discriminate|].
        apply in_app_or in Hin. tauto.
      * rewrite count_calls_cons, count_calls_app, Hone, Hc. reflexivity.
Qed.

(** [n] failed OS resets and then a good attempt: the loop makes [n + 1]
    attempts and returns 0, whatever bound above [n] it is run with. *)
Lemma usb_tryreset_loop_retries (n k : nat) (s : machine W) :
  os_fails_then_ok E n s ->
  result (usb_tryreset_loop E (n + S k) s) = Returned 0
  /\ count_calls is_os_resetusb (calls (usb_tryreset_loop E (n + S k) s))
     = S n.
Proof.
  revert s. induction n as [|n IH]; intros s Hs.
  - change (0 + S k)%nat with (S k). rewrite usb_tryreset_loop_S.
    simpl in Hs.
    pose proof (resetusb_one_os_reset s) as Hone.
    unfold result, calls in *.
    destruct (resetusb E s) as [[res s1] l1]. simpl in *. subst res. simpl.
    split; [reflexivity|].
    rewrite count_calls_cons, count_calls_app, Hone. reflexivity.
  - change (S n + S k)%nat with (S (n + S k)). rewrite usb_tryreset_loop_S.
    simpl in Hs.
    destruct (os_resetusb E (dev s) "usb.c" 178 (world s)) as [[r kb] w] eqn:Hos.
    destruct Hs as (Hr0 & Hr2 & Hs).
    rewrite (resetusb_os_fail s r kb w Hos Hr0).
    apply Z.eqb_neq in Hr0, Hr2. rewrite Hr0, Hr2.
    specialize (IH _ Hs). unfold result, calls in *.
    destruct (usb_tryreset_loop E (n + S k) (Machine kb (features_mask s) w))
      as [[x s2] l2]. simpl in *.
    destruct IH as [-> Hc]. split; [reflexivity|].
    rewrite !count_calls_cons, Hc. reflexivity.
Qed.

(** *** setupusb *)

Lemma no_calls_mallocs (f : event -> bool) (size : Z) (l : list nat) :
  f (Ev_malloc size) = false ->
  no_calls f (map (fun _ => Ev_malloc size) l).
Proof. intros H. apply no_calls_map. intros _. exact H. Qed.

Lemma count_mallocs (size : Z) (l : list nat) :
  count_calls is_malloc (map (fun _ => Ev_malloc size) l) = length l.
Proof.
  unfold count_calls. induction l as [|q l IH]; simpl; [reflexivity|].
  rewrite IH. reflexivity.
Qed.

Lemma no_calls_in (f : event -> bool) (l : list event) (e : event) :
  no_calls f l -> In e l -> f e = false.
Proof.
  unfold no_calls. rewrite List.Forall_forall. intros H Hin. apply H, Hin.
Qed.

(** A feature set that lacks a bit keeps lacking it under any mask. *)
Lemma land_mask_lacks (n m r : Z) :
  Z.land n r <> r -> Z.land (Z.land n m) r <> r.
Proof.
  intros Hn Hm. apply Hn.
  rewrite <- Hm at 1.
  rewrite Z.land_assoc, (Z.land_assoc n n m), Z.land_diag. exact Hm.
Qed.

Lemma setupusb_eq (vendor product : Z) (s : machine W) :
  setupusb E vendor product s =
    let '(o, s1, l1) := setupusb_attach E vendor product s in
    match o with
    | Some r => (r, s1, l1 ++ [])
    | None =>
        if negb (HAS_FEATURES (dev s1) (FEAT_RGB E)) then
          let '(r, s2, l2) := setupusb_nonrgb E s1 in (r, s2, l1 ++ l2)
        else
          let '(_, s2, l2) := setupusb_queue E s1 in
          let '(r, s3, l3) := setupusb_firmware E s2 in
          (r, s3, l1 ++ l2 ++ l3)
    end.
Proof.
  unfold setupusb. unfold bind at 1.
  destruct (setupusb_attach E vendor product s) as [[[r|] s1] l1].
  - reflexivity.
  - unfold bind at 1. unfold get_dev at 1.
    destruct (negb (HAS_FEATURES (dev s1) (FEAT_RGB E))).
    + destruct (setupusb_nonrgb E s1) as [[r s2] l2]. reflexivity.
    + unfold bind.
      destruct (setupusb_queue E s1) as [[[] s2] l2].
      destruct (setupusb_firmware E s2) as [[r s3] l3]. reflexivity.
Qed.

(** The queue loop calls [malloc] once per slot and changes nothing but
    the queue pointers. *)
Lemma setupusb_queue_run (s : machine W) :
  exists q' w',
    setupusb_queue E s =
      (tt, Machine (set_queue q' (dev s)) (features_mask s) w',
       map (fun _ => Ev_malloc (MSG_SIZE E)) (seq 0 (Z.to_nat (QUEUE_LEN E)))).
Proof.
  unfold setupusb_queue, for_upto.
  generalize (seq 0 (Z.to_nat (QUEUE_LEN E))) as l. intros l. revert s.
  induction l as [|q l IH]; intros s; simpl.
  - exists (queue (dev s)), (world s). destruct s as [[] ? ?]. reflexivity.
  - unfold bind at 1. unfold bind at 1. unfold call_malloc at 1.
    destruct (malloc E (MSG_SIZE E) (world s)) as [b w1].
    unfold modify_dev at 1. simpl.
    match goal with |- context [for_each l ?body ?m] =>
      destruct (IH m) as (q' & w' & Hrun) end.
    rewrite Hrun. simpl.
    exists q', w'. reflexivity.
Qed.

(** How the first part of [setupusb] (lines 28-59) ends. *)
Lemma setupusb_attach_run (vendor product : Z) (s s1 : machine W)
    (o : option Z) (l1 : list event) :
  setupusb_attach E vendor product s = (o, s1, l1) ->
  match o with
  | Some x =>
      x = -1
      /\ ((exists r, r <> 0 /\
             l1 = [Ev_mutex_init Mutex; Ev_mutex_init Keymutex;
                   Ev_mutex_lock Mutex; Ev_makedevpath r;
                   Ev_mutex_unlock Mutex; Ev_mutex_destroy Mutex;
                   Ev_mutex_destroy Keymutex])
          \/ l1 = [Ev_mutex_init Mutex; Ev_mutex_init Keymutex;
                   Ev_mutex_lock Mutex; Ev_makedevpath 0; Ev_inputopen 0;
                   Ev_rmdevpath; Ev_mutex_unlock Mutex;
                   Ev_mutex_destroy Mutex; Ev_mutex_destroy Keymutex])
  | None =>
      exists r, r <> 0 /\
        l1 = [Ev_mutex_init Mutex; Ev_mutex_init Keymutex;
              Ev_mutex_lock Mutex; Ev_makedevpath 0; Ev_inputopen r;
              Ev_updateindicators 1]
  end.
Proof.
  unfold setupusb_attach. unfold_m. simpl. intros Hrun.
  destruct (String.eqb _ _); simpl in Hrun.
  all: destruct (makedevpath E _ _) as [[r kb] w]; simpl in Hrun.
  all: destruct (Z.eqb_spec r 0) as [-> | Hr]; simpl in Hrun.
  all: try (inversion Hrun; subst; split; [reflexivity|]; left; exists r;
            split; [assumption | reflexivity]).
  all: destruct (inputopen E _ _) as [[r' kb'] w']; simpl in Hrun.
  all: destruct (Z.eqb_spec r' 0) as [-> | Hr']; simpl in Hrun.
  all: try (destruct (rmdevpath E _ _); simpl in Hrun; inversion Hrun; subst;
            split; [reflexivity|]; right; reflexivity).
  all: destruct (updateindicators E _ _ _); simpl in Hrun; inversion Hrun; subst;
         exists r'; split; [assumption | reflexivity].
Qed.

Lemma setupusb_attach_keeps (vendor product : Z) (s s1 : machine W)
    (l1 : list event) :
  attach_keeps E ->
  setupusb_attach E vendor product s = (None, s1, l1) ->
  model (dev s1) =
    (if product =? P_K65 E then 65
     else if (product =? P_K70 E) || (product =? P_K70_NRGB E) then 70
     else 95)
  /\ features (dev s1) =
       Z.land (if IS_RGB E vendor product then FEAT_STD_RGB E
               else FEAT_STD_NRGB E) (features_mask s)
  /\ queue (dev s1) = queue (dev s)
  /\ features_mask s1 = features_mask s.
Proof.
  intros [Hmk Hio Hui _ _ _]. unfold setupusb_attach. unfold_m. simpl.
  intros Hrun.
  destruct (String.eqb _ _); simpl in Hrun.
  all: match type of Hrun with
       | context [makedevpath E ?kb ?w] =>
           pose proof (Hmk kb w) as F1;
           destruct (makedevpath E kb w) as [[r kb1] w1]
       end; simpl in Hrun, F1.
  all: destruct (r =? 0); simpl in Hrun; [|discriminate].
  all: pose proof (Hio kb1 w1) as F2;
       destruct (inputopen E kb1 w1) as [[r' kb2] w2]; simpl in Hrun, F2.
  all: destruct (r' =? 0); simpl in Hrun;
       [destruct (rmdevpath E kb2 w2); discriminate|].
  all: pose proof (Hui 1 kb2 w2) as F3;
       destruct (updateindicators E kb2 1 w2) as [kb3 w3]; simpl in Hrun, F3.
  all: inversion Hrun; subst; simpl.
  all: inversion F1; inversion F2; inversion F3; repeat split; congruence.
Qed.

(** The branch for a board without RGB returns 0, leaves [pollrate] at -1
    and allocates nothing. *)
Lemma setupusb_nonrgb_run (s s2 : machine W) (r : Z) (l2 : list event) :
  setupusb_nonrgb E s = (r, s2, l2) ->
  r = 0 /\ pollrate (dev s2) = -1
  /\ no_calls is_malloc l2 /\ no_calls is_unwind l2
  /\ no_calls is_usbdequeue l2 /\ no_calls is_getfwversion l2.
Proof.
  unfold setupusb_nonrgb. unfold_m. simpl. intros Hrun.
  destruct (nk95cmd E _ _ _) as [kb1 w1]; simpl in Hrun.
  destruct (writefwnode E _ _) as [kb2 w2]; simpl in Hrun.
  destruct (getusbmode E 0 _ _) as [m0 p0]; simpl in Hrun.
  destruct (model kb2 =? 95); simpl in Hrun.
  - destruct (getusbmode E 1 _ _) as [m1 p1]; simpl in Hrun.
    destruct (getusbmode E 2 _ _) as [m2 p2]; simpl in Hrun.
    inversion Hrun; subst; simpl. repeat split; repeat constructor.
  - inversion Hrun; subst; simpl. repeat split; repeat constructor.
Qed.

(** With collaborators that leave the resolved fields alone, it also keeps
    the model, the features and the queue pointers, and a K95 ends with at
    least three modes. *)
Lemma setupusb_nonrgb_keeps (s s2 : machine W) (r : Z) (l2 : list event) :
  attach_keeps E ->
  setupusb_nonrgb E s = (r, s2, l2) ->
  model (dev s2) = model (dev s)
  /\ features (dev s2) = features (dev s)
  /\ queue (dev s2) = queue (dev s)
  /\ (model (dev s) = 95 -> 3 <= modecount (profile (dev s2))).
Proof.
  intros [_ _ _ Hnk Hwf Hgm]. unfold setupusb_nonrgb. unfold_m. simpl.
  intros Hrun.
  pose proof (Hnk (NK95_HWOFF E) (dev s) (world s)) as F1. simpl in F1.
  destruct (nk95cmd E _ _ _) as [kb1 w1]; simpl in Hrun, F1.
  match type of Hrun with
  | context [writefwnode E ?kb ?w] =>
      pose proof (Hwf kb w) as F2; destruct (writefwnode E kb w) as [kb2 w2]
  end; simpl in Hrun, F2.
  inversion F1 as [[Fm1 Ff1 Fq1]]. inversion F2 as [[Fm2 Ff2 Fq2]].
  destruct (getusbmode E 0 _ _) as [m0 p0]; simpl in Hrun.
  destruct (Z.eqb_spec (model kb2) 95) as [H95 | H95]; simpl in Hrun.
  - match type of Hrun with
    | context [getusbmode E 1 ?p ?k] =>
        destruct (getusbmode E 1 p k) as [m1 p1]
    end; simpl in Hrun.
    match type of Hrun with
    | context [getusbmode E 2 ?p ?k] =>
        pose proof (Hgm 2 p k) as [G2 _];
        destruct (getusbmode E 2 p k) as [m2 p2]
    end; simpl in Hrun, G2.
    inversion Hrun; subst; simpl.
    split; [congruence|]. split; [congruence|]. split; [congruence|].
    intros _. lia.
  - inversion Hrun; subst; simpl.
    split; [congruence|]. split; [congruence|]. split; [congruence|].
    intros H. congruence.
Qed.

(** How the restore block (lines 95-119) ends. *)
Lemma setupusb_restore_run (fail : bool) (s s' : machine W) (r : Z)
    (l : list event) :
  setupusb_restore E fail s = (r, s', l) ->
  (r = 0 \/ r = -2)
  /\ no_calls is_unwind l /\ no_calls is_malloc l
  /\ no_calls is_getfwversion l
  /\ (exists found rest,
        l = Ev_delay DELAY_LONG
              :: Ev_findstore (serial (profile (dev s))) found :: rest)
  /\ (fail = true -> r = -2 /\ no_calls is_hwloadprofile l).
Proof.
  unfold setupusb_restore. unfold_m. simpl. intros Hrun.
  destruct (findstore E _ _) as [[p|] w1]; simpl in Hrun.
  - destruct (model (dev s) =? 95); simpl in Hrun.
    + destruct (getusbmode E 1 _ _) as [m1 p1]; simpl in Hrun.
      destruct (getusbmode E 2 _ _) as [m2 p2]; simpl in Hrun.
      destruct fail; simpl in Hrun.
      * inversion Hrun; subst.
        repeat split; eauto; try discriminate; repeat constructor.
      * destruct (hwloadprofile E _ _ _) as [[r4 kb4] w4]; simpl in Hrun.
        destruct (r4 =? 0); simpl in Hrun; inversion Hrun; subst;
          repeat split; eauto; try discriminate; repeat constructor.
    + destruct fail; simpl in Hrun.
      * inversion Hrun; subst.
        repeat split; eauto; try discriminate; repeat constructor.
      * destruct (hwloadprofile E _ _ _) as [[r4 kb4] w4]; simpl in Hrun.
        destruct (r4 =? 0); simpl in Hrun; inversion Hrun; subst;
          repeat split; eauto; try discriminate; repeat constructor.
  - destruct (getusbmode E 0 _ _) as [m0 p0]; simpl in Hrun.
    destruct (model (dev s) =? 95); simpl in Hrun.
    + destruct (getusbmode E 1 _ _) as [m1 p1]; simpl in Hrun.
      destruct (getusbmode E 2 _ _) as [m2 p2]; simpl in Hrun.
      destruct fail; simpl in Hrun.
      * inversion Hrun; subst.
        repeat split; eauto; try discriminate; repeat constructor.
      * destruct (hwloadprofile E _ _ _) as [[r4 kb4] w4]; simpl in Hrun.
        destruct (r4 =? 0); simpl in Hrun; inversion Hrun; subst;
          repeat split; eauto; try discriminate; repeat constructor.
    + destruct fail; simpl in Hrun.
      * inversion Hrun; subst.
        repeat split; eauto; try discriminate; repeat constructor.
      * destruct (hwloadprofile E _ _ _) as [[r4 kb4] w4]; simpl in Hrun.
        destruct (r4 =? 0); simpl in Hrun; inversion Hrun; subst;
          repeat split; eauto; try discriminate; repeat constructor.
Qed.

(** When the restore block returns -2 after finding a stored profile, the
    stored profile (with the K95 modes) is already in the record: it is what
    the record holds if the firmware query had failed, and what
    [hwloadprofile] was given otherwise. *)
Lemma setupusb_restore_found (fail : bool) (s s' : machine W) (r : Z)
    (l : list event) (ser : string) (p0 : usbprofile) :
  setupusb_restore E fail s = (r, s', l) ->
  In (Ev_findstore ser (Some p0)) l -> r = -2 ->
  let kbm := set_profile (with_k95_modes E (model (dev s)) p0) (dev s) in
  (fail = true -> dev s' = kbm)
  /\ (fail = false ->
      exists x wm, x <> 0
        /\ hwloadprofile E kbm 0 wm = (x, dev s', world s')).
Proof.
  unfold setupusb_restore, with_k95_modes. unfold_m. simpl. intros Hrun Hin Hr.
  destruct (findstore E _ _) as [[p|] w1]; simpl in Hrun.
  - destruct (model (dev s) =? 95); simpl in Hrun.
    + destruct (getusbmode E 1 p _) as [m1 p1] eqn:H1; simpl in Hrun.
      destruct (getusbmode E 2 p1 _) as [m2 p2] eqn:H2; simpl in Hrun.
      destruct fail; simpl in Hrun.
      * inversion Hrun; subst. simpl in Hin.
        destruct Hin as [Hin | [Hin | [Hin | [Hin | []]]]]; inversion Hin; subst.
        rewrite H1. simpl. rewrite H2. simpl. split; [reflexivity | discriminate].
      * destruct (hwloadprofile E _ _ _) as [[r4 kb4] w4] eqn:H4; simpl in Hrun.
        destruct (Z.eqb_spec r4 0); simpl in Hrun; inversion Hrun; subst;
          [discriminate|].
        simpl in Hin.
        destruct Hin as [Hin | [Hin | [Hin | [Hin | [Hin | []]]]]];
          inversion Hin; subst.
        rewrite H1. simpl. rewrite H2. simpl. split; [discriminate|]. intros _.
        exists r4, w1. split; [assumption | exact H4].
    + destruct fail; simpl in Hrun.
      * inversion Hrun; subst. simpl in Hin.
        destruct Hin as [Hin | [Hin | []]]; inversion Hin; subst.
        simpl. split; [reflexivity | discriminate].
      * destruct (hwloadprofile E _ _ _) as [[r4 kb4] w4] eqn:H4; simpl in Hrun.
        destruct (Z.eqb_spec r4 0); simpl in Hrun; inversion Hrun; subst;
          [discriminate|].
        simpl in Hin.
        destruct Hin as [Hin | [Hin | [Hin | []]]]; inversion Hin; subst.
        simpl. split; [discriminate|]. intros _.
        exists r4, w1. split; [assumption | exact H4].
  - exfalso.
    destruct (getusbmode E 0 _ _) as [m0 p0']; simpl in Hrun.
    destruct (model (dev s) =? 95); simpl in Hrun.
    + destruct (getusbmode E 1 _ _) as [m1 p1]; simpl in Hrun.
      destruct (getusbmode E 2 _ _) as [m2 p2]; simpl in Hrun.
      destruct fail; simpl in Hrun.
      * inversion Hrun; subst. simpl in Hin.
        repeat (destruct Hin as [Hin | Hin]; [discriminate|]). exact Hin.
      * destruct (hwloadprofile E _ _ _) as [[r4 kb4] w4]; simpl in Hrun.
        destruct (r4 =? 0); simpl in Hrun; inversion Hrun; subst; simpl in Hin;
          repeat (destruct Hin as [Hin | Hin]; [discriminate|]); exact Hin.
    + destruct fail; simpl in Hrun.
      * inversion Hrun; subst. simpl in Hin.
        repeat (destruct Hin as [Hin | Hin]; [discriminate|]). exact Hin.
      * destruct (hwloadprofile E _ _ _) as [[r4 kb4] w4]; simpl in Hrun.
        destruct (r4 =? 0); simpl in Hrun; inversion Hrun; subst; simpl in Hin;
          repeat (destruct Hin as [Hin | Hin]; [discriminate|]); exact Hin.
Qed.

(** How the firmware block (lines 80-119) ends, by the outcome of its
    firmware query. *)
Lemma setupusb_firmware_run (s s' : machine W) (r : Z) (l : list event) :
  setupusb_firmware E s = (r, s', l) ->
  let res := fst (fst (getfwversion E (dev s) (world s))) in
  let kb1 := snd (fst (getfwversion E (dev s) (world s))) in
  let w1 := snd (getfwversion E (dev s) (world s)) in
  exists rest,
    l = Ev_getfwversion res :: rest
    /\ no_calls is_getfwversion rest
    /\ no_calls is_unwind l /\ no_calls is_malloc l
    /\ (res <> 0 ->
        r = -2 /\ no_calls is_hwloadprofile l
        /\ exists found rest',
             rest = Ev_delay DELAY_LONG
                      :: Ev_findstore (serial (profile kb1)) found :: rest')
    /\ (res = 0 -> NEEDS_FW_UPDATE E kb1 = true ->
        r = 0
        /\ features (dev s') =
             Z.lor (Z.lor (FEAT_RGB E) (FEAT_FWVERSION E)) (FEAT_FWUPDATE E)
        /\ active (dev s') = 1
        /\ no_calls is_findstore l /\ no_calls is_hwloadprofile l)
    /\ (r = -2 ->
        exists fail,
          setupusb_restore E fail (Machine kb1 (features_mask s) w1)
            = (r, s', rest)).
Proof.
  unfold setupusb_firmware. unfold_m. simpl. intros Hrun.
  destruct (getfwversion E (dev s) (world s)) as [[res kb1] w1]. simpl in *.
  destruct (Z.eqb_spec res 0) as [-> | Hres]; simpl in Hrun.
  - destruct (NEEDS_FW_UPDATE E kb1) eqn:Hneeds; simpl in Hrun.
    + destruct (getusbmode E 0 _ _) as [m0 p0]; simpl in Hrun.
      destruct (getusbmode E 1 _ _) as [m1 p1]; simpl in Hrun.
      destruct (getusbmode E 2 _ _) as [m2 p2]; simpl in Hrun.
      inversion Hrun; subst. simpl. eexists. split; [reflexivity|].
      split; [repeat constructor|]. split; [repeat constructor|].
      split; [repeat constructor|]. split; [intros H; lia|].
      split.
      * intros _ _. split; [reflexivity|]. split; [reflexivity|].
        split; [reflexivity|]. split; repeat constructor.
      * intros H. lia.
    + destruct (setupusb_restore E false (Machine kb1 (features_mask s) w1))
        as [[r0 s0] l0] eqn:Hres.
      inversion Hrun; subst.
      destruct (setupusb_restore_run _ _ _ _ _ Hres)
        as (Hr & Hunw & Hmal & Hget & _ & _).
      exists l0. split; [reflexivity|]. split; [assumption|].
      split; [constructor; [reflexivity | assumption]|].
      split; [constructor; [reflexivity | assumption]|].
      split; [intros H; lia|]. split; [intros _ H; discriminate|].
      intros _. exists false. exact Hres.
  - destruct (setupusb_restore E true (Machine kb1 (features_mask s) w1))
      as [[r0 s0] l0] eqn:Hrestore.
    inversion Hrun; subst.
    destruct (setupusb_restore_run _ _ _ _ _ Hrestore)
      as (Hr & Hunw & Hmal & Hget & (found & rest' & Hl0) & Hfail).
    destruct (Hfail eq_refl) as [-> Hnohw].
    exists l0. split; [reflexivity|]. split; [assumption|].
    split; [constructor; [reflexivity | assumption]|].
    split; [constructor; [reflexivity | assumption]|].
    split.
    + intros _. split; [reflexivity|].
      split; [constructor; [reflexivity | assumption]|].
      exists found, rest'. exact Hl0.
    + split; [intros H; contradiction|].
      intros _. exists true. exact Hrestore.
Qed.

(** A run of [setupusb] that makes the firmware query went through the
    whole attach part and the queue loop, and ends with the firmware block. *)
Lemma setupusb_reaches_firmware (vendor product : Z) (s sf : machine W)
    (r res : Z) (l : list event) :
  setupusb E vendor product s = (r, sf, l) ->
  In (Ev_getfwversion res) l ->
  exists sq r0 post,
    l = [Ev_mutex_init Mutex; Ev_mutex_init Keymutex; Ev_mutex_lock Mutex;
         Ev_makedevpath 0; Ev_inputopen r0; Ev_updateindicators 1]
        ++ map (fun _ => Ev_malloc (MSG_SIZE E)) (seq 0 (Z.to_nat (QUEUE_LEN E)))
        ++ post
    /\ r0 <> 0
    /\ setupusb_firmware E sq = (r, sf, post).
Proof.
  intros Hrun Hin. rewrite setupusb_eq in Hrun.
  destruct (setupusb_attach E vendor product s) as [[o s1] l1] eqn:Hatt.
  apply setupusb_attach_run in Hatt.
  destruct o as [x|].
  - exfalso. inversion Hrun; subst. rewrite app_nil_r in Hin.
    destruct Hatt as [_ [(r0 & _ & ->) | ->]]; simpl in Hin;
      repeat (destruct Hin as [Hin | Hin]; [discriminate|]); exact Hin.
  - destruct Hatt as (r0 & Hr0 & ->).
    destruct (negb (HAS_FEATURES (dev s1) (FEAT_RGB E))).
    + exfalso. destruct (setupusb_nonrgb E s1) as [[r2 s2] l2] eqn:Hn.
      apply setupusb_nonrgb_run in Hn.
      destruct Hn as (_ & _ & _ & _ & _ & Hno).
      inversion Hrun; subst. simpl in Hin.
      repeat (destruct Hin as [Hin | Hin]; [discriminate|]).
      apply (no_calls_in _ _ _ Hno) in Hin. discriminate.
    + destruct (setupusb_queue_run s1) as (q' & w' & Hq). rewrite Hq in Hrun.
      destruct (setupusb_firmware E _) as [[r3 s3] l3] eqn:Hfw.
      inversion Hrun; subst. eexists _, r0, l3.
      split; [reflexivity|]. split; [assumption | exact Hfw].
Qed.

End Proofs.

(** *** The ways through [setupusb] *)

Lemma count_calls_pos (f : event -> bool) (l : list event) :
  (0 < count_calls f l)%nat <-> exists e, In e l /\ f e = true.
Proof.
  unfold count_calls. induction l as [|e l IH]; simpl.
  - split; [lia | intros (e & [] & _)].
  - destruct (f e) eqn:He; simpl.
    + split; [intros _; exists e; auto | lia].
    + rewrite IH. split.
      * intros (e' & Hin & He'). exists e'. auto.
      * intros (e' & [-> | Hin] & He'); [congruence | exists e'; auto].
Qed.

Section Setup_paths.

Context {W : Type} (E : Env W).

Lemma setupusb_nonrgb_calls (s s2 : machine W) (r : Z) (l2 : list event) :
  setupusb_nonrgb E s = (r, s2, l2) ->
  exists k95,
    r = 0
    /\ l2 = [Ev_nk95cmd (NK95_HWOFF E); Ev_writefwnode; Ev_getusbmode 0]
            ++ k95_calls k95.
Proof.
  unfold setupusb_nonrgb. unfold_m. simpl. intros Hrun.
  destruct (nk95cmd E _ _ _) as [kb1 w1]; simpl in Hrun.
  destruct (writefwnode E _ _) as [kb2 w2]; simpl in Hrun.
  destruct (getusbmode E 0 _ _) as [m0 p0]; simpl in Hrun.
  destruct (model kb2 =? 95); simpl in Hrun.
  - destruct (getusbmode E 1 _ _) as [m1 p1]; simpl in Hrun.
    destruct (getusbmode E 2 _ _) as [m2 p2]; simpl in Hrun.
    inversion Hrun; subst. exists true. split; reflexivity.
  - inversion Hrun; subst. exists false. split; reflexivity.
Qed.

Lemma setupusb_restore_calls (fail : bool) (s s' : machine W) (r : Z)
    (l : list event) :
  setupusb_restore E fail s = (r, s', l) ->
  exists found k95 x,
    r = (if negb fail && (x =? 0) then 0 else -2)
    /\ l = [Ev_delay DELAY_LONG; Ev_findstore (serial (profile (dev s))) found]
           ++ match found with Some _ => [] | None => [Ev_getusbmode 0] end
           ++ k95_calls k95
           ++ (if negb fail then
                 Ev_hwloadprofile (match found with Some _ => 0 | None => 1 end) x
                   :: (if x =? 0 then [Ev_delay DELAY_SHORT] else [])
               else []).
Proof.
  unfold setupusb_restore. unfold_m. simpl. intros Hrun.
  destruct (findstore E _ _) as [[p|] w1]; simpl in Hrun.
  - exists (Some p).
    destruct (model (dev s) =? 95); simpl in Hrun.
    + destruct (getusbmode E 1 _ _) as [m1 p1]; simpl in Hrun.
      destruct (getusbmode E 2 _ _) as [m2 p2]; simpl in Hrun.
      exists true. destruct fail; simpl in Hrun.
      * inversion Hrun; subst. exists 0. split; reflexivity.
      * destruct (hwloadprofile E _ _ _) as [[r4 kb4] w4]; simpl in Hrun.
        exists r4. destruct (r4 =? 0); simpl in Hrun; inversion Hrun; subst;
          split; reflexivity.
    + exists false. destruct fail; simpl in Hrun.
      * inversion Hrun; subst. exists 0. split; reflexivity.
      * destruct (hwloadprofile E _ _ _) as [[r4 kb4] w4]; simpl in Hrun.
        exists r4. destruct (r4 =? 0); simpl in Hrun; inversion Hrun; subst;
          split; reflexivity.
  - exists None.
    destruct (getusbmode E 0 _ _) as [m0 p0]; simpl in Hrun.
    destruct (model (dev s) =? 95); simpl in Hrun.
    + destruct (getusbmode E 1 _ _) as [m1 p1]; simpl in Hrun.
      destruct (getusbmode E 2 _ _) as [m2 p2]; simpl in Hrun.
      exists true. destruct fail; simpl in Hrun.
      * inversion Hrun; subst. exists 0. split; reflexivity.
      * destruct (hwloadprofile E _ _ _) as [[r4 kb4] w4]; simpl in Hrun.
        exists r4. destruct (r4 =? 0); simpl in Hrun; inversion Hrun; subst;
          split; reflexivity.
    + exists false. destruct fail; simpl in Hrun.
      * inversion Hrun; subst. exists 0. split; reflexivity.
      * destruct (hwloadprofile E _ _ _) as [[r4 kb4] w4]; simpl in Hrun.
        exists r4. destruct (r4 =? 0); simpl in Hrun; inversion Hrun; subst;
          split; reflexivity.
Qed.

Lemma setupusb_firmware_calls (s s' : machine W) (r : Z) (l : list event) :
  setupusb_firmware E s = (r, s', l) ->
  (r = 0
   /\ l = [Ev_getfwversion 0;
           Ev_printf "Device needs a firmware update. Please issue a fwupdate command.
";
           Ev_getusbmode 0; Ev_getusbmode 1; Ev_getusbmode 2])
  \/ (exists res ser found k95 x,
        r = (if (res =? 0) && (x =? 0) then 0 else -2)
        /\ l = [Ev_getfwversion res; Ev_delay DELAY_LONG; Ev_findstore ser found]
               ++ match found with Some _ => [] | None => [Ev_getusbmode 0] end
               ++ k95_calls k95
               ++ (if res =? 0 then
                     Ev_hwloadprofile
                       (match found with Some _ => 0 | None => 1 end) x
                       :: (if x =? 0 then [Ev_delay DELAY_SHORT] else [])
                   else [])).
Proof.
  unfold setupusb_firmware. unfold_m. simpl. intros Hrun.
  destruct (getfwversion E (dev s) (world s)) as [[res kb1] w1]. simpl in *.
  destruct (Z.eqb_spec res 0) as [-> | Hres]; simpl in Hrun.
  - destruct (NEEDS_FW_UPDATE E kb1); simpl in Hrun.
    + destruct (getusbmode E 0 _ _) as [m0 p0]; simpl in Hrun.
      destruct (getusbmode E 1 _ _) as [m1 p1]; simpl in Hrun.
      destruct (getusbmode E 2 _ _) as [m2 p2]; simpl in Hrun.
      inversion Hrun; subst. left. split; reflexivity.
    + destruct (setupusb_restore E false (Machine kb1 (features_mask s) w1))
        as [[r0 s0] l0] eqn:Hrest.
      inversion Hrun; subst.
      destruct (setupusb_restore_calls _ _ _ _ _ Hrest)
        as (found & k95 & x & -> & ->).
      right. exists 0, (serial (profile kb1)), found, k95, x.
      split; reflexivity.
  - destruct (setupusb_restore E true (Machine kb1 (features_mask s) w1))
      as [[r0 s0] l0] eqn:Hrest.
    inversion Hrun; subst.
    destruct (setupusb_restore_calls _ _ _ _ _ Hrest)
      as (found & k95 & x & -> & ->).
    right. exists res, (serial (profile kb1)), found, k95, x.
    apply Z.eqb_neq in Hres. rewrite Hres. simpl.
    split; reflexivity.
Qed.

(** Every run of [setupusb] goes one of the five ways. *)
Lemma setupusb_path (vendor product : Z) (s : machine W) :
  exists p,
    setup_path_ok p
    /\ calls (setupusb E vendor product s) = setup_calls E p
    /\ result (setupusb E vendor product s) = setup_result p.
Proof.
  destruct (setupusb E vendor product s) as [[r sf] l] eqn:Hrun.
  unfold result, calls. cbn [fst snd].
  rewrite setupusb_eq in Hrun.
  destruct (setupusb_attach E vendor product s) as [[o s1] l1] eqn:Hatt.
  apply setupusb_attach_run in Hatt.
  destruct o as [x|].
  { inversion Hrun; subst. rewrite app_nil_r.
    destruct Hatt as [-> [(r0 & Hr0 & ->) | ->]].
    - exists (Setup_no_devpath r0). repeat split; auto.
    - exists Setup_no_input. repeat split; auto. }
  destruct Hatt as (r0 & Hr0 & ->).
  destruct (negb (HAS_FEATURES (dev s1) (FEAT_RGB E))).
  - destruct (setupusb_nonrgb E s1) as [[r2 s2] l2] eqn:Hn.
    apply setupusb_nonrgb_calls in Hn. destruct Hn as (k95 & -> & ->).
    inversion Hrun; subst. exists (Setup_nonrgb r0 k95). repeat split; auto.
  - destruct (setupusb_queue_run E s1) as (q' & w' & Hq). rewrite Hq in Hrun.
    destruct (setupusb_firmware E _) as [[r3 s3] l3] eqn:Hfw.
    apply setupusb_firmware_calls in Hfw.
    inversion Hrun; subst.
    destruct Hfw as [[-> ->] | (res & ser & found & k95 & x & -> & ->)].
    + exists (Setup_update r0). repeat split; auto.
    + exists (Setup_restore r0 res ser found k95 x). repeat split; auto.
Qed.

Lemma count_malloc_calls (f : event -> bool) :
  count_calls f (malloc_calls E) =
    if f (Ev_malloc (MSG_SIZE E)) then Z.to_nat (QUEUE_LEN E) else 0%nat.
Proof.
  assert (H : forall l : list nat,
    count_calls f (map (fun _ => Ev_malloc (MSG_SIZE E)) l) =
      if f (Ev_malloc (MSG_SIZE E)) then length l else 0%nat).
  { unfold count_calls. induction l as [|q l IH]; simpl.
    - destruct (f _); reflexivity.
    - destruct (f (Ev_malloc (MSG_SIZE E))); simpl; [rewrite IH|]; auto. }
  unfold malloc_calls. rewrite H, length_seq. reflexivity.
Qed.

Lemma filter_malloc_calls (f : event -> bool) :
  f (Ev_malloc (MSG_SIZE E)) = false -> List.filter f (malloc_calls E) = [].
Proof.
  intros Hf. unfold malloc_calls.
  induction (seq 0 (Z.to_nat (QUEUE_LEN E))) as [|q l IH]; simpl;
    [reflexivity | rewrite Hf; exact IH].
Qed.

End Setup_paths.

(** Reduce a count or a filter over the calls of a way through [setupusb]. *)
Ltac path_calls :=
  unfold setup_calls, attach_calls, k95_calls;
  repeat rewrite ?count_calls_app, ?List.filter_app, ?count_malloc_calls,
    ?filter_malloc_calls by reflexivity;
  unfold count_calls; cbn [List.filter length app is_unwind is_lock
    is_mutex_init is_malloc is_getfwversion is_hwloadprofile is_findstore
    is_reinit_failure is_unlock is_mutex_destroy is_free is_rmdevpath].

Lemma in_malloc_calls {W : Type} (E : Env W) (e : event) :
  In e (malloc_calls E) -> e = Ev_malloc (MSG_SIZE E).
Proof.
  unfold malloc_calls. intros H. apply in_map_iff in H.
  destruct H as (q & <- & _). reflexivity.
Qed.

(** *** The ways through [_resetusb] *)

Section Reset_paths.

Context {W : Type} (E : Env W).

Local Open Scope usb_scope.

(** Every run of [_resetusb] goes one of the six ways; which one is told
    by the records the collaborators leave. *)
Lemma resetusb_path (file : string) (line : Z) (s : machine W) :
  let kb0 := snd (fst (os_resetusb E (dev s) file line (world s))) in
  let w0 := snd (os_resetusb E (dev s) file line (world s)) in
  let kb1 := snd (fst (getfwversion E (set_queuecount 0 kb0) w0)) in
  let w1 := snd (getfwversion E (set_queuecount 0 kb0) w0) in
  let kb2 := fst (setactive E kb1 (active kb1) w1) in
  exists p,
    reset_path_ok p
    /\ calls (_resetusb E file line s) = reset_calls p
    /\ result (_resetusb E file line s) = reset_result p
    /\ match p with
       | Reset_os_failed _ => True
       | Reset_nonrgb => HAS_FEATURES kb0 (FEAT_RGB E) = false
       | Reset_query_failed _ | Reset_update =>
           HAS_FEATURES kb0 (FEAT_RGB E) = true
       | Reset_loaded a =>
           HAS_FEATURES kb0 (FEAT_RGB E) = true /\ a = active kb1
           /\ hw kb2 <> 0
       | Reset_reload a _ _ _ =>
           HAS_FEATURES kb0 (FEAT_RGB E) = true /\ a = active kb1
           /\ hw kb2 = 0
       end.
Proof.
  cbv zeta. unfold _resetusb. unfold_m. unfold result, calls. simpl.
  destruct (os_resetusb E (dev s) file line (world s)) as [[r0 kb0] w0].
  simpl.
  destruct (Z.eqb_spec r0 0) as [-> | Hr0]; simpl.
  2:{ exists (Reset_os_failed r0). repeat split; auto. }
  change (HAS_FEATURES (set_queuecount 0 kb0) (FEAT_RGB E))
    with (HAS_FEATURES kb0 (FEAT_RGB E)).
  destruct (HAS_FEATURES kb0 (FEAT_RGB E)) eqn:Hf; simpl.
  2:{ exists Reset_nonrgb. repeat split; auto. }
  destruct (getfwversion E _ _) as [[r1 kb1] w1]. simpl.
  destruct (Z.eqb_spec r1 0) as [-> | Hr1]; simpl.
  2:{ exists (Reset_query_failed r1). repeat split; auto. }
  destruct (NEEDS_FW_UPDATE E kb1); simpl.
  { exists Reset_update. repeat split; auto. }
  destruct (setactive E kb1 (active kb1) w1) as [kb2 w2]. simpl.
  destruct (Z.eqb_spec (hw kb2) 0) as [Hhw | Hhw]; simpl.
  - destruct (findstore E _ _) as [[p|] w3]; simpl;
      destruct (hwloadprofile E _ _ _) as [[r4 kb4] w4]; simpl;
      destruct (updatergb E _ _ _) as [kb5 w5]; simpl.
    + exists (Reset_reload (active kb1) (serial (profile kb2)) (Some p) r4).
      simpl. destruct (r4 =? 0); repeat split; auto.
    + exists (Reset_reload (active kb1) (serial (profile kb2)) None r4).
      simpl. destruct (r4 =? 0); repeat split; auto.
  - destruct (updatergb E _ _ _) as [kb5 w5]; simpl.
    exists (Reset_loaded (active kb1)). repeat split; auto.
Qed.

(** After a successful OS reset, [_resetusb] goes on from the record the OS
    reset left with its [queuecount] set to 0: what follows line 154 is one
    computation [K], run on that machine. *)
Lemma resetusb_after_os (file : string) (line : Z) :
  exists K : machine W -> Z * machine W * list event,
    (forall (s : machine W) (r0 : Z) (kb0 : usbdevice) (w0 : W),
      os_resetusb E (dev s) file line (world s) = (r0, kb0, w0) ->
      _resetusb E file line s =
        if r0 =? 0 then
          (result (K (Machine (set_queuecount 0 kb0) (features_mask s) w0)),
           final (K (Machine (set_queuecount 0 kb0) (features_mask s) w0)),
           Ev_delay DELAY_LONG :: Ev_os_resetusb 0 :: Ev_delay DELAY_LONG
             :: calls (K (Machine (set_queuecount 0 kb0) (features_mask s) w0)))
        else
          (r0, Machine kb0 (features_mask s) w0,
           [Ev_delay DELAY_LONG; Ev_os_resetusb r0]))
    /\ (forall m, HAS_FEATURES (dev m) (FEAT_RGB E) = false -> K m = (0, m, []))
    /\ (forall m, HAS_FEATURES (dev m) (FEAT_RGB E) = true ->
        exists rest,
          calls (K m) =
            Ev_getfwversion (fst (fst (getfwversion E (dev m) (world m))))
              :: rest).
Proof.
  exists (kb <- get_dev ;;
          if negb (HAS_FEATURES kb (FEAT_RGB E)) then ret 0
          else
            r <- call_getfwversion E ;;
            if negb (r =? 0) then ret (-1)
            else
              kb <- get_dev ;;
              if NEEDS_FW_UPDATE E kb then ret 0
              else
                call_setactive E (active kb) ;;
                kb <- get_dev ;;
                res <- (if hw kb =? 0 then
                          st <- call_findstore E (serial (profile kb)) ;;
                          match st with
                          | Some _ => call_hwloadprofile E 0
                          | None => call_hwloadprofile E 1
                          end
                        else ret 0) ;;
                call_updatergb E 1 ;;
                ret (if negb (res =? 0) then -1 else 0)).
  split; [|split].
  - intros s r0 kb0 w0 Hos.
    unfold _resetusb. unfold_m. unfold result, final, calls. simpl.
    rewrite Hos. simpl.
    destruct (Z.eqb_spec r0 0) as [-> | Hr0]; simpl; [|reflexivity].
    destruct (HAS_FEATURES _ _); simpl; [|reflexivity].
    destruct (getfwversion E _ _) as [[r1 kb1] w1]. simpl.
    destruct (r1 =? 0); simpl; [|reflexivity].
    destruct (NEEDS_FW_UPDATE E kb1); simpl; [reflexivity|].
    destruct (setactive E kb1 (active kb1) w1) as [kb2 w2]. simpl.
    destruct (hw kb2 =? 0); simpl.
    + destruct (findstore E _ _) as [[p|] w3]; simpl;
        destruct (hwloadprofile E _ _ _) as [[r4 kb4] w4]; simpl;
        destruct (updatergb E _ _ _) as [kb5 w5]; simpl; reflexivity.
    + destruct (updatergb E _ _ _) as [kb5 w5]; simpl. reflexivity.
  - intros m Hf. unfold_m. rewrite Hf. simpl. reflexivity.
  - intros m Hf. unfold_m. unfold calls. rewrite Hf. simpl.
    destruct (getfwversion E _ _) as [[r1 kb1] w1]. simpl.
    destruct (r1 =? 0); simpl; [|eexists; reflexivity].
    destruct (NEEDS_FW_UPDATE E kb1); simpl; [eexists; reflexivity|].
    destruct (setactive E kb1 (active kb1) w1) as [kb2 w2]. simpl.
    destruct (hw kb2 =? 0); simpl.
    + destruct (findstore E _ _) as [[p|] w3]; simpl;
        destruct (hwloadprofile E _ _ _) as [[r4 kb4] w4]; simpl;
        destruct (updatergb E _ _ _) as [kb5 w5]; simpl; eexists; reflexivity.
    + destruct (updatergb E _ _ _) as [kb5 w5]; simpl. eexists. reflexivity.
Qed.

End Reset_paths.

(** *** The firmware query and the restore block *)

Section Query.

Context {W : Type} (E : Env W).

(** The calls and the result of the restore block, by what the store
    lookup and [hwloadprofile] return. *)
Lemma setupusb_restore_shape (fail : bool) (s : machine W) :
  let ser := serial (profile (dev s)) in
  let found := fst (findstore E ser (world s)) in
  exists x,
    result (setupusb_restore E fail s)
      = (if negb fail && (x =? 0) then 0 else -2)
    /\ calls (setupusb_restore E fail s)
       = [Ev_delay DELAY_LONG; Ev_findstore ser found]
           ++ match found with Some _ => [] | None => [Ev_getusbmode 0] end
           ++ k95_calls (model (dev s) =? 95)
           ++ (if negb fail then
                 Ev_hwloadprofile (match found with Some _ => 0 | None => 1 end) x
                   :: (if x =? 0 then [Ev_delay DELAY_SHORT] else [])
               else []).
Proof.
  cbv zeta. unfold setupusb_restore. unfold_m. unfold result, calls. simpl.
  destruct (findstore E _ _) as [[p|] w1]; simpl.
  - destruct (model (dev s) =? 95); simpl.
    + destruct (getusbmode E 1 _ _) as [m1 p1]; simpl.
      destruct (getusbmode E 2 _ _) as [m2 p2]; simpl.
      destruct fail; simpl.
      * exists 0. split; reflexivity.
      * destruct (hwloadprofile E _ _ _) as [[r4 kb4] w4]; simpl.
        exists r4. destruct (r4 =? 0); split; reflexivity.
    + destruct fail; simpl.
      * exists 0. split; reflexivity.
      * destruct (hwloadprofile E _ _ _) as [[r4 kb4] w4]; simpl.
        exists r4. destruct (r4 =? 0); split; reflexivity.
  - destruct (getusbmode E 0 _ _) as [m0 p0]; simpl.
    destruct (model (dev s) =? 95); simpl.
    + destruct (getusbmode E 1 _ _) as [m1 p1]; simpl.
      destruct (getusbmode E 2 _ _) as [m2 p2]; simpl.
      destruct fail; simpl.
      * exists 0. split; reflexivity.
      * destruct (hwloadprofile E _ _ _) as [[r4 kb4] w4]; simpl.
        exists r4. destruct (r4 =? 0); split; reflexivity.
    + destruct fail; simpl.
      * exists 0. split; reflexivity.
      * destruct (hwloadprofile E _ _ _) as [[r4 kb4] w4]; simpl.
        exists r4. destruct (r4 =? 0); split; reflexivity.
Qed.

(** The restore block when the store holds a profile for the serial: the
    stored profile replaces the record's (line 99) before anything can fail. *)
Lemma setupusb_restore_stored (fail : bool) (s : machine W)
    (p0 : usbprofile) (w1 : W) :
  findstore E (serial (profile (dev s))) (world s) = (Some p0, w1) ->
  let kbm := set_profile (with_k95_modes E (model (dev s)) p0) (dev s) in
  (fail = true ->
   result (setupusb_restore E fail s) = -2
   /\ final (setupusb_restore E fail s) = Machine kbm (features_mask s) w1)
  /\ (fail = false ->
      result (setupusb_restore E fail s)
        = (if fst (fst (hwloadprofile E kbm 0 w1)) =? 0 then 0 else -2)
      /\ final (setupusb_restore E fail s)
         = Machine (snd (fst (hwloadprofile E kbm 0 w1))) (features_mask s)
             (snd (hwloadprofile E kbm 0 w1))
      /\ In (Ev_hwloadprofile 0 (fst (fst (hwloadprofile E kbm 0 w1))))
            (calls (setupusb_restore E fail s))).
Proof.
  intros Hfind. cbv zeta.
  unfold setupusb_restore, with_k95_modes. unfold_m.
  unfold result, final, calls. simpl. rewrite Hfind. simpl.
  destruct (model (dev s) =? 95); simpl.
  - destruct (getusbmode E 1 p0 _) as [m1 p1]; simpl.
    destruct (getusbmode E 2 p1 _) as [m2 p2]; simpl.
    split; intros ->; simpl; [split; reflexivity|].
    change (set_profile p2 (set_profile p1 (set_profile p0 (dev s))))
      with (set_profile p2 (dev s)).
    destruct (hwloadprofile E (set_profile p2 (dev s)) 0 w1) as [[r4 kb4] w4].
    simpl. destruct (r4 =? 0); simpl; repeat split; auto 10.
  - split; intros ->; simpl; [split; reflexivity|].
    destruct (hwloadprofile E (set_profile p0 (dev s)) 0 w1) as [[r4 kb4] w4].
    simpl. destruct (r4 =? 0); simpl; repeat split; auto 10.
Qed.

(** The firmware block when it does not take the update branch: the
    restore block, run on what the firmware query left. *)
Lemma setupusb_firmware_restore (s : machine W) :
  let res := fst (fst (getfwversion E (dev s) (world s))) in
  let kb1 := snd (fst (getfwversion E (dev s) (world s))) in
  let w1 := snd (getfwversion E (dev s) (world s)) in
  let R := setupusb_restore E (negb (res =? 0)) (Machine kb1 (features_mask s) w1) in
  res <> 0 \/ NEEDS_FW_UPDATE E kb1 = false ->
  setupusb_firmware E s = (result R, final R, Ev_getfwversion res :: calls R).
Proof.
  cbv zeta. unfold setupusb_firmware. unfold_m. unfold result, final, calls.
  simpl.
  destruct (getfwversion E (dev s) (world s)) as [[res kb1] w1]. simpl.
  intros Hor.
  assert (Hb : negb (negb (res =? 0)) && NEEDS_FW_UPDATE E kb1 = false).
  { destruct Hor as [Hres | Hn].
    - apply Z.eqb_neq in Hres. rewrite Hres. reflexivity.
    - rewrite Hn. apply andb_false_r. }
  rewrite Hb.
  destruct (setupusb_restore E (negb (res =? 0)) (Machine kb1 (features_mask s) w1))
    as [[r s'] l]. reflexivity.
Qed.

(** A run that reaches the firmware query is the attach part, the queue
    loop and the firmware block run where they leave the machine. *)
Lemma setupusb_via_query (vendor product : Z) (s : machine W) :
  reaches_query E vendor product s ->
  let F := setupusb_firmware E (query_state E vendor product s) in
  exists r0, r0 <> 0
    /\ setupusb E vendor product s =
         (result F, final F, attach_calls r0 ++ malloc_calls E ++ calls F).
Proof.
  intros [Hnone Hrgb]. cbv zeta. unfold query_state.
  rewrite setupusb_eq.
  destruct (setupusb_attach E vendor product s) as [[o s1] l1] eqn:Hatt.
  unfold result, final in Hnone, Hrgb. simpl in Hnone, Hrgb. subst o.
  apply setupusb_attach_run in Hatt. destruct Hatt as (r0 & Hr0 & ->).
  rewrite Hrgb. simpl.
  destruct (setupusb_queue_run E s1) as (q' & w' & Hq).
  unfold result, final, calls. cbn [fst snd]. rewrite Hq. cbn [fst snd].
  destruct (setupusb_firmware E _) as [[r3 s3] l3].
  exists r0. split; [exact Hr0 | reflexivity].
Qed.

(** A run that does not reach the firmware query makes none. *)
Lemma setupusb_no_query (vendor product : Z) (s : machine W) :
  ~ reaches_query E vendor product s ->
  no_calls is_getfwversion (calls (setupusb E vendor product s)).
Proof.
  intros Hnot. unfold reaches_query in Hnot.
  rewrite setupusb_eq.
  destruct (setupusb_attach E vendor product s) as [[o s1] l1] eqn:Hatt.
  unfold result, final in Hnot. simpl in Hnot.
  apply setupusb_attach_run in Hatt.
  destruct o as [x|].
  - unfold calls. simpl. rewrite app_nil_r.
    destruct Hatt as [_ [(r0 & _ & ->) | ->]]; repeat constructor.
  - destruct Hatt as (r0 & Hr0 & ->).
    destruct (HAS_FEATURES (dev s1) (FEAT_RGB E)) eqn:Hf.
    { exfalso. apply Hnot. auto. }
    simpl.
    destruct (setupusb_nonrgb E s1) as [[r2 s2] l2] eqn:Hn.
    apply setupusb_nonrgb_run in Hn. destruct Hn as (_ & _ & _ & _ & _ & Hno).
    unfold calls. simpl. repeat (constructor; [reflexivity|]). exact Hno.
Qed.

End Query.

Section Query_runs.

Context {W : Type} (E : Env W).

Lemma reaches_query_dec (vendor product : Z) (s : machine W) :
  reaches_query E vendor product s \/ ~ reaches_query E vendor product s.
Proof.
  unfold reaches_query.
  destruct (result (setupusb_attach E vendor product s)) as [x|];
    [right; intros [H _]; discriminate|].
  destruct (HAS_FEATURES _ _); [left; auto | right; intros [_ H]; discriminate].
Qed.

(** A run that does not reach the firmware query returns 0 or -1. *)
Lemma setupusb_no_query_result (vendor product : Z) (s : machine W) :
  ~ reaches_query E vendor product s ->
  result (setupusb E vendor product s) = 0
  \/ result (setupusb E vendor product s) = -1.
Proof.
  intros Hnot. unfold reaches_query in Hnot.
  rewrite setupusb_eq.
  destruct (setupusb_attach E vendor product s) as [[o s1] l1] eqn:Hatt.
  unfold result, final in Hnot. simpl in Hnot.
  apply setupusb_attach_run in Hatt.
  destruct o as [x|].
  - destruct Hatt as [-> _]. right. reflexivity.
  - destruct (HAS_FEATURES (dev s1) (FEAT_RGB E)) eqn:Hf.
    { exfalso. apply Hnot. auto. }
    simpl.
    destruct (setupusb_nonrgb E s1) as [[r2 s2] l2] eqn:Hn.
    apply setupusb_nonrgb_run in Hn. destruct Hn as (-> & _).
    left. reflexivity.
Qed.

(** The calls of a run that reaches the query and does not take the update
    branch. *)
Lemma setupusb_restore_run_calls (vendor product : Z) (s : machine W) :
  reaches_query E vendor product s ->
  let res := fst (fst (queried E vendor product s)) in
  let kb1 := snd (fst (queried E vendor product s)) in
  let w1 := snd (queried E vendor product s) in
  let R := setupusb_restore E (negb (res =? 0))
             (Machine kb1 (features_mask (query_state E vendor product s)) w1) in
  res <> 0 \/ NEEDS_FW_UPDATE E kb1 = false ->
  exists r0 x, r0 <> 0
    /\ result (setupusb E vendor product s) = result R
    /\ final (setupusb E vendor product s) = final R
    /\ result R = (if (res =? 0) && (x =? 0) then 0 else -2)
    /\ calls (setupusb E vendor product s) =
         attach_calls r0 ++ malloc_calls E ++ Ev_getfwversion res :: calls R
    /\ calls (setupusb E vendor product s) =
         setup_calls E
           (Setup_restore r0 res (serial (profile kb1))
              (fst (looked_up E vendor product s)) (model kb1 =? 95) x).
Proof.
  intros Hreach. cbv zeta. intros Hor.
  destruct (setupusb_via_query E vendor product s Hreach) as (r0 & Hr0 & Hrun).
  rewrite Hrun. unfold result at 1, final at 1, calls at 1. cbn [fst snd].
  pose proof (setupusb_firmware_restore E (query_state E vendor product s)) as HF.
  cbv zeta in HF. fold (queried E vendor product s) in HF.
  rewrite (HF Hor). unfold result at 1, final at 1, calls at 1. cbn [fst snd].
  match goal with |- context [setupusb_restore E ?f ?m] =>
    destruct (setupusb_restore_shape E f m) as (x & Hres & Hcalls)
  end.
  cbv zeta in Hres, Hcalls. cbn [dev world] in Hres, Hcalls.
  exists r0, x. split; [exact Hr0|]. split; [reflexivity|].
  split; [reflexivity|]. split; [|split; [reflexivity|]].
  - rewrite Hres. rewrite negb_involutive. reflexivity.
  - rewrite Hcalls. unfold setup_calls, looked_up.
    rewrite negb_involutive. reflexivity.
Qed.

End Query_runs.

(** *** No report is sent *)

Section No_dequeue.

Context {W : Type} (E : Env W).

(** [_resetusb], [usb_tryreset] and [closeusb] never ask the transport to
    send a report. *)
Lemma resetusb_no_dequeue (file : string) (line : Z) (s : machine W) :
  no_calls is_usbdequeue (calls (_resetusb E file line s)).
Proof.
  destruct (resetusb_path E file line s) as (p & _ & -> & _ & _).
  destruct p; repeat constructor.
Qed.

Lemma usb_tryreset_no_dequeue (fuel : nat) (s : machine W) :
  no_calls is_usbdequeue (calls (usb_tryreset E fuel s)).
Proof.
  assert (Hloop : forall n s0,
    no_calls is_usbdequeue (calls (usb_tryreset_loop E n s0))).
  { induction n as [|n IH]; intros s0.
    - constructor.
    - rewrite usb_tryreset_loop_S.
      pose proof (resetusb_no_dequeue "usb.c" 178 s0) as Hr.
      fold (resetusb E s0) in Hr. unfold calls in *.
      destruct (resetusb E s0) as [[res s1] l1]. simpl in *.
      destruct (res =? 0); simpl.
      { constructor; [reflexivity|]. apply no_calls_app. split; [exact Hr|].
        repeat constructor. }
      destruct (res =? -2); simpl.
      { constructor; [reflexivity|]. rewrite app_nil_r. exact Hr. }
      specialize (IH s1).
      destruct (usb_tryreset_loop E n s1) as [[x s2] l2]. simpl in *.
      constructor; [reflexivity|]. apply no_calls_app. auto. }
  unfold usb_tryreset, bind, printf, emit, ret.
  specialize (Hloop fuel s). unfold calls in *.
  destruct (usb_tryreset_loop E fuel s) as [[x s1] l1]. simpl in *.
  destruct x as [|r|]; simpl; constructor; try reflexivity;
    apply no_calls_app; split; auto; repeat constructor.
Qed.

Lemma closeusb_no_dequeue (s : machine W) :
  no_calls is_usbdequeue (calls (closeusb E s)).
Proof.
  destruct (Z.eq_dec (infifo (dev s)) 0) as [Hi | Hi].
  { rewrite closeusb_noop by assumption. constructor. }
  destruct (Z.eq_dec (handle (dev s)) 0) as [Hh | Hh].
  { destruct (closeusb_nohandle E s Hi Hh) as (w' & ->). repeat constructor. }
  destruct (closeusb_handle E s Hi Hh) as (entry & w' & ->).
  unfold calls. cbn [snd].
  apply no_calls_app. split; [repeat constructor|].
  apply no_calls_app. split; [apply no_calls_map; reflexivity|].
  apply no_calls_app. split; [|repeat constructor].
  unfold persist_calls. destruct (fwversion _ =? 0); repeat constructor.
Qed.

End No_dequeue.

(** ** Running the program *)

Example setup_k70_rgb :
  result (setupusb Sim.env Sim.v_corsair Sim.p_k70 (Sim.boot Sim.opened Sim.calm))
    = 0
  /\ name (dev live_rgb) = "Corsair K70 RGB"
  /\ model (dev live_rgb) = 70
  /\ features (dev live_rgb) = Sim.feat_std_rgb
  /\ fwversion (dev live_rgb) = 0x0205
  /\ length (queue (dev live_rgb)) = 40%nat
  /\ mutex (dev live_rgb) = LkLocked.
Proof. vm_compute. repeat split. Qed.

Example setup_k95_nonrgb :
  name (dev live_nonrgb) = "Corsair K95"
  /\ features (dev live_nonrgb) = Sim.feat_std_nrgb
  /\ pollrate (dev live_nonrgb) = -1
  /\ modecount (profile (dev live_nonrgb)) = 3.
Proof. vm_compute. repeat split. Qed.

Example enqueue_two :
  queuecount
    (dev (final (usbqueue Sim.env (one_message ++ one_message) 2 live_rgb))) = 2
  /\ queue (dev (final (usbqueue Sim.env (one_message ++ one_message) 2 live_rgb)))
       !! 1%nat = Some (Some one_message).
Proof. vm_compute. repeat split. Qed.

Example revert_drains_the_queue :
  result (revertusb Sim.env 10 queued_rgb) = Some 0
  /\ queuecount (dev (final (revertusb Sim.env 10 queued_rgb))) = 0
  /\ calls (revertusb Sim.env 10 queued_rgb) =
       [Ev_delay DELAY_SHORT; Ev_usbdequeue 64; Ev_delay DELAY_SHORT;
        Ev_usbdequeue 64; Ev_delay DELAY_SHORT; Ev_usbdequeue 64;
        Ev_delay DELAY_MEDIUM; Ev_setactive 0].
Proof. vm_compute. repeat split. Qed.

Example close_stores_the_profile :
  Sim.w_store (world (final (closeusb Sim.env live_rgb)))
    = [profile (dev live_rgb)].
Proof. vm_compute. reflexivity. Qed.

(** ** The enqueue contract *)

(** C3, as the claim states it, fails: on a session without a transport
    handle [usbqueue] does not report a rejection; it returns 0, the value
    it returns for an accepted enqueue. *)
Lemma lost_handle_enqueue_returns_success :
  ~ (handle (dev lost_device) = 0 ->
     result (usbqueue Sim.env one_message 1 lost_device) <> 0
     /\ queue (dev (final (usbqueue Sim.env one_message 1 lost_device)))
        = queue (dev lost_device)
     /\ queuecount (dev (final (usbqueue Sim.env one_message 1 lost_device)))
        = queuecount (dev lost_device)).
Proof.
  intros H. destruct (H eq_refl) as [Hres _]. apply Hres.
  vm_compute. reflexivity.
Qed.

(** C3 (amended).  For every enqueue call on a session whose transport
    handle is absent, [usbqueue] returns 0 (the success code, not a
    rejection), makes no call and leaves the whole machine, and so the queue
    and [queuecount], unchanged. *)
Theorem usbqueue_no_handle {W : Type} (E : Env W) (messages : list byte)
    (count : Z) (s : machine W) :
  handle (dev s) = 0 ->
  usbqueue E messages count s = (0, s, []).
Proof.
  intros H. apply usbqueue_guard. left. exact H.
Qed.

Lemma usbqueue_no_handle_witness :
  handle (dev lost_device) = 0
  /\ usbqueue Sim.env one_message 1 lost_device = (0, lost_device, []).
Proof.
  split; [reflexivity|].
  apply (usbqueue_no_handle Sim.env one_message 1 lost_device). reflexivity.
Defined.

(** C5, as the claim states it, fails: an enqueue that would exceed the
    capacity is not always reported as rejected.  On a session that has 39 of
    its 40 slots in use and has lost its transport handle, an enqueue of two
    messages gets the result 0. *)
Lemma usbqueue_overflow_not_rejected :
  ~ (queuecount (dev nearly_full_lost) + 2 > QUEUE_LEN Sim.env ->
     result (usbqueue Sim.env (one_message ++ one_message) 2 nearly_full_lost)
       = -1).
Proof.
  intros H.
  assert (Hgt : queuecount (dev nearly_full_lost) + 2 > QUEUE_LEN Sim.env)
    by (vm_compute; reflexivity).
  specialize (H Hgt). vm_compute in H. discriminate.
Qed.

(** C5 (amended).  On a session that has a transport handle and the RGB
    capability (with [queuecount] not negative and the sum within [int]):
    an enqueue whose count added to [queuecount] exceeds [QUEUE_LEN E] returns
    -1, makes no call and leaves the machine unchanged (no partial copy);
    [queuecount] never exceeds [QUEUE_LEN E] under any sequence of enqueue
    calls on any session that starts within the capacity; and an enqueue that
    fits returns 0, copies every supplied message into the slots from
    [queuecount] on, leaves the slots before them alone and advances
    [queuecount] by exactly the count. *)
Theorem usbqueue_capacity {W : Type} (E : Env W) (messages : list byte)
    (count : Z) (s : machine W) :
  handle (dev s) <> 0 ->
  HAS_FEATURES (dev s) (FEAT_RGB E) = true ->
  0 <= queuecount (dev s) ->
  0 <= count ->
  queuecount (dev s) + count <= INT_MAX ->
  (queuecount (dev s) + count > QUEUE_LEN E ->
   usbqueue E messages count s = (-1, s, []))
  /\ (forall (l : list (list byte * Z)) (s0 : machine W),
        queuecount (dev s0) <= QUEUE_LEN E ->
        queuecount (dev (enqueue_all E l s0)) <= QUEUE_LEN E)
  /\ (queuecount (dev s) + count <= QUEUE_LEN E ->
      Z.of_nat (length (queue (dev s))) = QUEUE_LEN E ->
      Forall is_Some (queue (dev s)) ->
      0 <= MSG_SIZE E -> MSG_SIZE E * count <= INT_MAX ->
      result (usbqueue E messages count s) = 0
      /\ calls (usbqueue E messages count s) = []
      /\ queuecount (dev (final (usbqueue E messages count s)))
         = queuecount (dev s) + count
      /\ (forall i, 0 <= i < count ->
            queue (dev (final (usbqueue E messages count s)))
              !! Z.to_nat (queuecount (dev s) + i)
            = Some (Some (take (Z.to_nat (MSG_SIZE E))
                            (drop (Z.to_nat (MSG_SIZE E * i)) messages))))
      /\ (forall j, (j < Z.to_nat (queuecount (dev s)))%nat ->
            queue (dev (final (usbqueue E messages count s))) !! j
            = queue (dev s) !! j)).
Proof.
  intros Hh Hf Hq0 Hc0 Hmax.
  assert (Hwrap : wrap_int (queuecount (dev s) + count)
                  = queuecount (dev s) + count).
  { apply wrap_int_small. unfold int_range, INT_MIN. lia. }
  split; [|split].
  - intros Hgt. apply usbqueue_full; auto. rewrite Hwrap. exact Hgt.
  - intros l s0. apply enqueue_all_bounded.
  - intros Hfit Hlen Hall Hm Hmm.
    rewrite usbqueue_accept by (auto; rewrite Hwrap; exact Hfit).
    unfold result, calls, final. simpl.
    rewrite copied_queuecount, Hwrap.
    destruct (copied_spec E messages (dev s) (Z.to_nat count))
      as (_ & _ & _ & Hin & Hout); auto; try lia.
    split; [reflexivity|]. split; [reflexivity|]. split; [reflexivity|].
    split.
    + intros i Hi.
      replace (Z.to_nat (queuecount (dev s) + i))
        with (Z.to_nat (queuecount (dev s)) + Z.to_nat i)%nat by lia.
      rewrite Hin by lia.
      replace (Z.to_nat (MSG_SIZE E) * Z.to_nat i)%nat
        with (Z.to_nat (MSG_SIZE E * i)) by nia.
      reflexivity.
    + intros j Hj. apply Hout. left. exact Hj.
Qed.

Lemma usbqueue_capacity_witness :
  usbqueue Sim.env (one_message ++ one_message) 2 nearly_full_rgb
    = (-1, nearly_full_rgb, [])
  /\ queuecount
       (dev (final (usbqueue Sim.env (one_message ++ one_message) 2 live_rgb)))
     = 2.
Proof.
  split.
  - destruct (usbqueue_capacity Sim.env (one_message ++ one_message) 2
                nearly_full_rgb) as (H & _).
    1-5: vm_compute; congruence.
    apply H. vm_compute. reflexivity.
  - destruct (usbqueue_capacity Sim.env (one_message ++ one_message) 2
                live_rgb) as (_ & _ & H).
    1-5: vm_compute; congruence.
    destruct H as (_ & _ & H & _).
    1-2, 4-5: vm_compute; congruence.
    + vm_compute. repeat (constructor; [eexists; reflexivity|]). constructor.
    + exact H.
Defined.

(** ** Teardown *)

(** C4, as the claim states it, fails: a session with a non-zero firmware
    version whose transport handle is gone is torn down without a store
    entry being made for its serial. *)
Lemma closeusb_no_handle_no_entry :
  ~ ((exists entry,
        In (Ev_addstore (serial (profile (dev handle_gone))) 0 entry)
           (calls (closeusb Sim.env handle_gone)))
     <-> fwversion (dev handle_gone) <> 0).
Proof.
  intros [_ H]. destruct H as [entry Hin]; [vm_compute; discriminate|].
  vm_compute in Hin.
  repeat (destruct Hin as [Hin | Hin]; [discriminate|]). exact Hin.
Qed.

(** C4 (amended).  With an [inputclose] that leaves the firmware version
    and the profile alone: for every session torn down by [closeusb] whose
    control path exists and whose transport handle is live, a store entry for
    the session's serial is obtained from [addstore] and the in-memory profile
    is copied into it if and only if [fwversion <> 0] at teardown time, and
    then the profile is not freed; if [fwversion = 0] no entry is made and the
    profile is freed exactly once.  A session without a control path or without
    a transport handle gets neither: no entry is made and the profile is not
    freed, whatever [fwversion] is. *)
Theorem closeusb_persists_profile {W : Type} (E : Env W) (s : machine W) :
  inputclose_keeps E ->
  (infifo (dev s) <> 0 -> handle (dev s) <> 0 -> fwversion (dev s) <> 0 ->
   exists entry,
     List.filter is_persist (calls (closeusb E s)) =
       [Ev_addstore (serial (profile (dev s))) 0 entry;
        Ev_store_write entry (profile (dev s))])
  /\ (infifo (dev s) <> 0 -> handle (dev s) <> 0 -> fwversion (dev s) = 0 ->
      List.filter is_persist (calls (closeusb E s)) = [Ev_freeprofile])
  /\ (infifo (dev s) = 0 \/ handle (dev s) = 0 ->
      List.filter is_persist (calls (closeusb E s)) = []).
Proof.
  intros [Kfw Kpr].
  assert (Hhandle : infifo (dev s) <> 0 -> handle (dev s) <> 0 ->
    exists entry,
      List.filter is_persist (calls (closeusb E s)) =
        persist_calls (dev s) entry).
  { intros Hi Hh.
    destruct (closeusb_handle E s Hi Hh) as (entry & w' & Hrun).
    rewrite Hrun. exists entry. unfold calls. cbn [snd].
    set (kb1 := fst (inputclose E (set_lock Keymutex LkLocked (dev s)) (world s))).
    assert (Hf : fwversion kb1 = fwversion (dev s)).
    { unfold kb1. rewrite (Kfw _ _). reflexivity. }
    assert (Hp : profile kb1 = profile (dev s)).
    { unfold kb1. rewrite (Kpr _ _). reflexivity. }
    rewrite !List.filter_app.
    rewrite (filter_map_free_other is_persist) by reflexivity.
    unfold persist_calls. rewrite Hf, Hp.
    destruct (fwversion (dev s) =? 0); reflexivity. }
  split; [|split].
  - intros Hi Hh Hfw. destruct (Hhandle Hi Hh) as [entry ->].
    exists entry. unfold persist_calls.
    apply Z.eqb_neq in Hfw. rewrite Hfw. reflexivity.
  - intros Hi Hh Hfw. destruct (Hhandle Hi Hh) as [entry ->].
    unfold persist_calls. rewrite Hfw. reflexivity.
  - intros Hor. destruct (Z.eq_dec (infifo (dev s)) 0) as [Hi | Hi].
    + rewrite closeusb_noop by assumption. reflexivity.
    + destruct Hor as [Hi' | Hh]; [contradiction|].
      destruct (closeusb_nohandle E s Hi Hh) as (w' & ->). reflexivity.
Qed.

Lemma closeusb_persists_profile_witness :
  exists entry,
    List.filter is_persist (calls (closeusb Sim.env live_rgb)) =
      [Ev_addstore "0F0120" 0 entry;
       Ev_store_write entry (profile (dev live_rgb))].
Proof.
  destruct (closeusb_persists_profile Sim.env live_rgb) as (H & _).
  - split; intros kb w; reflexivity.
  - apply H; vm_compute; congruence.
Defined.

(** C6.  [closeusb] always returns 0.  If the control path was never created
    (or the record was zeroed by an earlier close) it makes no call and
    changes nothing.  Otherwise it removes the control path, releases and
    destroys both locks, each once, and leaves the all-zero record.  A second
    [closeusb] on the session it leaves makes no call and changes nothing, so
    over the two closes no queue buffer is freed twice, the profile is freed at
    most once and no lock is released twice. *)
Theorem closeusb_idempotent {W : Type} (E : Env W) (s : machine W) :
  result (closeusb E s) = 0
  /\ (infifo (dev s) = 0 -> closeusb E s = (0, s, []))
  /\ (infifo (dev s) <> 0 ->
      dev (final (closeusb E s)) = usbdevice_zero E
      /\ count_calls is_rmdevpath (calls (closeusb E s)) = 1%nat
      /\ List.filter is_unlock (calls (closeusb E s)) =
           [Ev_mutex_unlock Keymutex; Ev_mutex_unlock Mutex]
      /\ List.filter is_mutex_destroy (calls (closeusb E s)) =
           [Ev_mutex_destroy Keymutex; Ev_mutex_destroy Mutex])
  /\ closeusb E (final (closeusb E s)) = (0, final (closeusb E s), [])
  /\ List.NoDup (List.filter is_free
              (calls (closeusb E s)
                 ++ calls (closeusb E (final (closeusb E s)))))
  /\ (count_calls is_freeprofile
        (calls (closeusb E s)
           ++ calls (closeusb E (final (closeusb E s)))) <= 1)%nat
  /\ List.NoDup (List.filter is_unlock
              (calls (closeusb E s)
                 ++ calls (closeusb E (final (closeusb E s))))).
Proof.
  assert (Hnodup2 : List.NoDup [Ev_mutex_unlock Keymutex; Ev_mutex_unlock Mutex]).
  { constructor; [intros [H | []]; discriminate|].
    constructor; [intros []| constructor]. }
  destruct (Z.eq_dec (infifo (dev s)) 0) as [Hi | Hi].
  { rewrite (closeusb_noop E s Hi). unfold result, final, calls. simpl.
    rewrite (closeusb_noop E s Hi). simpl.
    repeat split; auto; try contradiction; constructor. }
  destruct (Z.eq_dec (handle (dev s)) 0) as [Hh | Hh].
  { destruct (closeusb_nohandle E s Hi Hh) as (w' & ->).
    unfold result, final, calls. simpl.
    rewrite closeusb_noop by reflexivity. simpl.
    repeat split; auto; try contradiction; constructor. }
  destruct (closeusb_handle E s Hi Hh) as (entry & w' & ->).
  set (kb1 := fst (inputclose E (set_lock Keymutex LkLocked (dev s)) (world s))).
  unfold result, final, calls. cbn [fst snd dev].
  rewrite closeusb_noop by reflexivity. cbn [fst snd].
  rewrite app_nil_r.
  split; [reflexivity|]. split; [contradiction|].
  assert (Hpin : forall e, In e (persist_calls kb1 entry) -> is_persist e = true).
  { intros e. unfold persist_calls. destruct (fwversion kb1 =? 0); simpl.
    - intros [<- | []]; reflexivity.
    - intros [<- | [<- | []]]; reflexivity. }
  assert (Hother : forall f, (forall e, is_persist e = true -> f e = false) ->
    List.filter f (persist_calls kb1 entry) = []).
  { intros f Hf.
    assert (Hall : forall l, (forall e, In e l -> is_persist e = true) ->
              List.filter f l = []).
    { induction l as [|e l IH]; intros Hl; simpl; [reflexivity|].
      rewrite (Hf e) by (apply Hl; left; reflexivity).
      apply IH. intros e' He'. apply Hl. right. exact He'. }
    apply Hall, Hpin. }
  split.
  { intros _. split; [reflexivity|]. unfold count_calls.
    rewrite !List.filter_app.
    rewrite (filter_map_free_other is_rmdevpath) by reflexivity.
    rewrite (filter_map_free_other is_unlock) by reflexivity.
    rewrite (filter_map_free_other is_mutex_destroy) by reflexivity.
    rewrite (Hother is_rmdevpath), (Hother is_unlock), (Hother is_mutex_destroy);
      try (intros [] ?; (discriminate || reflexivity)).
    repeat split; reflexivity. }
  split; [reflexivity|].
  unfold count_calls. rewrite !List.filter_app.
  rewrite filter_map_free_self.
  rewrite (filter_map_free_other is_freeprofile) by reflexivity.
  rewrite (filter_map_free_other is_unlock) by reflexivity.
  rewrite (Hother is_free), (Hother is_unlock);
    try (intros [] ?; (discriminate || reflexivity)).
  simpl. rewrite app_nil_r. repeat split.
  - apply Finite.Injective_map_NoDup; [|apply List.seq_NoDup].
    intros a b H. inversion H. reflexivity.
  - unfold persist_calls. destruct (fwversion kb1 =? 0); simpl; lia.
  - exact Hnodup2.
Qed.

Lemma closeusb_idempotent_witness :
  closeusb Sim.env (final (closeusb Sim.env live_rgb))
    = (0, final (closeusb Sim.env live_rgb), []).
Proof.
  apply (closeusb_idempotent Sim.env live_rgb).
Defined.

(** ** Reset *)

(** C7, as the claim states it, fails: after a reset that succeeds,
    [queuecount] need not be 0.  [_resetusb] sets it to 0 on line 154 and
    then re-initialises the device; with a [setactive] that queues its
    commands, a session that went into the reset with three commands queued
    comes out of a successful reset with the two that [setactive] queued. *)
Lemma resetusb_success_leaves_commands_queued :
  ~ (result (_resetusb queueing "usb.c" 178 queued_rgb) = 0 ->
     queuecount (dev (final (_resetusb queueing "usb.c" 178 queued_rgb))) = 0).
Proof.
  intros H. specialize (H eq_refl). vm_compute in H. discriminate.
Qed.

(** C7 (amended).  For every session and every [queuecount] before the
    reset, with [(r0, kb0, w0)] what the OS reset returns and leaves: if the
    OS reset fails ([r0 <> 0]), [_resetusb] returns [r0] at once and leaves
    the record as the OS reset left it, [queuecount] untouched.  If it
    succeeds, [_resetusb] sets [queuecount] to 0 before it re-initialises the
    device, so the commands queued before the reset are discarded: on a
    device without RGB it returns 0 with [queuecount = 0]; on an RGB device
    the re-initialisation starts with the firmware query made on the record
    with [queuecount = 0]; and the count the OS reset left has no influence on
    the run: two sessions whose OS resets leave records that differ in
    [queuecount] only end with the same result, the same machine and the
    same calls.  What the queue holds when a successful reset returns is what
    the re-initialisation queued. *)
Theorem resetusb_discards_queue {W : Type} (E : Env W) (file : string)
    (line : Z) (s : machine W) (r0 : Z) (kb0 : usbdevice) (w0 : W) :
  os_resetusb E (dev s) file line (world s) = (r0, kb0, w0) ->
  (r0 <> 0 ->
   _resetusb E file line s =
     (r0, Machine kb0 (features_mask s) w0,
      [Ev_delay DELAY_LONG; Ev_os_resetusb r0]))
  /\ (r0 = 0 ->
      (HAS_FEATURES kb0 (FEAT_RGB E) = false ->
       _resetusb E file line s =
         (0, Machine (set_queuecount 0 kb0) (features_mask s) w0,
          [Ev_delay DELAY_LONG; Ev_os_resetusb 0; Ev_delay DELAY_LONG]))
      /\ (HAS_FEATURES kb0 (FEAT_RGB E) = true ->
          exists rest,
            calls (_resetusb E file line s) =
              Ev_delay DELAY_LONG :: Ev_os_resetusb 0 :: Ev_delay DELAY_LONG
                :: Ev_getfwversion
                     (fst (fst (getfwversion E (set_queuecount 0 kb0) w0)))
                :: rest)
      /\ (forall (s' : machine W) (kb0' : usbdevice),
            os_resetusb E (dev s') file line (world s') = (0, kb0', w0) ->
            features_mask s' = features_mask s ->
            set_queuecount 0 kb0' = set_queuecount 0 kb0 ->
            _resetusb E file line s' = _resetusb E file line s)).
Proof.
  intros Hos. destruct (resetusb_after_os E file line) as (K & HK & Hnon & Hrgb).
  split; [|intros ->; split; [|split]].
  - intros Hr0. rewrite (HK s r0 kb0 w0 Hos).
    apply Z.eqb_neq in Hr0. rewrite Hr0. reflexivity.
  - intros Hf. rewrite (HK s 0 kb0 w0 Hos). simpl.
    rewrite Hnon by exact Hf. reflexivity.
  - intros Hf. rewrite (HK s 0 kb0 w0 Hos).
    change (0 =? 0) with true. cbv iota.
    destruct (Hrgb (Machine (set_queuecount 0 kb0) (features_mask s) w0) Hf)
      as (rest & Hrest).
    unfold calls at 1. cbn [snd]. rewrite Hrest. exists rest. reflexivity.
  - intros s' kb0' Hos' Hmask Heq.
    rewrite (HK s 0 kb0 w0 Hos), (HK s' 0 kb0' w0 Hos').
    simpl. rewrite Hmask, Heq. reflexivity.
Qed.

Lemma resetusb_discards_queue_witness :
  queuecount (dev queued_rgb_bad_link) = 3
  /\ result (_resetusb Sim.env "usb.c" 178 queued_rgb_bad_link) = -1
  /\ queuecount (dev (final (_resetusb Sim.env "usb.c" 178 queued_rgb_bad_link)))
     = 3
  /\ queuecount (dev stale_nonrgb) = 3
  /\ queuecount (dev (final (_resetusb Sim.env "usb.c" 178 stale_nonrgb))) = 0
  /\ _resetusb queueing "usb.c" 178 queued_rgb
     = _resetusb queueing "usb.c" 178 live_rgb.
Proof.
  split; [reflexivity|].
  destruct (resetusb_discards_queue Sim.env "usb.c" 178 queued_rgb_bad_link
              (-1) (dev queued_rgb_bad_link) (world queued_rgb)) as (H1 & _);
    [reflexivity|].
  rewrite H1 by discriminate.
  split; [reflexivity|]. split; [reflexivity|]. split; [reflexivity|].
  destruct (resetusb_discards_queue Sim.env "usb.c" 178 stale_nonrgb
              0 (dev stale_nonrgb) (world stale_nonrgb)) as (_ & H2);
    [reflexivity|].
  destruct (H2 eq_refl) as (H2' & _). rewrite H2' by reflexivity.
  split; [reflexivity|].
  destruct (resetusb_discards_queue queueing "usb.c" 178 live_rgb
              0 (dev live_rgb) (world live_rgb)) as (_ & H3);
    [reflexivity|].
  destruct (H3 eq_refl) as (_ & _ & H3').
  apply (H3' queued_rgb (dev queued_rgb)); reflexivity.
Defined.

(** ** Revert *)

(** C8.  Whenever a firmware update is pending, [revertusb] returns 0 at
    once: it makes no call and changes nothing, whatever bound its loops are
    run with.  And whenever a dequeue made by one of its drain loops (which
    dequeue only while [queuecount > 0]) sends nothing (a result [<= 0]),
    [revertusb] returns -1 and that dequeue is its last call: no further
    dequeue, and no deactivation if none was made before. *)
Theorem revertusb_stops_when_stuck {W : Type} (E : Env W) (fuel : nat)
    (s : machine W) :
  (NEEDS_FW_UPDATE E (dev s) = true -> revertusb E fuel s = (Some 0, s, []))
  /\ (forall (pre post : list event) (r : Z),
        calls (revertusb E fuel s) = pre ++ Ev_usbdequeue r :: post ->
        r <= 0 ->
        result (revertusb E fuel s) = Some (-1)
        /\ post = []
        /\ (~ In (Ev_setactive 0) pre ->
            ~ In (Ev_setactive 0) (calls (revertusb E fuel s)))).
Proof.
  split; [apply revertusb_update_pending|].
  intros pre post r Hcalls Hr.
  destruct (revertusb_shape E fuel s)
    as (good & Hgood & [[Hc Hres] | (x & Hx & Hc & Hres)]).
  - exfalso. rewrite Hc in Hcalls. rewrite <- (app_nil_r good) in Hcalls.
    destruct (clean_split good [] pre post r Hgood Hr Hcalls) as (pre' & _ & H).
    destruct pre'; discriminate.
  - rewrite Hc in Hcalls.
    destruct (clean_split good _ pre post r Hgood Hr Hcalls) as (pre' & Hpre & H).
    destruct pre' as [|e pre']; simpl in H.
    + inversion H; subst. split; [assumption|]. split; [reflexivity|].
      rewrite app_nil_r in *. intros Hno Hin. rewrite Hc in Hin.
      apply in_app_or in Hin. destruct Hin as [Hin | [Hin | []]];
        [contradiction | discriminate].
    + inversion H as [[He Hrest]]. destruct pre'; discriminate.
Qed.

Lemma revertusb_stops_when_stuck_witness :
  revertusb Sim.env 10 queued_rgb_old_firmware
    = (Some 0, queued_rgb_old_firmware, [])
  /\ result (revertusb Sim.env 10 queued_rgb_stuck) = Some (-1).
Proof.
  split.
  - apply (revertusb_stops_when_stuck Sim.env 10 queued_rgb_old_firmware).
    reflexivity.
  - destruct (revertusb_stops_when_stuck Sim.env 10 queued_rgb_stuck) as (_ & H).
    apply (H [Ev_delay DELAY_SHORT; Ev_usbdequeue 64; Ev_delay DELAY_SHORT]
             [] 0); [vm_compute; reflexivity | lia].
Defined.

(** ** Reset with retry *)

(** C2, as the claim states it, fails: a reset attempt that ends with the
    result of a failed firmware query does not make [usb_tryreset] give up.
    With a device whose first firmware query after the reset fails, the loop
    tries again and returns 0. *)
Lemma reinit_failure_is_retried :
  ~ (result (usb_tryreset Sim.env 10 flaky_firmware) = Some (-1)
     <-> exists e, In e (calls (usb_tryreset Sim.env 10 flaky_firmware))
                   /\ is_reinit_failure e = true).
Proof.
  intros [_ H].
  assert (Hres : result (usb_tryreset Sim.env 10 flaky_firmware) = Some (-1)).
  { apply H. exists (Ev_getfwversion (-1)). split; [|reflexivity].
    vm_compute. do 5 right. left. reflexivity. }
  vm_compute in Hres. discriminate.
Qed.

(** C2 (amended).  [usb_tryreset] invokes [resetusb] again after every
    non-zero result other than -2, and gives up (returns -1) if and only if an
    attempt returns -2.  An attempt returns -2 only when [os_resetusb]
    returned -2: a failed firmware query or profile load inside the reset makes
    the attempt return -1, which is retried like any other failure.  So a run
    either returns 0, or returns -1 after an OS reset that returned -2, or is
    still retrying after as many attempts as it was given.  In particular, if
    [os_resetusb] fails [n] times (five, say) with results other than -2 and
    the next attempt succeeds, [usb_tryreset] returns 0 on attempt [n + 1]. *)
Theorem usb_tryreset_retries {W : Type} (E : Env W) :
  (forall (fuel : nat) (s : machine W),
     (result (usb_tryreset E fuel s) = Some (-1)
      <-> In (Ev_os_resetusb (-2)) (calls (usb_tryreset E fuel s)))
     /\ (result (usb_tryreset E fuel s) = Some 0
         \/ result (usb_tryreset E fuel s) = Some (-1)
         \/ (result (usb_tryreset E fuel s) = None
             /\ count_calls is_os_resetusb (calls (usb_tryreset E fuel s))
                = fuel)))
  /\ (forall s : machine W,
        result (resetusb E s) = -2
        <-> In (Ev_os_resetusb (-2)) (calls (resetusb E s)))
  /\ (forall (s : machine W) (e : event),
        In e (calls (resetusb E s)) -> is_reinit_failure e = true ->
        result (resetusb E s) = -1)
  /\ (forall (n k : nat) (s : machine W),
        os_fails_then_ok E n s ->
        result (usb_tryreset E (n + S k) s) = Some 0
        /\ count_calls is_os_resetusb (calls (usb_tryreset E (n + S k) s))
           = S n).
Proof.
  split; [|split; [|split]].
  - intros fuel s. unfold usb_tryreset, bind, printf, emit, ret.
    pose proof (usb_tryreset_loop_shape E fuel s) as Hshape.
    unfold result, calls in *.
    destruct (usb_tryreset_loop E fuel s) as [[x s1] l1]. simpl in *.
    destruct x as [|r|]; simpl.
    + split; [|auto]. split; [|reflexivity]. intros _. right.
      apply in_or_app. left. try rewrite app_nil_r. exact Hshape.
    + destruct Hshape as [-> Hno]. split; [|auto].
      split; [discriminate|].
      intros [H | H]; [discriminate|]. exfalso. apply Hno.
      rewrite ?app_nil_r in H. exact H.
    + destruct Hshape as [Hno Hcount]. split.
      * split; [discriminate|].
        intros [H | H]; [discriminate|]. exfalso. apply Hno.
        rewrite ?app_nil_r in H. exact H.
      * right. right. split; [reflexivity|].
        rewrite ?app_nil_r. rewrite count_calls_cons. exact Hcount.
  - apply resetusb_minus2.
  - apply resetusb_reinit_failure.
  - intros n k s Hs. unfold usb_tryreset, bind, printf, emit, ret.
    destruct (usb_tryreset_loop_retries E n k s Hs) as [Hres Hcount].
    unfold result, calls in *.
    destruct (usb_tryreset_loop E (n + S k) s) as [[x s1] l1]. simpl in *.
    subst x. simpl. split; [reflexivity|].
    rewrite ?app_nil_r. rewrite count_calls_cons. exact Hcount.
Qed.

Lemma usb_tryreset_retries_witness :
  result (usb_tryreset Sim.env 6 flaky_link) = Some 0
  /\ count_calls is_os_resetusb (calls (usb_tryreset Sim.env 6 flaky_link))
     = 6%nat.
Proof.
  destruct (usb_tryreset_retries Sim.env) as (_ & _ & _ & H).
  apply (H 5%nat 0%nat flaky_link).
  vm_compute.
  repeat match goal with |- _ /\ _ => split end;
    first [discriminate | reflexivity].
Defined.

(** ** Setup *)

(** C1, as the claim states it, fails: when the firmware query of an RGB
    device fails, [setupusb] does not return success.  It returns -2, after
    looking the serial up in the profile store. *)
Lemma setupusb_query_failure_not_success :
  ~ (In (Ev_getfwversion (-1))
        (calls (setupusb Sim.env Sim.v_corsair Sim.p_k70 query_fails)) ->
     result (setupusb Sim.env Sim.v_corsair Sim.p_k70 query_fails) = 0
     /\ no_calls is_findstore
          (calls (setupusb Sim.env Sim.v_corsair Sim.p_k70 query_fails))).
Proof.
  intros H.
  assert (Hin : In (Ev_getfwversion (-1))
            (calls (setupusb Sim.env Sim.v_corsair Sim.p_k70 query_fails))).
  { vm_compute. do 46 right. left. reflexivity. }
  destruct (H Hin) as [Hres _]. vm_compute in Hres. discriminate.
Qed.

(** C1 (amended).  A run of [setupusb] makes a firmware query exactly when
    it reaches line 81 ([reaches_query]: the control path and the input
    device were made and the device has the RGB capability), and then it
    makes one, whose result is [fst (fst (queried E vendor product s))].  For
    every such RGB-capable device, when the query fails [setupusb] returns -2
    (not success): it looks the serial of the record up in the profile store,
    with the one [findstore] call of the run, and never calls
    [hwloadprofile].  It is when the query succeeds and the record it leaves
    needs a firmware update that [setupusb] restricts the features to exactly
    RGB, FWVERSION and FWUPDATE, marks the session active and returns 0
    without consulting the profile store (no [findstore], no
    [hwloadprofile]). *)
Theorem setupusb_firmware_gate {W : Type} (E : Env W) (vendor product : Z)
    (s : machine W) :
  (forall res,
     In (Ev_getfwversion res) (calls (setupusb E vendor product s)) ->
     reaches_query E vendor product s
     /\ res = fst (fst (queried E vendor product s)))
  /\ (reaches_query E vendor product s ->
      List.filter is_getfwversion (calls (setupusb E vendor product s))
        = [Ev_getfwversion (fst (fst (queried E vendor product s)))]
      /\ (fst (fst (queried E vendor product s)) <> 0 ->
          result (setupusb E vendor product s) = -2
          /\ List.filter is_findstore (calls (setupusb E vendor product s))
             = [Ev_findstore
                  (serial (profile (snd (fst (queried E vendor product s)))))
                  (fst (looked_up E vendor product s))]
          /\ no_calls is_hwloadprofile (calls (setupusb E vendor product s)))
      /\ (fst (fst (queried E vendor product s)) = 0 ->
          NEEDS_FW_UPDATE E (snd (fst (queried E vendor product s))) = true ->
          result (setupusb E vendor product s) = 0
          /\ features (dev (final (setupusb E vendor product s))) =
               Z.lor (Z.lor (FEAT_RGB E) (FEAT_FWVERSION E)) (FEAT_FWUPDATE E)
          /\ active (dev (final (setupusb E vendor product s))) = 1
          /\ no_calls is_findstore (calls (setupusb E vendor product s))
          /\ no_calls is_hwloadprofile (calls (setupusb E vendor product s)))).
Proof.
  assert (Hquery : reaches_query E vendor product s ->
    List.filter is_getfwversion (calls (setupusb E vendor product s))
      = [Ev_getfwversion (fst (fst (queried E vendor product s)))]).
  { intros Hreach.
    destruct (setupusb_via_query E vendor product s Hreach) as (r0 & Hr0 & Hrun).
    rewrite Hrun. unfold calls at 1. cbn [snd].
    destruct (setupusb_firmware E (query_state E vendor product s))
      as [[r3 s3] l3] eqn:HF.
    destruct (setupusb_firmware_run E _ _ _ _ HF) as (rest & -> & Hno & _).
    unfold calls. cbn [snd]. unfold attach_calls.
    rewrite !List.filter_app, filter_malloc_calls by reflexivity.
    simpl. apply count_calls_none in Hno. unfold count_calls in Hno.
    apply length_zero_iff_nil in Hno. rewrite Hno. reflexivity. }
  split.
  { intros res Hin.
    destruct (reaches_query_dec E vendor product s) as [Hreach | Hnot].
    - split; [exact Hreach|].
      assert (Hin' : In (Ev_getfwversion res)
                (List.filter is_getfwversion (calls (setupusb E vendor product s)))).
      { apply filter_In. split; [exact Hin | reflexivity]. }
      rewrite (Hquery Hreach) in Hin'.
      destruct Hin' as [Heq | []]. congruence.
    - exfalso. apply (no_calls_in _ _ _ (setupusb_no_query E _ _ _ Hnot)) in Hin.
      discriminate. }
  intros Hreach. split; [exact (Hquery Hreach)|]. split.
  - intros Hres.
    destruct (setupusb_restore_run_calls E vendor product s Hreach (or_introl Hres))
      as (r0 & x & Hr0 & Hresult & _ & HR & _ & Hcalls).
    rewrite Hresult, HR, Hcalls. unfold setup_calls.
    apply Z.eqb_neq in Hres. rewrite Hres. cbn [andb].
    split; [reflexivity|].
    split.
    + unfold attach_calls, k95_calls.
      rewrite !List.filter_app, filter_malloc_calls by reflexivity.
      destruct (fst (looked_up E vendor product s)), (model _ =? 95);
        reflexivity.
    + apply count_calls_none. unfold attach_calls, k95_calls.
      rewrite !count_calls_app, count_malloc_calls.
      destruct (fst (looked_up E vendor product s)), (model _ =? 95);
        reflexivity.
  - intros Hres Hneeds.
    destruct (setupusb_via_query E vendor product s Hreach) as (r0 & Hr0 & Hrun).
    rewrite Hrun. unfold result, final, calls. cbn [fst snd].
    destruct (setupusb_firmware E (query_state E vendor product s))
      as [[r3 s3] l3] eqn:HF.
    destruct (setupusb_firmware_run E _ _ _ _ HF)
      as (rest & _ & _ & _ & _ & _ & Hupd & _).
    destruct (Hupd Hres Hneeds) as (-> & Hf & Ha & Hnofind & Hnohw).
    cbn [fst snd].
    split; [reflexivity|]. split; [exact Hf|]. split; [exact Ha|].
    split; apply no_calls_app; (split; [repeat constructor|]);
      apply no_calls_app; split; auto; apply no_calls_mallocs; reflexivity.
Qed.

Lemma setupusb_firmware_gate_witness :
  (result (setupusb Sim.env Sim.v_corsair Sim.p_k70 query_fails) = -2
   /\ List.filter is_findstore
        (calls (setupusb Sim.env Sim.v_corsair Sim.p_k70 query_fails))
      = [Ev_findstore "0F0120" None])
  /\ (result (setupusb Sim.env Sim.v_corsair Sim.p_k70 old_firmware) = 0
      /\ features (dev (final (setupusb Sim.env Sim.v_corsair Sim.p_k70
                                 old_firmware)))
        = Z.lor (Z.lor Sim.feat_rgb Sim.feat_fwversion) Sim.feat_fwupdate
      /\ active (dev (final (setupusb Sim.env Sim.v_corsair Sim.p_k70
                               old_firmware))) = 1
      /\ no_calls is_findstore
           (calls (setupusb Sim.env Sim.v_corsair Sim.p_k70 old_firmware))).
Proof.
  split.
  - destruct (setupusb_firmware_gate Sim.env Sim.v_corsair Sim.p_k70
                query_fails) as (_ & H).
    destruct H as (_ & H & _); [split; vm_compute; reflexivity|].
    destruct H as (H1 & H2 & _); [vm_compute; discriminate|].
    split; [exact H1|]. rewrite H2. vm_compute. reflexivity.
  - destruct (setupusb_firmware_gate Sim.env Sim.v_corsair Sim.p_k70
                old_firmware) as (_ & H).
    destruct H as (_ & _ & H); [split; vm_compute; reflexivity|].
    destruct H as (H1 & H2 & H3 & H4 & _);
      [vm_compute; reflexivity | vm_compute; reflexivity |].
    split; [exact H1|]. split; [rewrite H2; reflexivity|].
    split; [exact H3 | exact H4].
Defined.

(** C10.  Whenever [setupusb] returns -2, nothing of what it set up has been
    taken back: the control path was made and the input device opened, and
    [setupusb] made no call that removes the path, closes the input device or
    the handle, frees a buffer or the profile, or releases or destroys a lock;
    [malloc] was called for each of the [QUEUE_LEN E] queue slots; the device
    lock was taken.  The run reached the firmware query and looked the serial
    of the record up in the store, once.  And when that lookup finds a
    profile [p0], the record holds it in place of its own profile (with the
    K95 modes added) despite the error: if the firmware query had failed,
    [hwloadprofile] is not called and the record at the return is the one the
    query left with its profile overwritten; if the query had succeeded, that
    overwritten record is the one [hwloadprofile] was called on and failed
    on, and the record at the return is the one it left. *)
Theorem setupusb_sync_fatal_keeps_session {W : Type} (E : Env W)
    (vendor product : Z) (s : machine W) :
  result (setupusb E vendor product s) = -2 ->
  In (Ev_makedevpath 0) (calls (setupusb E vendor product s))
  /\ (exists r0, r0 <> 0
        /\ In (Ev_inputopen r0) (calls (setupusb E vendor product s)))
  /\ no_calls is_unwind (calls (setupusb E vendor product s))
  /\ count_calls is_malloc (calls (setupusb E vendor product s))
     = Z.to_nat (QUEUE_LEN E)
  /\ In (Ev_mutex_lock Mutex) (calls (setupusb E vendor product s))
  /\ reaches_query E vendor product s
  /\ List.filter is_findstore (calls (setupusb E vendor product s))
     = [Ev_findstore
          (serial (profile (snd (fst (queried E vendor product s)))))
          (fst (looked_up E vendor product s))]
  /\ (forall p0, fst (looked_up E vendor product s) = Some p0 ->
      let kb1 := snd (fst (queried E vendor product s)) in
      let kbm := set_profile (with_k95_modes E (model kb1) p0) kb1 in
      (fst (fst (queried E vendor product s)) <> 0 ->
       no_calls is_hwloadprofile (calls (setupusb E vendor product s))
       /\ dev (final (setupusb E vendor product s)) = kbm
       /\ world (final (setupusb E vendor product s))
          = snd (looked_up E vendor product s))
      /\ (fst (fst (queried E vendor product s)) = 0 ->
          fst (fst (hwloadprofile E kbm 0 (snd (looked_up E vendor product s))))
            <> 0
          /\ In (Ev_hwloadprofile 0
                   (fst (fst (hwloadprofile E kbm 0
                                (snd (looked_up E vendor product s))))))
                (calls (setupusb E vendor product s))
          /\ dev (final (setupusb E vendor product s))
             = snd (fst (hwloadprofile E kbm 0
                           (snd (looked_up E vendor product s))))
          /\ world (final (setupusb E vendor product s))
             = snd (hwloadprofile E kbm 0
                      (snd (looked_up E vendor product s))))).
Proof.
  intros Hres.
  destruct (reaches_query_dec E vendor product s) as [Hreach | Hnot].
  2:{ destruct (setupusb_no_query_result E _ _ _ Hnot) as [H | H];
        rewrite H in Hres; discriminate. }
  assert (Hor : fst (fst (queried E vendor product s)) <> 0
                \/ NEEDS_FW_UPDATE E (snd (fst (queried E vendor product s)))
                   = false).
  { destruct (Z.eq_dec (fst (fst (queried E vendor product s))) 0) as [H0 | H0];
      [|left; exact H0].
    destruct (NEEDS_FW_UPDATE E (snd (fst (queried E vendor product s))))
      eqn:Hn; [|right; reflexivity].
    exfalso.
    destruct (setupusb_via_query E vendor product s Hreach) as (r0 & Hr0 & Hrun).
    rewrite Hrun in Hres. unfold result at 1 in Hres. cbn [fst snd] in Hres.
    destruct (setupusb_firmware E (query_state E vendor product s))
      as [[r3 s3] l3] eqn:HF.
    destruct (setupusb_firmware_run E _ _ _ _ HF)
      as (rest & _ & _ & _ & _ & _ & Hupd & _).
    destruct (Hupd H0 Hn) as (-> & _). discriminate. }
  destruct (setupusb_restore_run_calls E vendor product s Hreach Hor)
    as (r0 & x & Hr0 & Hresult & Hfinal & HR & HcallsR & Hcalls).
  rewrite Hresult in Hres.
  assert (Hshape : calls (setupusb E vendor product s) =
    attach_calls r0 ++ malloc_calls E
      ++ [Ev_getfwversion (fst (fst (queried E vendor product s)));
          Ev_delay DELAY_LONG;
          Ev_findstore
            (serial (profile (snd (fst (queried E vendor product s)))))
            (fst (looked_up E vendor product s))]
      ++ match fst (looked_up E vendor product s) with
         | Some _ => []
         | None => [Ev_getusbmode 0]
         end
      ++ k95_calls (model (snd (fst (queried E vendor product s))) =? 95)
      ++ (if fst (fst (queried E vendor product s)) =? 0
          then [Ev_hwloadprofile
                  (match fst (looked_up E vendor product s) with
                   | Some _ => 0
                   | None => 1
                   end) x]
          else [])).
  { rewrite Hcalls. unfold setup_calls. rewrite HR in Hres.
    destruct (fst (fst (queried E vendor product s)) =? 0); [|reflexivity].
    simpl in Hres. destruct (x =? 0); [discriminate | reflexivity]. }
  clear Hcalls.
  split; [rewrite Hshape; unfold attach_calls; simpl; auto 10|].
  split; [exists r0; split;
            [exact Hr0 | rewrite Hshape; unfold attach_calls; simpl; auto 10]|].
  split.
  { rewrite Hshape. apply count_calls_none. unfold attach_calls, k95_calls.
    rewrite !count_calls_app, count_malloc_calls.
    destruct (fst (looked_up E vendor product s)), (model _ =? 95),
      (fst (fst (queried E vendor product s)) =? 0); reflexivity. }
  split.
  { rewrite Hshape. unfold attach_calls, k95_calls.
    rewrite !count_calls_app, count_malloc_calls.
    destruct (fst (looked_up E vendor product s)), (model _ =? 95),
      (fst (fst (queried E vendor product s)) =? 0); unfold count_calls; simpl;
      lia. }
  split; [rewrite Hshape; unfold attach_calls; simpl; auto 10|].
  split; [exact Hreach|].
  split.
  { rewrite Hshape. unfold attach_calls, k95_calls.
    rewrite !List.filter_app, filter_malloc_calls by reflexivity.
    destruct (fst (looked_up E vendor product s)), (model _ =? 95),
      (fst (fst (queried E vendor product s)) =? 0); reflexivity. }
  intros p0 Hp0. cbv zeta.
  assert (Hfind : findstore E
            (serial (profile (snd (fst (queried E vendor product s)))))
            (snd (queried E vendor product s))
          = (Some p0, snd (looked_up E vendor product s))).
  { unfold looked_up in *.
    destruct (findstore E _ _) as [o w]. simpl in *. subst o. reflexivity. }
  match type of Hfinal with _ = final (setupusb_restore E ?f ?m) =>
    pose proof (setupusb_restore_stored E f m p0 _ Hfind) as [Htrue Hfalse]
  end.
  cbn [dev world features_mask] in Htrue, Hfalse.
  rewrite Hfinal.
  split.
  - intros Hne. apply Z.eqb_neq in Hne.
    assert (Hfail : negb (fst (fst (queried E vendor product s)) =? 0) = true)
      by (rewrite Hne; reflexivity).
    destruct (Htrue Hfail) as [_ ->]. cbn [dev world].
    split; [|split; reflexivity].
    rewrite Hshape, Hne. apply count_calls_none. unfold attach_calls, k95_calls.
    rewrite !count_calls_app, count_malloc_calls. rewrite Hp0.
    destruct (model _ =? 95); reflexivity.
  - intros He0.
    assert (Hfail : negb (fst (fst (queried E vendor product s)) =? 0) = false)
      by (rewrite He0; reflexivity).
    destruct (Hfalse Hfail) as (HresR & -> & Hin). cbn [dev world].
    rewrite HresR in Hres.
    split; [intros H0; rewrite H0 in Hres; discriminate|].
    split; [|split; reflexivity].
    rewrite HcallsR. apply in_or_app. right. apply in_or_app. right.
    right. exact Hin.
Qed.

Lemma setupusb_sync_fatal_keeps_session_witness :
  profile (dev stored_query_fails) = Usbprofile "0F0120" 0 0 0
  /\ List.filter is_findstore
       (calls (setupusb Sim.env Sim.v_corsair Sim.p_k70 stored_query_fails))
     = [Ev_findstore "0F0120" (Some (Usbprofile "0F0120" 0x2000 0x1001 2))]
  /\ profile (dev (final (setupusb Sim.env Sim.v_corsair Sim.p_k70
                            stored_query_fails)))
     = Usbprofile "0F0120" 0x2000 0x1001 2
  /\ no_calls is_unwind
       (calls (setupusb Sim.env Sim.v_corsair Sim.p_k70 stored_query_fails))
  /\ count_calls is_malloc
       (calls (setupusb Sim.env Sim.v_corsair Sim.p_k70 stored_query_fails))
     = 40%nat.
Proof.
  split; [reflexivity|].
  destruct (setupusb_sync_fatal_keeps_session Sim.env Sim.v_corsair Sim.p_k70
              stored_query_fails)
    as (_ & _ & H1 & H2 & _ & _ & H3 & H4).
  - vm_compute. reflexivity.
  - split; [rewrite H3; vm_compute; reflexivity|].
    split; [|split; [exact H1 | exact H2]].
    destruct (H4 (Usbprofile "0F0120" 0x2000 0x1001 2)) as [H5 _];
      [vm_compute; reflexivity|].
    destruct H5 as (_ & -> & _); [vm_compute; discriminate|].
    vm_compute. reflexivity.
Defined.

Lemma sim_attach_keeps : attach_keeps Sim.env.
Proof.
  split.
  - intros kb w. simpl. destruct (Sim.w_makedevpath w =? 0); reflexivity.
  - intros kb w. reflexivity.
  - intros f kb w. reflexivity.
  - intros c kb w. reflexivity.
  - intros kb w. reflexivity.
  - intros id p km. simpl. lia.
Qed.

(** C9.  For a vendor/product pair resolving to a non-RGB 95-class device,
    a [setupusb] whose control path is made and whose input device is opened
    (so that it reaches the branch of lines 61-74) returns 0 with the RGB
    feature bit unset, [pollrate = -1], no queue buffer allocated (no
    [malloc], the queue pointers as they were), at least three modes in the
    profile and no report sent.  And for any session with the RGB capability
    unset, every enqueue returns 0, makes no call and leaves the machine
    unchanged, and the device never transmits a report: usb.c hands a report
    to the transport with [usbdequeue] only, which [revertusb] does not call
    for such a session and which [_resetusb], [usb_tryreset] and [closeusb]
    call for no session.  Assumed of what usb.c does not define: the
    attach-time collaborators leave the resolved model, features and queue
    pointers alone, [getusbmode] makes the mode it is asked for, and the
    non-RGB feature set lacks the RGB bit. *)
Theorem setupusb_nonrgb_k95 {W : Type} (E : Env W) (vendor product : Z)
    (s : machine W) :
  attach_keeps E ->
  Z.land (FEAT_STD_NRGB E) (FEAT_RGB E) <> FEAT_RGB E ->
  IS_RGB E vendor product = false ->
  product <> P_K65 E -> product <> P_K70 E -> product <> P_K70_NRGB E ->
  (In (Ev_makedevpath 0) (calls (setupusb E vendor product s)) ->
   (exists r0, r0 <> 0
      /\ In (Ev_inputopen r0) (calls (setupusb E vendor product s))) ->
   result (setupusb E vendor product s) = 0
   /\ model (dev (final (setupusb E vendor product s))) = 95
   /\ HAS_FEATURES (dev (final (setupusb E vendor product s))) (FEAT_RGB E)
      = false
   /\ pollrate (dev (final (setupusb E vendor product s))) = -1
   /\ no_calls is_malloc (calls (setupusb E vendor product s))
   /\ queue (dev (final (setupusb E vendor product s))) = queue (dev s)
   /\ 3 <= modecount (profile (dev (final (setupusb E vendor product s))))
   /\ no_calls is_usbdequeue (calls (setupusb E vendor product s)))
  /\ (forall (s' : machine W) (messages : list byte) (count : Z),
        HAS_FEATURES (dev s') (FEAT_RGB E) = false ->
        usbqueue E messages count s' = (0, s', []))
  /\ (forall (s' : machine W) (fuel : nat),
        HAS_FEATURES (dev s') (FEAT_RGB E) = false ->
        no_calls is_usbdequeue (calls (revertusb E fuel s')))
  /\ (forall (s' : machine W) (file : string) (line : Z),
        no_calls is_usbdequeue (calls (_resetusb E file line s')))
  /\ (forall (s' : machine W) (fuel : nat),
        no_calls is_usbdequeue (calls (usb_tryreset E fuel s')))
  /\ (forall s' : machine W,
        no_calls is_usbdequeue (calls (closeusb E s'))).
Proof.
  intros Hkeeps Hbit Hrgb H65 H70 H70n.
  split; [|split; [|split; [|split; [|split]]]].
  2:{ intros s' messages count Hf. apply usbqueue_guard. right. exact Hf. }
  2:{ intros s' fuel Hf. apply revertusb_nonrgb_no_dequeue. exact Hf. }
  2:{ intros s' file line. apply resetusb_no_dequeue. }
  2:{ intros s' fuel. apply usb_tryreset_no_dequeue. }
  2:{ intros s'. apply closeusb_no_dequeue. }
  destruct (setupusb E vendor product s) as [[r sf] l] eqn:Hrun.
  unfold result, final, calls. cbn [fst snd]. intros Hmk (r0 & Hr0 & Hio).
  rewrite setupusb_eq in Hrun.
  destruct (setupusb_attach E vendor product s) as [[o s1] l1] eqn:Hatt.
  pose proof (setupusb_attach_run E _ _ _ _ _ _ Hatt) as Hshape.
  destruct o as [x|].
  { exfalso. inversion Hrun; subst. rewrite app_nil_r in *.
    destruct Hshape as [_ [(r1 & Hr1 & ->) | ->]].
    - simpl in Hmk.
      repeat (destruct Hmk as [Hmk | Hmk]; [try discriminate; congruence|]).
      exact Hmk.
    - simpl in Hio.
      repeat (destruct Hio as [Hio | Hio]; [try discriminate; congruence|]).
      exact Hio. }
  destruct (setupusb_attach_keeps E _ _ _ _ _ Hkeeps Hatt)
    as (Hmodel & Hfeat & Hqueue & _).
  apply Z.eqb_neq in H65, H70, H70n.
  rewrite H65, H70, H70n in Hmodel. simpl in Hmodel.
  rewrite Hrgb in Hfeat.
  assert (Hnon : HAS_FEATURES (dev s1) (FEAT_RGB E) = false).
  { unfold HAS_FEATURES. rewrite Hfeat. apply Z.eqb_neq.
    apply land_mask_lacks. exact Hbit. }
  rewrite Hnon in Hrun. simpl in Hrun.
  destruct (setupusb_nonrgb E s1) as [[r2 s2] l2] eqn:Hn.
  destruct (setupusb_nonrgb_run E _ _ _ _ Hn)
    as (-> & Hpoll & Hmal & _ & Hdeq & _).
  destruct (setupusb_nonrgb_keeps E _ _ _ _ Hkeeps Hn)
    as (Hm2 & Hf2 & Hq2 & Hmodes).
  destruct Hshape as (r1 & Hr1 & ->).
  injection Hrun as <- <- <-.
  split; [reflexivity|]. split; [congruence|].
  split; [unfold HAS_FEATURES in *; rewrite Hf2; exact Hnon|].
  split; [exact Hpoll|].
  split; [repeat (constructor; [reflexivity|]); exact Hmal|].
  split; [congruence|]. split; [apply Hmodes; exact Hmodel|].
  repeat (constructor; [reflexivity|]); exact Hdeq.
Qed.

Lemma setupusb_nonrgb_k95_witness :
  result (setupusb Sim.env Sim.v_corsair Sim.p_k95_nrgb
            (Sim.boot Sim.opened Sim.calm)) = 0
  /\ 3 <= modecount
            (profile (dev (final (setupusb Sim.env Sim.v_corsair Sim.p_k95_nrgb
                                    (Sim.boot Sim.opened Sim.calm)))))
  /\ usbqueue Sim.env one_message 1 live_nonrgb = (0, live_nonrgb, []).
Proof.
  destruct (setupusb_nonrgb_k95 Sim.env Sim.v_corsair Sim.p_k95_nrgb
              (Sim.boot Sim.opened Sim.calm)) as (H & Hq & _).
  - exact sim_attach_keeps.
  - vm_compute. discriminate.
  - reflexivity.
  - vm_compute. discriminate.
  - vm_compute. discriminate.
  - vm_compute. discriminate.
  - destruct H as (H1 & _ & _ & _ & _ & _ & H2 & _).
    + vm_compute. do 3 right. left. reflexivity.
    + exists 1. split; [discriminate|].
      vm_compute. do 4 right. left. reflexivity.
    + split; [exact H1|]. split; [exact H2|]. apply Hq. reflexivity.
Defined.

(** ** The queue across enqueues *)

Section Queue.

Context {W : Type} (E : Env W).

Lemma queue_store_length (q : list (option (list byte))) (idx : Z) (src : list byte) :
  length (queue_store q idx src) = length q.
Proof.
  unfold queue_store. destruct (idx <? 0); [reflexivity|].
  destruct (q !! Z.to_nat idx) as [[b|]|]; try reflexivity.
  apply length_insert.
Qed.

Lemma queue_store_Some (q : list (option (list byte))) (idx : Z) (src : list byte) :
  Forall is_Some q -> Forall is_Some (queue_store q idx src).
Proof.
  intros H. unfold queue_store. destruct (idx <? 0); [assumption|].
  destruct (q !! Z.to_nat idx) as [[b|]|]; try assumption.
  apply Forall_insert; [assumption | eexists; reflexivity].
Qed.

Lemma same_but_queue_refl (kb : usbdevice) : same_but_queue kb kb.
Proof. destruct kb; reflexivity. Qed.

Lemma same_but_queue_trans (kb1 kb2 kb3 : usbdevice) :
  same_but_queue kb1 kb2 -> same_but_queue kb2 kb3 -> same_but_queue kb1 kb3.
Proof.
  unfold same_but_queue. intros H12 H23. rewrite H23 at 1. rewrite H12 at 1.
  destruct kb1; reflexivity.
Qed.

Lemma copied_frame (messages : list byte) (n : nat) (kb : usbdevice) :
  copied E messages n kb = set_queue (queue (copied E messages n kb)) kb
  /\ length (queue (copied E messages n kb)) = length (queue kb)
  /\ (Forall is_Some (queue kb) -> Forall is_Some (queue (copied E messages n kb))).
Proof.
  unfold copied. generalize (seq 0 n) as l. intros l. revert kb.
  induction l as [|i l IH]; intros kb; simpl.
  - split; [destruct kb; reflexivity | auto].
  - match goal with |- context [fold_left ?f l ?k] =>
      destruct (IH k) as (H1 & H2 & H3) end.
    split; [|split].
    + rewrite H1 at 1. simpl. destruct kb; reflexivity.
    + rewrite H2. simpl. apply queue_store_length.
    + intros Hall. apply H3. simpl. apply queue_store_Some. exact Hall.
Qed.

Lemma usbqueue_step_ok (messages : list byte) (count : Z) (s : machine W) :
  queue_ok E (dev s) -> 0 <= count -> count + QUEUE_LEN E <= INT_MAX ->
  queue_ok E (dev (final (usbqueue E messages count s)))
  /\ same_but_queue (dev s) (dev (final (usbqueue E messages count s)))
  /\ queuecount (dev s) <= queuecount (dev (final (usbqueue E messages count s)))
  /\ features_mask (final (usbqueue E messages count s)) = features_mask s
  /\ world (final (usbqueue E messages count s)) = world s.
Proof.
  intros (Hq & Hlen & Hall) Hc Hmax.
  assert (Hsame : queue_ok E (dev s) /\ same_but_queue (dev s) (dev s)
            /\ queuecount (dev s) <= queuecount (dev s)
            /\ features_mask s = features_mask s /\ world s = world s).
  { split; [repeat split; auto; lia|]. split; [apply same_but_queue_refl|].
    split; [lia | auto]. }
  destruct (Z.eq_dec (handle (dev s)) 0) as [Hh | Hh].
  { rewrite usbqueue_guard by auto. exact Hsame. }
  destruct (HAS_FEATURES (dev s) (FEAT_RGB E)) eqn:Hf.
  2:{ rewrite usbqueue_guard by auto. exact Hsame. }
  assert (Hwrap : wrap_int (queuecount (dev s) + count) = queuecount (dev s) + count).
  { apply wrap_int_small. unfold int_range, INT_MIN, INT_MAX in *. lia. }
  destruct (Z_gt_le_dec (wrap_int (queuecount (dev s) + count)) (QUEUE_LEN E)).
  { rewrite usbqueue_full by auto. exact Hsame. }
  rewrite usbqueue_accept by auto. unfold final. cbn [fst snd dev features_mask world].
  destruct (copied_frame messages (Z.to_nat count) (dev s)) as (Hfr & Hl & Hs).
  rewrite copied_queuecount, Hwrap in *.
  split; [|split; [|split; [|split]]]; try reflexivity.
  - unfold queue_ok. simpl. split; [lia|]. split; [congruence | auto].
  - unfold same_but_queue. simpl. rewrite Hfr at 1. destruct (dev s); reflexivity.
  - simpl. lia.
Qed.

Lemma copied_lookup (messages : list byte) (kb : usbdevice) (n : nat) (j : nat) :
  0 <= queuecount kb ->
  queuecount kb + Z.of_nat n <= Z.of_nat (length (queue kb)) ->
  queuecount kb + Z.of_nat n <= INT_MAX ->
  Forall is_Some (queue kb) ->
  0 <= MSG_SIZE E -> MSG_SIZE E * Z.of_nat n <= INT_MAX ->
  queue (copied E messages n kb) !! j =
    if decide (Z.to_nat (queuecount kb) <= j < Z.to_nat (queuecount kb) + n)%nat
    then Some (Some (take (Z.to_nat (MSG_SIZE E))
                 (drop (Z.to_nat (MSG_SIZE E) * (j - Z.to_nat (queuecount kb))) messages)))
    else queue kb !! j.
Proof.
  intros H0 Hlen Hmax Hall Hm Hmm.
  destruct (copied_spec E messages kb n H0 Hlen Hmax Hall Hm Hmm)
    as (_ & _ & _ & Hin & Hout).
  destruct (decide _) as [Hj | Hj].
  - replace j with (Z.to_nat (queuecount kb) + (j - Z.to_nat (queuecount kb)))%nat
      at 1 by lia.
    apply Hin. lia.
  - apply Hout. lia.
Qed.

End Queue.

(** Whatever it is given, [usbqueue] changes nothing of the record but
    [queue] and [queuecount]. *)
Lemma usbqueue_same_but_queue {W : Type} (E : Env W) (messages : list byte)
    (count : Z) (s : machine W) :
  same_but_queue (dev s) (dev (final (usbqueue E messages count s))).
Proof.
  destruct (Z.eq_dec (handle (dev s)) 0) as [Hh | Hh].
  { rewrite usbqueue_guard by auto. apply same_but_queue_refl. }
  destruct (HAS_FEATURES (dev s) (FEAT_RGB E)) eqn:Hf.
  2:{ rewrite usbqueue_guard by auto. apply same_but_queue_refl. }
  destruct (Z_gt_le_dec (wrap_int (queuecount (dev s) + count)) (QUEUE_LEN E))
    as [Hc | Hc].
  { rewrite usbqueue_full by auto. apply same_but_queue_refl. }
  rewrite usbqueue_accept by auto. unfold final. cbn [fst snd dev].
  destruct (copied_frame E messages (Z.to_nat count) (dev s)) as (Hfr & _).
  set (c := copied E messages (Z.to_nat count) (dev s)) in *. clearbody c.
  clear Hh Hf Hc. unfold same_but_queue. rewrite Hfr.
  destruct (dev s). reflexivity.
Qed.

(** X1. Enqueueing keeps the command queue well formed.  From a queue of
    [QUEUE_LEN] buffers with [queuecount] in 0..[QUEUE_LEN], any sequence
    of [usbqueue] calls with counts that are not negative, whether each is
    accepted or refused, ends in such a queue again; [queuecount] never
    goes down, and nothing but [queue] and [queuecount] changes in the
    record, the feature mask or the world. *)
Theorem enqueue_keeps_queue_ok {W : Type} (E : Env W)
    (l : list (list byte * Z)) (s : machine W) :
  queue_ok E (dev s) -> Forall (enqueue_ok E) l ->
  queue_ok E (dev (enqueue_all E l s))
  /\ same_but_queue (dev s) (dev (enqueue_all E l s))
  /\ queuecount (dev s) <= queuecount (dev (enqueue_all E l s))
  /\ features_mask (enqueue_all E l s) = features_mask s
  /\ world (enqueue_all E l s) = world s.
Proof.
  revert s. induction l as [|[messages count] l IH]; intros s Hok Hl; simpl.
  - split; [exact Hok|]. split; [apply same_but_queue_refl|].
    split; [lia | auto].
  - inversion Hl as [|? ? [Hc Hmax] Hl']; subst. simpl in Hc, Hmax.
    destruct (usbqueue_step_ok E messages count s Hok Hc Hmax)
      as (Hok1 & Hsame1 & Hle1 & Hmask1 & Hworld1).
    destruct (IH _ Hok1 Hl') as (Hok2 & Hsame2 & Hle2 & Hmask2 & Hworld2).
    split; [exact Hok2|].
    split; [eapply same_but_queue_trans; eassumption|].
    split; [lia|]. split; congruence.
Qed.

Lemma enqueue_keeps_queue_ok_witness :
  queue_ok Sim.env
    (dev (enqueue_all Sim.env
            [(one_message, 1); (one_message ++ one_message, 2)] live_rgb))
  /\ queuecount (dev live_rgb)
     <= queuecount (dev (enqueue_all Sim.env
            [(one_message, 1); (one_message ++ one_message, 2)] live_rgb)).
Proof.
  destruct (enqueue_keeps_queue_ok Sim.env
              [(one_message, 1); (one_message ++ one_message, 2)] live_rgb)
    as (H1 & _ & H2 & _).
  - split; [vm_compute; split; discriminate|].
    split; [reflexivity|].
    vm_compute. repeat (constructor; [eexists; reflexivity|]). constructor.
  - repeat constructor; vm_compute; discriminate.
  - split; assumption.
Defined.

(** X2. [usbqueue] does not check the sign of [count].  On an open RGB
    device whose queue is not over-full, a call with [count <= 0] passes
    the room test of line 20, copies nothing, returns 0 and adds [count]
    to [queuecount]: a negative count lowers it, a zero count changes
    nothing at all.  No collaborator is called. *)
Theorem usbqueue_count_not_validated {W : Type} (E : Env W)
    (messages : list byte) (count : Z) (s : machine W) :
  handle (dev s) <> 0 ->
  HAS_FEATURES (dev s) (FEAT_RGB E) = true ->
  count <= 0 ->
  queuecount (dev s) <= QUEUE_LEN E ->
  int_range (queuecount (dev s) + count) ->
  usbqueue E messages count s =
    (0,
     Machine (set_queuecount (queuecount (dev s) + count) (dev s))
       (features_mask s) (world s),
     [])
  /\ (count = 0 -> usbqueue E messages count s = (0, s, [])).
Proof.
  intros Hh Hf Hc Hq Hr.
  assert (Hrun : usbqueue E messages count s =
    (0,
     Machine (set_queuecount (queuecount (dev s) + count) (dev s))
       (features_mask s) (world s),
     [])).
  { rewrite usbqueue_accept; auto.
    - replace (Z.to_nat count) with 0%nat by lia.
      unfold copied. simpl. rewrite wrap_int_small by exact Hr. reflexivity.
    - rewrite wrap_int_small by exact Hr. lia. }
  split; [exact Hrun|].
  intros ->. rewrite Hrun, Z.add_0_r. destruct s as [[] ? ?]. reflexivity.
Qed.

Lemma usbqueue_count_not_validated_witness :
  usbqueue Sim.env [] (-5) queued_rgb =
    (0,
     Machine (set_queuecount (-2) (dev queued_rgb))
       (features_mask queued_rgb) (world queued_rgb),
     [])
  /\ usbqueue Sim.env [] 0 queued_rgb = (0, queued_rgb, []).
Proof.
  split.
  - destruct (usbqueue_count_not_validated Sim.env [] (-5) queued_rgb) as [H _].
    1-5: vm_compute; try split; congruence.
    exact H.
  - destruct (usbqueue_count_not_validated Sim.env [] 0 queued_rgb) as [_ H].
    1-5: vm_compute; try split; congruence.
    apply H. reflexivity.
Defined.

(** X3. Two accepted enqueues are one.  Where [a + b] messages fit the
    queue, enqueueing [a] messages and then [b] more leaves the same
    record, result and calls as enqueueing the concatenated buffer with
    count [a + b]. *)
Theorem usbqueue_compose {W : Type} (E : Env W) (m1 m2 : list byte)
    (a b : Z) (s : machine W) :
  handle (dev s) <> 0 ->
  HAS_FEATURES (dev s) (FEAT_RGB E) = true ->
  queue_ok E (dev s) ->
  0 <= a -> 0 <= b ->
  queuecount (dev s) + a + b <= QUEUE_LEN E ->
  QUEUE_LEN E <= INT_MAX ->
  0 <= MSG_SIZE E -> MSG_SIZE E * (a + b) <= INT_MAX ->
  Z.of_nat (length m1) = MSG_SIZE E * a ->
  usbqueue E m2 b (final (usbqueue E m1 a s)) = usbqueue E (m1 ++ m2) (a + b) s.
Proof.
  intros Hh Hf (Hq & Hlen & Hall) Ha Hb Hfit Hcap Hm Hmm Hm1.
  assert (Hw : forall z, 0 <= z <= QUEUE_LEN E -> wrap_int z = z).
  { intros z Hz. apply wrap_int_small. unfold int_range, INT_MIN, INT_MAX in *. lia. }
  rewrite (usbqueue_accept E m1 a s) by (auto; rewrite Hw; lia).
  rewrite (usbqueue_accept E (m1 ++ m2) (a + b) s)
    by (auto; rewrite Z.add_assoc, Hw; lia).
  unfold final. cbn [fst snd].
  destruct (copied_frame E m1 (Z.to_nat a) (dev s)) as (Hfr1 & Hl1 & Hs1).
  set (K1 := copied E m1 (Z.to_nat a) (dev s)) in *.
  assert (Hqc1 : queuecount K1 = queuecount (dev s)) by apply copied_queuecount.
  rewrite Hqc1, (Hw (queuecount (dev s) + a)) by lia.
  set (kb1 := set_queuecount (queuecount (dev s) + a) K1).
  assert (Hh1 : handle kb1 = handle (dev s)).
  { unfold kb1. rewrite Hfr1. reflexivity. }
  assert (Hf1 : features kb1 = features (dev s)).
  { unfold kb1. rewrite Hfr1. reflexivity. }
  rewrite usbqueue_accept; cbn [dev features_mask world].
  2:{ rewrite Hh1. exact Hh. }
  2:{ unfold HAS_FEATURES in *. rewrite Hf1. exact Hf. }
  2:{ unfold kb1. simpl. rewrite Hw; lia. }
  destruct (copied_frame E m2 (Z.to_nat b) kb1) as (Hfr2 & Hl2 & Hs2).
  set (K2 := copied E m2 (Z.to_nat b) kb1) in *.
  destruct (copied_frame E (m1 ++ m2) (Z.to_nat (a + b)) (dev s)) as (Hfr3 & Hl3 & Hs3).
  set (K3 := copied E (m1 ++ m2) (Z.to_nat (a + b)) (dev s)) in *.
  assert (Hqc2 : queuecount K2 = queuecount (dev s) + a).
  { unfold K2. rewrite copied_queuecount. reflexivity. }
  assert (Hqc3 : queuecount K3 = queuecount (dev s)) by apply copied_queuecount.
  rewrite Hqc2, Hqc3, Z.add_assoc.
  assert (Hqueue : queue K2 = queue K3).
  { apply list_eq. intros j.
    assert (L1 := copied_lookup E m1 (dev s) (Z.to_nat a) j).
    assert (L2 := copied_lookup E m2 kb1 (Z.to_nat b) j).
    assert (L3 := copied_lookup E (m1 ++ m2) (dev s) (Z.to_nat (a + b)) j).
    fold K1 in L1. fold K2 in L2. fold K3 in L3.
    assert (Hq1 : queuecount kb1 = queuecount (dev s) + a) by reflexivity.
    assert (Hqq1 : queue kb1 = queue K1) by reflexivity.
    rewrite Hq1, Hqq1 in L2.
    rewrite L1 in L2 by (auto; lia).
    rewrite L2, L3 by (auto; try lia; rewrite Hl1; lia).
    clear L1 L2 L3.
    assert (HlenN : length m1 = (Z.to_nat (MSG_SIZE E) * Z.to_nat a)%nat).
    { rewrite <- Z2Nat.inj_mul by lia. lia. }
    rewrite (Z2Nat.inj_add (queuecount (dev s)) a) by lia.
    rewrite (Z2Nat.inj_add a b) by lia.
    set (M := Z.to_nat (MSG_SIZE E)) in *.
    set (Q := Z.to_nat (queuecount (dev s))) in *.
    set (A := Z.to_nat a) in *. set (B := Z.to_nat b) in *.
    clearbody M Q A B.
    repeat destruct (decide _); try lia; try reflexivity.
    - do 2 f_equal.
      replace (j - Q)%nat with (A + (j - (Q + A)))%nat by lia.
      rewrite Nat.mul_add_distr_l.
      rewrite drop_app_ge by lia. rewrite HlenN.
      rewrite (Nat.add_comm (M * A)), Nat.add_sub. reflexivity.
    - do 2 f_equal.
      assert (Hk : (M * (j - Q) + M <= M * A)%nat) by nia.
      rewrite drop_app_le by lia.
      rewrite take_app_le; [reflexivity|].
      rewrite length_drop. lia. }
  f_equal. f_equal. rewrite Hfr2, Hfr3, Hqueue. unfold kb1. rewrite Hfr1.
  destruct (dev s); reflexivity.
Qed.


Lemma usbqueue_compose_witness :
  usbqueue Sim.env (one_message ++ one_message) 2
    (final (usbqueue Sim.env one_message 1 live_rgb))
  = usbqueue Sim.env (one_message ++ one_message ++ one_message) (1 + 2)
      live_rgb.
Proof.
  apply (usbqueue_compose Sim.env one_message (one_message ++ one_message)
           1 2 live_rgb).
  1-2, 4-10: vm_compute; congruence.
  split; [vm_compute; split; discriminate|].
  split; [reflexivity|].
  vm_compute. repeat (constructor; [eexists; reflexivity|]). constructor.
Defined.

(** ** The outcomes of setup *)

(** X4. [setupusb] returns -1 exactly when it has taken back everything
    it did: either [makedevpath] failed and the calls are the two mutex
    initialisations, the lock, the failed [makedevpath], the unlock and the
    two destroys, or [inputopen] returned 0 and the control path is removed
    before the same unlock and destroys.  No other call is made on this
    path. *)
Theorem setupusb_failure_unwinds {W : Type} (E : Env W) (vendor product : Z)
    (s : machine W) :
  result (setupusb E vendor product s) = -1 <->
    (exists r, r <> 0
       /\ calls (setupusb E vendor product s) =
            [Ev_mutex_init Mutex; Ev_mutex_init Keymutex; Ev_mutex_lock Mutex;
             Ev_makedevpath r; Ev_mutex_unlock Mutex; Ev_mutex_destroy Mutex;
             Ev_mutex_destroy Keymutex])
    \/ calls (setupusb E vendor product s) =
         [Ev_mutex_init Mutex; Ev_mutex_init Keymutex; Ev_mutex_lock Mutex;
          Ev_makedevpath 0; Ev_inputopen 0; Ev_rmdevpath;
          Ev_mutex_unlock Mutex; Ev_mutex_destroy Mutex;
          Ev_mutex_destroy Keymutex].
Proof.
  destruct (setupusb_path E vendor product s) as (p & Hok & -> & ->).
  destruct p as [r | | r0 k95 | r0 | r0 res ser found k95 x]; simpl in *.
  - split; [intros _; left; exists r; auto | reflexivity].
  - split; [intros _; right; reflexivity | reflexivity].
  - split; [discriminate|].
    intros [(r & Hr & H) | H]; injection H; intros; congruence.
  - split; [discriminate|].
    intros [(r & Hr & H) | H]; injection H; intros; congruence.
  - split; [destruct ((res =? 0) && (x =? 0)); discriminate|].
    intros [(r & Hr & H) | H]; injection H; intros; congruence.
Qed.

(** X5. [setupusb] returns 0, -1 or -2 and nothing else; it returns -2
    exactly when the firmware query or the hardware profile load reported
    a failure; and in one run it queries the firmware at most once and
    loads the hardware profile at most once. *)
Theorem setupusb_return_codes {W : Type} (E : Env W) (vendor product : Z)
    (s : machine W) :
  (result (setupusb E vendor product s) = 0
   \/ result (setupusb E vendor product s) = -1
   \/ result (setupusb E vendor product s) = -2)
  /\ (result (setupusb E vendor product s) = -2 <->
      exists e, In e (calls (setupusb E vendor product s))
                /\ is_reinit_failure e = true)
  /\ (count_calls is_getfwversion (calls (setupusb E vendor product s)) <= 1)%nat
  /\ (count_calls is_hwloadprofile (calls (setupusb E vendor product s)) <= 1)%nat.
Proof.
  destruct (setupusb_path E vendor product s) as (p & Hok & -> & ->).
  rewrite <- count_calls_pos.
  destruct p as [r | | r0 k95 | r0 | r0 res ser found k95 x]; simpl setup_result.
  1-4: split; [auto|]; split; [|split]; path_calls;
       try destruct k95; simpl; try lia; split; (lia || discriminate).
  split; [destruct ((res =? 0) && (x =? 0)); auto|].
  split; [|split]; path_calls.
  - destruct found, k95, (res =? 0) eqn:Hres, (x =? 0) eqn:Hx; simpl;
      rewrite ?Hres, ?Hx; simpl; split; (lia || discriminate).
  - destruct found, k95, (res =? 0), (x =? 0); simpl; lia.
  - destruct found, k95, (res =? 0), (x =? 0); simpl; lia.
Qed.

(** X6. A [setupusb] that returns 0 has created the control path and
    opened the input device, has taken back nothing (no unlock, destroy,
    free, close or removal), returns with [mutex] locked once and both
    mutexes initialised, and either never queried the firmware and
    allocated no buffer, or queried it with result 0 after allocating
    [QUEUE_LEN] buffers. *)
Theorem setupusb_success_attached {W : Type} (E : Env W) (vendor product : Z)
    (s : machine W) :
  result (setupusb E vendor product s) = 0 ->
  In (Ev_makedevpath 0) (calls (setupusb E vendor product s))
  /\ (exists r0, r0 <> 0
        /\ In (Ev_inputopen r0) (calls (setupusb E vendor product s)))
  /\ no_calls is_unwind (calls (setupusb E vendor product s))
  /\ List.filter is_lock (calls (setupusb E vendor product s))
     = [Ev_mutex_lock Mutex]
  /\ List.filter is_mutex_init (calls (setupusb E vendor product s))
     = [Ev_mutex_init Mutex; Ev_mutex_init Keymutex]
  /\ ((count_calls is_getfwversion (calls (setupusb E vendor product s)) = 0%nat
       /\ count_calls is_malloc (calls (setupusb E vendor product s)) = 0%nat)
      \/ (In (Ev_getfwversion 0) (calls (setupusb E vendor product s))
          /\ count_calls is_malloc (calls (setupusb E vendor product s))
             = Z.to_nat (QUEUE_LEN E))).
Proof.
  destruct (setupusb_path E vendor product s) as (p & Hok & -> & ->).
  rewrite count_calls_none.
  destruct p as [r | | r0 k95 | r0 | r0 res ser found k95 x];
    simpl setup_result; try discriminate; intros Hres.
  - split; [do 3 right; left; reflexivity|].
    split; [exists r0; split; [exact Hok | do 4 right; left; reflexivity]|].
    split; [path_calls; destruct k95; reflexivity|].
    split; [path_calls; destruct k95; reflexivity|].
    split; [path_calls; destruct k95; reflexivity|].
    left. split; path_calls; destruct k95; reflexivity.
  - split; [do 3 right; left; reflexivity|].
    split; [exists r0; split; [exact Hok | do 4 right; left; reflexivity]|].
    split; [path_calls; reflexivity|].
    split; [path_calls; reflexivity|].
    split; [path_calls; reflexivity|].
    right. split; [|path_calls; simpl; lia].
    simpl. do 6 right. apply in_or_app. right. left. reflexivity.
  - destruct (Z.eqb_spec res 0) as [-> | Hne]; [|discriminate].
    destruct (Z.eqb_spec x 0) as [-> | Hx]; [|discriminate].
    split; [do 3 right; left; reflexivity|].
    split; [exists r0; split; [exact Hok | do 4 right; left; reflexivity]|].
    split; [path_calls; destruct found, k95; reflexivity|].
    split; [path_calls; destruct found, k95; reflexivity|].
    split; [path_calls; destruct found, k95; reflexivity|].
    right. split; [|path_calls; destruct found, k95; simpl; lia].
    simpl. do 6 right. apply in_or_app. right. left. reflexivity.
Qed.

Lemma setupusb_success_attached_witness :
  no_calls is_unwind
    (calls (setupusb Sim.env Sim.v_corsair Sim.p_k70 (Sim.boot Sim.opened Sim.calm)))
  /\ List.filter is_lock
       (calls (setupusb Sim.env Sim.v_corsair Sim.p_k70
                 (Sim.boot Sim.opened Sim.calm)))
     = [Ev_mutex_lock Mutex].
Proof.
  destruct (setupusb_success_attached Sim.env Sim.v_corsair Sim.p_k70
              (Sim.boot Sim.opened Sim.calm)) as (_ & _ & H1 & H2 & _).
  - vm_compute. reflexivity.
  - split; [exact H1 | exact H2].
Defined.

(** ** From setup to teardown *)

Section Balance.

Context {W : Type} (E : Env W).

(** What a [setupusb] that does not return -1 leaves to be undone. *)
Lemma setupusb_open_ends (vendor product : Z) (s : machine W) :
  result (setupusb E vendor product s) <> -1 ->
  List.filter is_mutex_init (calls (setupusb E vendor product s))
    = [Ev_mutex_init Mutex; Ev_mutex_init Keymutex]
  /\ List.filter is_mutex_destroy (calls (setupusb E vendor product s)) = []
  /\ List.filter is_lock (calls (setupusb E vendor product s))
     = [Ev_mutex_lock Mutex]
  /\ List.filter is_unlock (calls (setupusb E vendor product s)) = []
  /\ List.filter is_free (calls (setupusb E vendor product s)) = []
  /\ (count_calls is_malloc (calls (setupusb E vendor product s)) = 0%nat
      \/ count_calls is_malloc (calls (setupusb E vendor product s))
         = Z.to_nat (QUEUE_LEN E)).
Proof.
  destruct (setupusb_path E vendor product s) as (p & Hok & -> & ->).
  destruct p as [r | | r0 k95 | r0 | r0 res ser found k95 x];
    simpl setup_result; intros Hres; try contradiction.
  - repeat split; try (path_calls; destruct k95; reflexivity).
    left. path_calls. destruct k95; reflexivity.
  - repeat split; try (path_calls; reflexivity).
    right. path_calls. simpl. lia.
  - repeat split;
      try (path_calls; destruct found, k95, (res =? 0), (x =? 0); reflexivity).
    right. path_calls. destruct found, k95, (res =? 0), (x =? 0); simpl; lia.
Qed.

(** What a [closeusb] of a session with a control path and a handle
    undoes. *)
Lemma closeusb_undoes (s : machine W) :
  infifo (dev s) <> 0 -> handle (dev s) <> 0 ->
  List.filter is_mutex_init (calls (closeusb E s)) = []
  /\ List.filter is_mutex_destroy (calls (closeusb E s))
     = [Ev_mutex_destroy Keymutex; Ev_mutex_destroy Mutex]
  /\ List.filter is_lock (calls (closeusb E s)) = [Ev_mutex_lock Keymutex]
  /\ List.filter is_unlock (calls (closeusb E s))
     = [Ev_mutex_unlock Keymutex; Ev_mutex_unlock Mutex]
  /\ List.filter is_free (calls (closeusb E s))
     = map Ev_free (seq 0 (Z.to_nat (QUEUE_LEN E)))
  /\ count_calls is_malloc (calls (closeusb E s)) = 0%nat.
Proof.
  intros Hi Hh.
  destruct (closeusb_handle E s Hi Hh) as (entry & w' & ->).
  unfold calls. cbn [snd]. unfold count_calls.
  rewrite !List.filter_app, filter_map_free_self.
  rewrite !(filter_map_free_other) by reflexivity.
  unfold persist_calls.
  destruct (fwversion _ =? 0); simpl; repeat split; rewrite ?app_nil_r;
    reflexivity.
Qed.

(** A mask that lacks a bit takes it out of any feature set. *)
Lemma land_masked_lacks (n m r : Z) :
  Z.land m r <> r -> Z.land (Z.land n m) r <> r.
Proof.
  intros Hm. rewrite (Z.land_comm n m). apply land_mask_lacks. exact Hm.
Qed.

End Balance.

(** X7. Setup and teardown pair up.  After a [setupusb] that did not
    return -1, a [closeusb] of the session it left (control path and handle
    present) makes the whole sequence balanced: each mutex is initialised
    once and destroyed once, [mutex] is locked by [setupusb] and unlocked
    by [closeusb], [keymutex] is locked and unlocked by [closeusb], the
    [QUEUE_LEN] slots are freed once each in order, and the number of
    allocations is either zero (a device set up without a queue) or equal
    to the number of frees. *)
Theorem setup_then_close_balanced {W : Type} (E : Env W) (vendor product : Z)
    (s : machine W) :
  result (setupusb E vendor product s) <> -1 ->
  infifo (dev (final (setupusb E vendor product s))) <> 0 ->
  handle (dev (final (setupusb E vendor product s))) <> 0 ->
  List.filter is_mutex_init (setup_then_close E vendor product s)
    = [Ev_mutex_init Mutex; Ev_mutex_init Keymutex]
  /\ List.filter is_mutex_destroy (setup_then_close E vendor product s)
     = [Ev_mutex_destroy Keymutex; Ev_mutex_destroy Mutex]
  /\ List.filter is_lock (setup_then_close E vendor product s)
     = [Ev_mutex_lock Mutex; Ev_mutex_lock Keymutex]
  /\ List.filter is_unlock (setup_then_close E vendor product s)
     = [Ev_mutex_unlock Keymutex; Ev_mutex_unlock Mutex]
  /\ List.filter is_free (setup_then_close E vendor product s)
     = map Ev_free (seq 0 (Z.to_nat (QUEUE_LEN E)))
  /\ (count_calls is_malloc (setup_then_close E vendor product s) = 0%nat
      \/ count_calls is_malloc (setup_then_close E vendor product s)
         = count_calls is_free (setup_then_close E vendor product s)).
Proof.
  intros Hres Hi Hh. unfold setup_then_close.
  destruct (setupusb_open_ends E vendor product s Hres)
    as (S1 & S2 & S3 & S4 & S5 & S6).
  destruct (closeusb_undoes E _ Hi Hh) as (C1 & C2 & C3 & C4 & C5 & C6).
  rewrite !count_calls_app, !List.filter_app.
  rewrite S1, S2, S3, S4, S5, C1, C2, C3, C4, C5, C6.
  repeat split.
  change (count_calls is_free (calls (setupusb E vendor product s)))
    with (length (List.filter is_free (calls (setupusb E vendor product s)))).
  change (count_calls is_free
            (calls (closeusb E (final (setupusb E vendor product s)))))
    with (length (List.filter is_free
            (calls (closeusb E (final (setupusb E vendor product s)))))).
  rewrite S5, C5. simpl.
  rewrite length_map, length_seq. destruct S6 as [-> | ->]; [left | right]; lia.
Qed.

Lemma setup_then_close_balanced_witness :
  List.filter is_lock
    (setup_then_close Sim.env Sim.v_corsair Sim.p_k70
       (Sim.boot Sim.opened Sim.calm))
    = [Ev_mutex_lock Mutex; Ev_mutex_lock Keymutex]
  /\ List.filter is_unlock
       (setup_then_close Sim.env Sim.v_corsair Sim.p_k70
          (Sim.boot Sim.opened Sim.calm))
     = [Ev_mutex_unlock Keymutex; Ev_mutex_unlock Mutex].
Proof.
  destruct (setup_then_close_balanced Sim.env Sim.v_corsair Sim.p_k70
              (Sim.boot Sim.opened Sim.calm)) as (_ & _ & H1 & H2 & _).
  1-3: vm_compute; discriminate.
  split; [exact H1 | exact H2].
Defined.

(** X8. With RGB masked out by [features_mask], [setupusb] treats every
    device as a non-RGB one: provided the calls that attach the device
    leave [features] alone, it allocates no queue, never queries the
    firmware, returns 0 or -1, and on 0 leaves a device without the RGB
    feature, with poll rate -1, after sending the hardware-off command. *)
Theorem setupusb_masked_rgb {W : Type} (E : Env W) (vendor product : Z)
    (s : machine W) :
  attach_keeps E ->
  Z.land (features_mask s) (FEAT_RGB E) <> FEAT_RGB E ->
  no_calls is_malloc (calls (setupusb E vendor product s))
  /\ no_calls is_getfwversion (calls (setupusb E vendor product s))
  /\ (result (setupusb E vendor product s) = 0
      \/ result (setupusb E vendor product s) = -1)
  /\ (result (setupusb E vendor product s) = 0 ->
      HAS_FEATURES (dev (final (setupusb E vendor product s))) (FEAT_RGB E)
        = false
      /\ pollrate (dev (final (setupusb E vendor product s))) = -1
      /\ In (Ev_nk95cmd (NK95_HWOFF E)) (calls (setupusb E vendor product s))).
Proof.
  intros Hkeeps Hmask.
  destruct (setupusb E vendor product s) as [[r sf] l] eqn:Hrun.
  unfold result, final, calls. cbn [fst snd].
  rewrite setupusb_eq in Hrun.
  destruct (setupusb_attach E vendor product s) as [[o s1] l1] eqn:Hatt.
  pose proof (setupusb_attach_run E _ _ _ _ _ _ Hatt) as Hshape.
  destruct o as [x|].
  { inversion Hrun; subst. rewrite app_nil_r.
    destruct Hshape as [-> [(r0 & Hr0 & ->) | ->]];
      (split; [repeat constructor|]); (split; [repeat constructor|]);
      (split; [auto|]); discriminate. }
  destruct (setupusb_attach_keeps E _ _ _ _ _ Hkeeps Hatt)
    as (_ & Hfeat & _ & _).
  assert (Hnon : HAS_FEATURES (dev s1) (FEAT_RGB E) = false).
  { unfold HAS_FEATURES. rewrite Hfeat. apply Z.eqb_neq.
    apply land_masked_lacks. exact Hmask. }
  rewrite Hnon in Hrun. cbn [negb] in Hrun.
  destruct (setupusb_nonrgb E s1) as [[r2 s2] l2] eqn:Hn.
  destruct (setupusb_nonrgb_run E _ _ _ _ Hn)
    as (-> & Hpoll & Hmal & _ & _ & Hget).
  destruct (setupusb_nonrgb_keeps E _ _ _ _ Hkeeps Hn) as (_ & Hf2 & _ & _).
  destruct (setupusb_nonrgb_calls E _ _ _ _ Hn) as (k95 & _ & Hl2).
  destruct Hshape as (r1 & Hr1 & ->).
  injection Hrun as <- <- <-.
  split; [repeat (constructor; [reflexivity|]); exact Hmal|].
  split; [repeat (constructor; [reflexivity|]); exact Hget|].
  split; [auto|]. intros _.
  split; [unfold HAS_FEATURES in *; rewrite Hf2; exact Hnon|].
  split; [exact Hpoll|].
  rewrite Hl2. simpl. auto 10.
Qed.

Lemma setupusb_masked_rgb_witness :
  no_calls is_malloc (calls (setupusb Sim.env Sim.v_corsair Sim.p_k70 rgb_masked))
  /\ HAS_FEATURES
       (dev (final (setupusb Sim.env Sim.v_corsair Sim.p_k70 rgb_masked)))
       (FEAT_RGB Sim.env) = false.
Proof.
  destruct (setupusb_masked_rgb Sim.env Sim.v_corsair Sim.p_k70 rgb_masked)
    as (H1 & _ & _ & H2).
  - exact sim_attach_keeps.
  - vm_compute. discriminate.
  - destruct H2 as (H2 & _); [vm_compute; reflexivity|].
    split; [exact H1 | exact H2].
Defined.

(** ** The outcomes of a reset *)

(** X9. The result of [_resetusb] read from its calls: it returns 0
    exactly when the OS reset returned 0 and neither the firmware query nor
    the profile load failed; it returns -1 exactly when the OS reset
    returned -1 or one of those two failed; and one call makes exactly one
    OS reset. *)
Theorem resetusb_return_codes {W : Type} (E : Env W) (file : string)
    (line : Z) (s : machine W) :
  (result (_resetusb E file line s) = 0 <->
     In (Ev_os_resetusb 0) (calls (_resetusb E file line s))
     /\ no_calls is_reinit_failure (calls (_resetusb E file line s)))
  /\ (result (_resetusb E file line s) = -1 <->
        In (Ev_os_resetusb (-1)) (calls (_resetusb E file line s))
        \/ exists e, In e (calls (_resetusb E file line s))
                     /\ is_reinit_failure e = true)
  /\ (count_calls is_os_resetusb (calls (_resetusb E file line s)) = 1%nat).
Proof.
  destruct (resetusb_path E file line s) as (p & Hok & -> & -> & _).
  rewrite count_calls_none, <- count_calls_pos.
  destruct p as [r | | r1 | | a | a ser found x]; simpl in *;
    unfold count_calls; simpl.
  3: apply Z.eqb_neq in Hok; rewrite Hok; simpl.
  6: destruct (x =? 0); simpl.
  all: intuition (try discriminate; try congruence; try lia).
Qed.

(** X10. The hardware profile is loaded only after a firmware query that
    succeeded and one look into the profile store, and the second argument
    of [hwloadprofile] is decided by that look: 0 when a stored profile was
    found, 1 when none was.  This holds in [setupusb] and in
    [_resetusb]. *)
Theorem hwloadprofile_apply_flag {W : Type} (E : Env W) :
  (forall (vendor product : Z) (s : machine W) (a x : Z),
     In (Ev_hwloadprofile a x) (calls (setupusb E vendor product s)) ->
     In (Ev_getfwversion 0) (calls (setupusb E vendor product s))
     /\ exists ser found,
          List.filter is_findstore (calls (setupusb E vendor product s))
            = [Ev_findstore ser found]
          /\ a = match found with Some _ => 0 | None => 1 end)
  /\ (forall (file : string) (line : Z) (s : machine W) (a x : Z),
        In (Ev_hwloadprofile a x) (calls (_resetusb E file line s)) ->
        In (Ev_getfwversion 0) (calls (_resetusb E file line s))
        /\ exists ser found,
             List.filter is_findstore (calls (_resetusb E file line s))
               = [Ev_findstore ser found]
             /\ a = match found with Some _ => 0 | None => 1 end).
Proof.
  split.
  - intros vendor product s a x.
    destruct (setupusb_path E vendor product s) as (p & Hok & -> & _).
    intros Hin.
    assert (Hcount : (0 < count_calls is_hwloadprofile (setup_calls E p))%nat).
    { apply count_calls_pos. exists (Ev_hwloadprofile a x). auto. }
    destruct p as [r | | r0 k95 | r0 | r0 res ser found k95 x'].
    1-4: exfalso; revert Hcount; path_calls; try destruct k95; simpl; lia.
    clear Hcount. simpl in Hin.
    repeat (destruct Hin as [Hin | Hin]; [discriminate|]).
    apply in_app_or in Hin. destruct Hin as [Hin | Hin];
      [apply in_malloc_calls in Hin; discriminate|].
    destruct (Z.eqb_spec res 0) as [-> | Hres].
    2:{ exfalso. simpl in Hin.
        repeat (destruct Hin as [Hin | Hin]; [discriminate|]).
        destruct found, k95; simpl in Hin;
          repeat (destruct Hin as [Hin | Hin]; [discriminate|]); exact Hin. }
    split.
    { simpl. do 6 right. apply in_or_app. right. left. reflexivity. }
    exists ser, found. split.
    { path_calls. destruct found, k95, (x' =? 0); reflexivity. }
    simpl in Hin.
    repeat (destruct Hin as [Hin | Hin]; [discriminate|]).
    destruct found, k95, (x' =? 0); simpl in Hin;
      repeat (destruct Hin as [Hin | Hin]; [try discriminate; try congruence|]);
      contradiction.
  - intros file line s a x.
    destruct (resetusb_path E file line s) as (p & Hok & -> & _ & _).
    intros Hin.
    destruct p as [r | | r1 | | a' | a' ser found x']; simpl in Hin;
      repeat (destruct Hin as [Hin | Hin]; [try discriminate|]);
      try contradiction.
    split; [simpl; auto 10|].
    exists ser, found. split; [reflexivity | congruence].
Qed.

Lemma hwloadprofile_apply_flag_witness :
  exists ser,
    List.filter is_findstore
      (calls (setupusb Sim.env Sim.v_corsair Sim.p_k70
                (Sim.boot Sim.opened Sim.calm)))
      = [Ev_findstore ser None].
Proof.
  destruct (hwloadprofile_apply_flag Sim.env) as [H _].
  destruct (H Sim.v_corsair Sim.p_k70 (Sim.boot Sim.opened Sim.calm) 1 0)
    as (_ & ser & found & Hf & Ha).
  - vm_compute. do 50 right. left. reflexivity.
  - exists ser. destruct found; [discriminate | exact Hf].
Defined.

Lemma queueing_reset_keeps_session : reset_keeps_session queueing.
Proof.
  split.
  - intros file line kb w. simpl. unfold Sim.sim_os_resetusb.
    destruct (Sim.w_osreset w); reflexivity.
  - intros kb w. simpl. unfold Sim.sim_getfwversion.
    destruct (Sim.w_getfw w) as [|r rest]; [reflexivity|].
    destruct (r =? 0); reflexivity.
  - intros a kb w. unfold queueing, setactive, sim_setactive_queued.
    cbn [fst].
    pose proof (usbqueue_same_but_queue Sim.env activation 2
                  (Machine (set_active a kb) features_mask_init w)) as H.
    unfold same_but_queue in H. rewrite H. destruct kb. reflexivity.
Qed.

(** X11. What [_resetusb] does is decided by the session it is given,
    provided the OS reset, the firmware query and [setactive] leave
    [features], [hw] and [active] alone as far as each is read afterwards:
    a device without RGB gets the OS reset between its delays and nothing
    else; a device with a hardware profile gets no store lookup and no
    profile load; one without, once the colours are re-sent, got exactly
    one profile load; and [setactive] is only ever called with the
    [active] flag the device had before the reset. *)
Theorem resetusb_follows_session {W : Type} (E : Env W) (file : string)
    (line : Z) (s : machine W) :
  reset_keeps_session E ->
  (HAS_FEATURES (dev s) (FEAT_RGB E) = false ->
   exists r,
     calls (_resetusb E file line s) =
       Ev_delay DELAY_LONG :: Ev_os_resetusb r
         :: (if r =? 0 then [Ev_delay DELAY_LONG] else [])
     /\ result (_resetusb E file line s) = r)
  /\ (hw (dev s) <> 0 ->
      no_calls is_findstore (calls (_resetusb E file line s))
      /\ no_calls is_hwloadprofile (calls (_resetusb E file line s)))
  /\ (hw (dev s) = 0 ->
      In (Ev_updatergb 1) (calls (_resetusb E file line s)) ->
      count_calls is_hwloadprofile (calls (_resetusb E file line s)) = 1%nat)
  /\ (forall a, In (Ev_setactive a) (calls (_resetusb E file line s)) ->
        a = active (dev s)).
Proof.
  intros [Kos Kfw Ksa].
  destruct (resetusb_path E file line s) as (p & Hok & -> & -> & Hp).
  cbv zeta in Hp.
  pose proof (Kos file line (dev s) (world s)) as F0. simpl in F0.
  destruct (os_resetusb E (dev s) file line (world s)) as [[r0 kb0] w0].
  simpl in *.
  pose proof (Kfw (set_queuecount 0 kb0) w0) as F1. simpl in F1.
  destruct (getfwversion E (set_queuecount 0 kb0) w0) as [[r1 kb1] w1].
  simpl in *.
  pose proof (Ksa (active kb1) kb1 w1) as F2. simpl in F2.
  destruct (setactive E kb1 (active kb1) w1) as [kb2 w2]. simpl in *.
  inversion F0 as [[Ff0 Fh0 Fa0]]. inversion F1 as [[Fh1 Fa1]].
  assert (Hfeat : HAS_FEATURES kb0 (FEAT_RGB E) = HAS_FEATURES (dev s) (FEAT_RGB E)).
  { unfold HAS_FEATURES. rewrite Ff0. reflexivity. }
  rewrite !count_calls_none.
  destruct p as [r | | r1' | | a | a ser found x]; simpl in *;
    unfold count_calls; simpl.
  - apply Z.eqb_neq in Hok.
    split; [intros _; exists r; rewrite Hok; auto|].
    split; [auto|]. split; [intros _ H; exfalso|intros a H; exfalso];
      repeat (destruct H as [H | H]; [discriminate|]); exact H.
  - split; [intros _; exists 0; auto|].
    split; [auto|]. split; [intros _ H; exfalso|intros a H; exfalso];
      repeat (destruct H as [H | H]; [discriminate|]); exact H.
  - split; [intros H; congruence|].
    split; [auto|]. split; [intros _ H; exfalso|intros a H; exfalso];
      repeat (destruct H as [H | H]; [discriminate|]); exact H.
  - split; [intros H; congruence|].
    split; [auto|]. split; [intros _ H; exfalso|intros a H; exfalso];
      repeat (destruct H as [H | H]; [discriminate|]); exact H.
  - destruct Hp as (Hf & -> & Hhw).
    split; [intros H; congruence|].
    split; [auto|]. split; [intros H; exfalso; congruence|].
    intros a H.
    repeat (destruct H as [H | H]; [try discriminate; try congruence|]).
    contradiction.
  - destruct Hp as (Hf & -> & Hhw).
    split; [intros H; congruence|].
    split; [intros H; exfalso; congruence|]. split; [reflexivity|].
    intros a H.
    repeat (destruct H as [H | H]; [try discriminate; try congruence|]).
    contradiction.
Qed.

Lemma resetusb_follows_session_witness :
  (exists r,
     calls (_resetusb queueing "usb.c" 178 stale_nonrgb) =
       Ev_delay DELAY_LONG :: Ev_os_resetusb r
         :: (if r =? 0 then [Ev_delay DELAY_LONG] else [])
     /\ result (_resetusb queueing "usb.c" 178 stale_nonrgb) = r)
  /\ no_calls is_hwloadprofile (calls (_resetusb queueing "usb.c" 178 queued_rgb))
  /\ (forall a, In (Ev_setactive a)
                  (calls (_resetusb queueing "usb.c" 178 queued_rgb)) ->
        a = active (dev queued_rgb)).
Proof.
  split.
  - destruct (resetusb_follows_session queueing "usb.c" 178 stale_nonrgb
                queueing_reset_keeps_session) as (H & _).
    apply H. reflexivity.
  - destruct (resetusb_follows_session queueing "usb.c" 178 queued_rgb
                queueing_reset_keeps_session) as (_ & H & _ & H').
    split; [|exact H'].
    destruct H as [_ H]; [vm_compute; discriminate | exact H].
Defined.


Section Pacing.

Context {W : Type} (E : Env W).

(** One attempt sleeps once before the OS reset and once more after it if
    it succeeded. *)
Lemma resetusb_paced (s : machine W) :
  count_calls is_long_delay (calls (resetusb E s)) =
    (1 + count_calls is_reset_ok (calls (resetusb E s)))%nat.
Proof.
  unfold resetusb.
  destruct (resetusb_path E "usb.c" 178 s) as (p & Hok & -> & _ & _).
  destruct p as [r | | r1 | | a | a ser found x]; simpl in *;
    unfold count_calls; simpl; try reflexivity.
  apply Z.eqb_neq in Hok. rewrite Hok. reflexivity.
Qed.

Lemma usb_tryreset_loop_paced (fuel : nat) (s : machine W) :
  count_calls is_long_delay (calls (usb_tryreset_loop E fuel s)) =
    (2 * count_calls is_os_resetusb (calls (usb_tryreset_loop E fuel s))
     + count_calls is_reset_ok (calls (usb_tryreset_loop E fuel s)))%nat.
Proof.
  revert s. induction fuel as [|fuel IH]; intros s.
  - reflexivity.
  - rewrite usb_tryreset_loop_S.
    pose proof (resetusb_paced s) as Hp.
    pose proof (resetusb_one_os_reset E s) as Hone.
    unfold calls in *.
    destruct (resetusb E s) as [[res s1] l1]. simpl in *.
    destruct (res =? 0); simpl.
    { rewrite !count_calls_cons, !count_calls_app, Hp, Hone.
      generalize (count_calls is_reset_ok l1). intros c.
      unfold count_calls. simpl. lia. }
    destruct (res =? -2); simpl.
    { rewrite !count_calls_cons, !count_calls_app, Hp, Hone.
      generalize (count_calls is_reset_ok l1). intros c.
      unfold count_calls. simpl. lia. }
    specialize (IH s1).
    destruct (usb_tryreset_loop E fuel s1) as [[x s2] l2]. simpl in *.
    rewrite !count_calls_cons, !count_calls_app, Hp, Hone, IH. simpl. lia.
Qed.

End Pacing.

(** X12. [usb_tryreset] paces its attempts: the number of long delays is
    twice the number of OS resets (one in the loop, one in [_resetusb]
    before the reset) plus one for every OS reset that succeeded (the
    delay after it). *)
Theorem usb_tryreset_paces_resets {W : Type} (E : Env W) (fuel : nat)
    (s : machine W) :
  count_calls is_long_delay (calls (usb_tryreset E fuel s)) =
    (2 * count_calls is_os_resetusb (calls (usb_tryreset E fuel s))
     + count_calls is_reset_ok (calls (usb_tryreset E fuel s)))%nat.
Proof.
  unfold usb_tryreset, bind, printf, emit, ret.
  pose proof (usb_tryreset_loop_paced E fuel s) as H.
  unfold calls in *.
  destruct (usb_tryreset_loop E fuel s) as [[x s1] l1]. simpl in *.
  destruct x as [|r|]; simpl;
    rewrite ?app_nil_r, !count_calls_cons, ?count_calls_app; simpl;
    rewrite H;
    generalize (count_calls is_os_resetusb l1) (count_calls is_reset_ok l1);
    intros c1 c2; unfold count_calls; simpl; lia.
Qed.

Section Dead_firmware.

Context {W : Type} (E : Env W).

Lemma resetusb_query_never_answers (s : machine W) :
  (forall kb w, fst (fst (getfwversion E kb w)) <> 0) ->
  (forall kb file line w, fst (fst (os_resetusb E kb file line w)) <> -2) ->
  (forall file line, keeps_r features (fun kb => os_resetusb E kb file line)) ->
  keeps_r features (getfwversion E) ->
  HAS_FEATURES (dev s) (FEAT_RGB E) = true ->
  result (resetusb E s) <> 0 /\ result (resetusb E s) <> -2
  /\ HAS_FEATURES (dev (final (resetusb E s))) (FEAT_RGB E) = true.
Proof.
  intros Hq Hos Kos Kfw Hf.
  unfold resetusb, _resetusb. unfold_m. unfold result, final. simpl.
  pose proof (Hos (dev s) "usb.c" 178 (world s)) as H0.
  pose proof (Kos "usb.c" 178 (dev s) (world s)) as F0. simpl in F0.
  destruct (os_resetusb E (dev s) "usb.c" 178 (world s)) as [[r0 kb0] w0].
  simpl in *.
  assert (Hf0 : HAS_FEATURES kb0 (FEAT_RGB E) = true).
  { unfold HAS_FEATURES in *. rewrite F0. exact Hf. }
  destruct (Z.eqb_spec r0 0) as [-> | Hr0]; simpl.
  2:{ auto. }
  change (HAS_FEATURES (set_queuecount 0 kb0) (FEAT_RGB E))
    with (HAS_FEATURES kb0 (FEAT_RGB E)).
  rewrite Hf0. simpl.
  pose proof (Hq (set_queuecount 0 kb0) w0) as H1.
  pose proof (Kfw (set_queuecount 0 kb0) w0) as F1. simpl in F1.
  destruct (getfwversion E (set_queuecount 0 kb0) w0) as [[r1 kb1] w1].
  simpl in *. apply Z.eqb_neq in H1. rewrite H1. simpl.
  split; [discriminate|]. split; [discriminate|].
  unfold HAS_FEATURES in *. rewrite F1. exact Hf0.
Qed.

End Dead_firmware.

(** X13. The retry loop of [usb_tryreset] has no bound of its own.  For
    an RGB device whose firmware query fails every time, behind an OS
    reset that never reports -2, no number of attempts ends the loop:
    after [fuel] attempts it has made [fuel] OS resets and is still
    retrying. *)
Theorem usb_tryreset_retries_forever {W : Type} (E : Env W) (s : machine W) :
  (forall kb w, fst (fst (getfwversion E kb w)) <> 0) ->
  (forall kb file line w, fst (fst (os_resetusb E kb file line w)) <> -2) ->
  (forall file line, keeps_r features (fun kb => os_resetusb E kb file line)) ->
  keeps_r features (getfwversion E) ->
  HAS_FEATURES (dev s) (FEAT_RGB E) = true ->
  forall fuel : nat,
    result (usb_tryreset E fuel s) = None
    /\ count_calls is_os_resetusb (calls (usb_tryreset E fuel s)) = fuel.
Proof.
  intros Hq Hos Kos Kfw Hf fuel.
  assert (Hloop : forall (n : nat) (s0 : machine W),
    HAS_FEATURES (dev s0) (FEAT_RGB E) = true ->
    result (usb_tryreset_loop E n s0) = Out_of_fuel
    /\ count_calls is_os_resetusb (calls (usb_tryreset_loop E n s0)) = n).
  { induction n as [|n IH]; intros s0 Hf0.
    - split; reflexivity.
    - rewrite usb_tryreset_loop_S.
      destruct (resetusb_query_never_answers E s0 Hq Hos Kos Kfw Hf0)
        as (Hn0 & Hn2 & Hf1).
      pose proof (resetusb_one_os_reset E s0) as Hone.
      unfold result, final, calls in *.
      destruct (resetusb E s0) as [[res s1] l1]. simpl in *.
      apply Z.eqb_neq in Hn0, Hn2. rewrite Hn0, Hn2.
      destruct (IH s1 Hf1) as [Hres Hcount].
      destruct (usb_tryreset_loop E n s1) as [[x s2] l2]. simpl in *.
      split; [exact Hres|].
      rewrite count_calls_cons, count_calls_app, Hone, Hcount. reflexivity. }
  unfold usb_tryreset, bind, printf, emit, ret.
  destruct (Hloop fuel s Hf) as [Hres Hcount].
  unfold result, calls in *.
  destruct (usb_tryreset_loop E fuel s) as [[x s1] l1]. simpl in *.
  subst x. simpl. split; [reflexivity|].
  rewrite app_nil_r, count_calls_cons. exact Hcount.
Qed.

Lemma usb_tryreset_retries_forever_witness :
  result (usb_tryreset dead_firmware 7 live_rgb) = None
  /\ count_calls is_os_resetusb (calls (usb_tryreset dead_firmware 7 live_rgb))
     = 7%nat.
Proof.
  apply (usb_tryreset_retries_forever dead_firmware live_rgb).
  - intros kb w. simpl. discriminate.
  - intros kb file line w. simpl. discriminate.
  - intros file line kb w. reflexivity.
  - intros kb w. reflexivity.
  - reflexivity.
Defined.

(** ** The loops of revert *)

Section Drain.

Context {W : Type} (E : Env W).

Lemma drain_run (d : delay) (fuel : nat) (s : machine W) :
  exists rs,
    calls (drain E d fuel s) = drain_calls d rs
    /\ match result (drain E d fuel s) with
       | Fell_through =>
           Forall (fun r => 0 < r) rs
           /\ queuecount (dev (final (drain E d fuel s))) <= 0
       | Returned r =>
           r = -1
           /\ exists rs0 r0,
                rs = rs0 ++ [r0] /\ r0 <= 0 /\ Forall (fun r => 0 < r) rs0
       | Out_of_fuel =>
           Forall (fun r => 0 < r) rs /\ length rs = fuel
           /\ 0 < queuecount (dev (final (drain E d fuel s)))
       end.
Proof.
  revert s. induction fuel as [|fuel IH]; intros s; simpl; unfold_m;
    unfold result, final, calls.
  - destruct (Z.gtb_spec (queuecount (dev s)) 0); simpl; exists [];
      (split; [reflexivity|]); repeat split; auto; lia.
  - destruct (Z.gtb_spec (queuecount (dev s)) 0); simpl.
    2:{ exists []. split; [reflexivity|]. split; [constructor | lia]. }
    destruct (usbdequeue E (dev s) (world s)) as [[r kb] w]. simpl.
    destruct (Z.leb_spec r 0) as [Hr | Hr]; simpl.
    + exists [r]. split; [reflexivity|]. split; [reflexivity|].
      exists [], r. repeat split; auto.
    + destruct (IH (Machine kb (features_mask s) w)) as (rs & Hc & Hres).
      unfold result, final, calls in *.
      destruct (drain E d fuel (Machine kb (features_mask s) w)) as [[x s'] l].
      simpl in *. subst l.
      exists (r :: rs). split; [reflexivity|].
      destruct x as [|r'|].
      * destruct Hres as [Hall Hq]. split; [constructor; assumption | exact Hq].
      * destruct Hres as (-> & rs0 & r0 & -> & Hr0 & Hall).
        split; [reflexivity|]. exists (r :: rs0), r0.
        repeat split; auto.
      * destruct Hres as (Hall & Hlen & Hq).
        split; [constructor; assumption|]. split; [simpl; lia | exact Hq].
Qed.

(** With dequeues that make progress, a drain loop given at least
    [queuecount] rounds ends by itself, and more rounds change nothing. *)
Lemma drain_enough (d : delay) (n m : nat) (s : machine W) :
  dequeue_progress E ->
  queuecount (dev s) <= Z.of_nat n -> queuecount (dev s) <= Z.of_nat m ->
  drain E d m s = drain E d n s
  /\ result (drain E d n s) <> Out_of_fuel
  /\ (count_calls is_usbdequeue (calls (drain E d n s))
      <= Z.to_nat (queuecount (dev s)))%nat.
Proof.
  intros Hp. revert m s. induction n as [|n IH]; intros m s Hn Hm.
  - assert (Hq : (queuecount (dev s) >? 0) = false).
    { destruct (Z.gtb_spec (queuecount (dev s)) 0); [lia | reflexivity]. }
    destruct m; simpl; unfold_m; unfold result, calls; rewrite Hq; simpl;
      (split; [reflexivity|]); split; try discriminate; unfold count_calls;
      simpl; lia.
  - destruct (Z.gtb_spec (queuecount (dev s)) 0) as [Hq | Hq].
    2:{ assert (Hq' : (queuecount (dev s) >? 0) = false).
        { destruct (Z.gtb_spec (queuecount (dev s)) 0); [lia | reflexivity]. }
        destruct m; simpl; unfold_m; unfold result, calls; rewrite Hq'; simpl;
          (split; [reflexivity|]); split; try discriminate; unfold count_calls;
          simpl; lia. }
    destruct m as [|m]; [lia|].
    assert (Hq' : (queuecount (dev s) >? 0) = true)
      by (apply Z.gtb_lt; lia).
    simpl. unfold_m. unfold result, calls. rewrite Hq'. simpl.
    pose proof (Hp (dev s) (world s)) as Hstep.
    destruct (usbdequeue E (dev s) (world s)) as [[r kb] w]. simpl in *.
    destruct (Z.leb_spec r 0) as [Hr | Hr]; simpl.
    + split; [reflexivity|]. split; [discriminate|].
      unfold count_calls. simpl. lia.
    + specialize (Hstep Hr).
      destruct (IH m (Machine kb (features_mask s) w)) as (Heq & Hres & Hcount);
        simpl; try lia.
      rewrite Heq. unfold result, calls in *.
      destruct (drain E d n (Machine kb (features_mask s) w)) as [[x s'] l].
      simpl in *. split; [reflexivity|]. split; [exact Hres|].
      rewrite !count_calls_cons. simpl. lia.
Qed.

End Drain.

(** X14. [revertusb] on a device that needs no firmware update: without
    RGB it sends the hardware-on command and returns 0, and nothing else;
    with RGB, a run that returns 0 is a drain with short delays, one
    medium delay, [setactive(kb, 0)], and a drain with medium delays, in
    which every dequeue sent something, and it leaves the queue empty. *)
Theorem revertusb_drains_then_deactivates {W : Type} (E : Env W) (fuel : nat)
    (s : machine W) :
  NEEDS_FW_UPDATE E (dev s) = false ->
  (HAS_FEATURES (dev s) (FEAT_RGB E) = false ->
   result (revertusb E fuel s) = Some 0
   /\ calls (revertusb E fuel s) = [Ev_nk95cmd (NK95_HWON E)])
  /\ (HAS_FEATURES (dev s) (FEAT_RGB E) = true ->
      result (revertusb E fuel s) = Some 0 ->
      exists rs1 rs2,
        calls (revertusb E fuel s) =
          drain_calls DELAY_SHORT rs1
            ++ [Ev_delay DELAY_MEDIUM; Ev_setactive 0]
            ++ drain_calls DELAY_MEDIUM rs2
        /\ Forall (fun r => 0 < r) (rs1 ++ rs2)
        /\ queuecount (dev (final (revertusb E fuel s))) <= 0).
Proof.
  intros Hup. unfold revertusb. unfold_m. unfold result, final, calls.
  rewrite Hup. simpl. split.
  - intros Hf. rewrite Hf. simpl.
    destruct (nk95cmd E (dev s) (NK95_HWON E) (world s)). simpl. auto.
  - intros Hf. rewrite Hf. simpl.
    destruct (drain_run E DELAY_SHORT fuel s) as (rs1 & Hc1 & Hres1).
    unfold result, final, calls in *.
    destruct (drain E DELAY_SHORT fuel s) as [[x s1] l1]. simpl in *.
    destruct x as [|r|]; simpl.
    2:{ destruct Hres1 as (-> & _). discriminate. }
    2:{ discriminate. }
    destruct (setactive E (dev s1) 0 (world s1)) as [kb2 w2]. simpl.
    destruct (drain_run E DELAY_MEDIUM fuel (Machine kb2 (features_mask s1) w2))
      as (rs2 & Hc2 & Hres2).
    unfold result, final, calls in *.
    destruct (drain E DELAY_MEDIUM fuel (Machine kb2 (features_mask s1) w2))
      as [[y s2] l2]. simpl in *.
    destruct y as [|r|]; simpl.
    2:{ destruct Hres2 as (-> & _). discriminate. }
    2:{ discriminate. }
    intros _. exists rs1, rs2. subst l1 l2.
    destruct Hres1 as [Hall1 _]. destruct Hres2 as [Hall2 Hq].
    split; [rewrite app_nil_r; reflexivity|].
    split; [apply Forall_app; auto | exact Hq].
Qed.

Lemma revertusb_drains_then_deactivates_witness :
  exists rs1 rs2,
    calls (revertusb queueing 10 queued_rgb) =
      drain_calls DELAY_SHORT rs1
        ++ [Ev_delay DELAY_MEDIUM; Ev_setactive 0]
        ++ drain_calls DELAY_MEDIUM rs2
    /\ Forall (fun r => 0 < r) (rs1 ++ rs2)
    /\ queuecount (dev (final (revertusb queueing 10 queued_rgb))) <= 0.
Proof.
  destruct (revertusb_drains_then_deactivates queueing 10 queued_rgb) as (_ & H).
  - reflexivity.
  - apply H; reflexivity.
Defined.

(** X15. [revertusb] terminates.  If every dequeue that sends a message
    takes it off the queue and [setactive] does not overfill the queue,
    then from a queue within [QUEUE_LEN] the two loops end within
    [QUEUE_LEN] iterations each: the call returns 0 or -1, more iterations
    allowed change nothing, and at most [2 * QUEUE_LEN] dequeues are
    made. *)
Theorem revertusb_terminates {W : Type} (E : Env W) (fuel fuel' : nat)
    (s : machine W) :
  dequeue_progress E ->
  (forall kb w, queuecount kb <= QUEUE_LEN E ->
     queuecount (fst (setactive E kb 0 w)) <= QUEUE_LEN E) ->
  0 <= QUEUE_LEN E ->
  queuecount (dev s) <= QUEUE_LEN E ->
  QUEUE_LEN E <= Z.of_nat fuel -> QUEUE_LEN E <= Z.of_nat fuel' ->
  (result (revertusb E fuel s) = Some 0
   \/ result (revertusb E fuel s) = Some (-1))
  /\ revertusb E fuel' s = revertusb E fuel s
  /\ (count_calls is_usbdequeue (calls (revertusb E fuel s))
      <= 2 * Z.to_nat (QUEUE_LEN E))%nat.
Proof.
  intros Hp Hsa Hcap Hq Hfuel Hfuel'.
  unfold revertusb. unfold_m. unfold result, calls.
  destruct (NEEDS_FW_UPDATE E (dev s)); simpl.
  { split; [auto|]. split; [reflexivity|]. unfold count_calls. simpl. lia. }
  destruct (HAS_FEATURES (dev s) (FEAT_RGB E)); simpl.
  2:{ destruct (nk95cmd E (dev s) (NK95_HWON E) (world s)). simpl.
      split; [auto|]. split; [reflexivity|]. unfold count_calls. simpl. lia. }
  destruct (drain_enough E DELAY_SHORT fuel fuel' s Hp) as (Heq1 & Hres1 & Hcount1);
    try lia.
  rewrite Heq1.
  destruct (drain_run E DELAY_SHORT fuel s) as (rs1 & _ & Hrun1).
  unfold result, final, calls in *.
  destruct (drain E DELAY_SHORT fuel s) as [[x s1] l1]. simpl in *.
  destruct x as [|r|]; simpl; [| |contradiction].
  2:{ destruct Hrun1 as (-> & _). split; [auto|]. split; [reflexivity|].
      rewrite app_nil_r. lia. }
  destruct Hrun1 as [_ Hq1].
  pose proof (Hsa (dev s1) (world s1)) as Hsa1.
  destruct (setactive E (dev s1) 0 (world s1)) as [kb2 w2]. simpl in *.
  destruct (drain_enough E DELAY_MEDIUM fuel fuel'
              (Machine kb2 (features_mask s1) w2) Hp)
    as (Heq2 & Hres2 & Hcount2); simpl; try lia.
  rewrite Heq2.
  destruct (drain_run E DELAY_MEDIUM fuel (Machine kb2 (features_mask s1) w2))
    as (rs2 & _ & Hrun2).
  unfold result, final, calls in *.
  destruct (drain E DELAY_MEDIUM fuel (Machine kb2 (features_mask s1) w2))
    as [[y s2] l2]. simpl in *.
  assert (Hcount : (count_calls is_usbdequeue
                      (l1 ++ Ev_delay DELAY_MEDIUM :: Ev_setactive 0 :: l2)
                    <= 2 * Z.to_nat (QUEUE_LEN E))%nat).
  { rewrite count_calls_app, !count_calls_cons. simpl. lia. }
  destruct y as [|r|]; simpl; [| |contradiction].
  - split; [auto|]. split; [reflexivity|]. rewrite app_nil_r. exact Hcount.
  - destruct Hrun2 as (-> & _). split; [auto|]. split; [reflexivity|].
    rewrite app_nil_r. exact Hcount.
Qed.

Lemma sim_dequeue_progress : dequeue_progress Sim.env.
Proof.
  intros kb w. simpl. unfold Sim.sim_usbdequeue.
  destruct (Sim.w_dequeue w) as [|r rest]; simpl.
  - intros _. lia.
  - intros Hr. apply Z.ltb_lt in Hr. rewrite Hr. simpl. lia.
Qed.

Lemma revertusb_terminates_witness :
  (result (revertusb queueing 40 queued_rgb) = Some 0
   \/ result (revertusb queueing 40 queued_rgb) = Some (-1))
  /\ revertusb queueing 100 queued_rgb = revertusb queueing 40 queued_rgb.
Proof.
  destruct (revertusb_terminates queueing 40 100 queued_rgb) as (H1 & H2 & _).
  - exact sim_dequeue_progress.
  - intros kb w H. unfold queueing, setactive, sim_setactive_queued. cbn [fst].
    apply (usbqueue_bounded Sim.env). exact H.
  - vm_compute. discriminate.
  - vm_compute. discriminate.
  - vm_compute. discriminate.
  - vm_compute. discriminate.
  - split; [exact H1 | exact H2].
Defined.

(** ** The identity of a device *)

Section Identity.

Context {W : Type} (E : Env W).

Lemma final_bind {A B : Type} (m : M W A) (f : A -> M W B) (s : machine W) :
  final (bind m f s) = final (f (result (m s)) (final (m s))).
Proof.
  unfold bind, final, result. destruct (m s) as [[a s1] l1]. simpl.
  destruct (f a s1) as [[b s2] l2]. reflexivity.
Qed.

Lemma final_bind_modify {B : Type} (f : usbdevice -> usbdevice)
    (k : unit -> M W B) (s : machine W) :
  final (bind (modify_dev f) k s) =
    final (k tt (Machine (f (dev s)) (features_mask s) (world s))).
Proof. rewrite final_bind. reflexivity. Qed.

Lemma final_bind_get_dev {B : Type} (k : usbdevice -> M W B) (s : machine W) :
  final (bind get_dev k s) = final (k (dev s) s).
Proof. rewrite final_bind. reflexivity. Qed.

Lemma final_bind_get_mask {B : Type} (k : Z -> M W B) (s : machine W) :
  final (bind get_features_mask k s) = final (k (features_mask s) s).
Proof. rewrite final_bind. reflexivity. Qed.

Lemma final_bind_ret {A B : Type} (a : A) (k : A -> M W B) (s : machine W) :
  final (bind (ret a) k s) = final (k a s).
Proof. rewrite final_bind. reflexivity. Qed.

Lemma ki_bind {A B : Type} (m : M W A) (f : A -> M W B) :
  keeps_identity m -> (forall a, keeps_identity (f a)) ->
  keeps_identity (bind m f).
Proof.
  intros Hm Hf s. rewrite final_bind, Hf, Hm. reflexivity.
Qed.

Lemma ki_ret {A : Type} (a : A) : keeps_identity (ret (W := W) a).
Proof. intros s. reflexivity. Qed.

Lemma ki_emit (e : event) : keeps_identity (emit (W := W) e).
Proof. intros s. reflexivity. Qed.

Lemma ki_get_dev : keeps_identity (get_dev (W := W)).
Proof. intros s. reflexivity. Qed.

Lemma ki_modify (f : usbdevice -> usbdevice) :
  (forall kb, identity (f kb) = identity kb) ->
  keeps_identity (modify_dev (W := W) f).
Proof. intros Hf s. apply Hf. Qed.

Lemma ki_call_int (f : usbdevice -> W -> Z * usbdevice * W) (ev : Z -> event) :
  keeps_r identity f -> keeps_identity (call_int f ev).
Proof.
  intros Hf s. unfold call_int, final. specialize (Hf (dev s) (world s)).
  destruct (f (dev s) (world s)) as [[r kb] w]. exact Hf.
Qed.

Lemma ki_call_void (f : usbdevice -> W -> usbdevice * W) (ev : event) :
  keeps identity f -> keeps_identity (call_void f ev).
Proof.
  intros Hf s. unfold call_void, final. specialize (Hf (dev s) (world s)).
  destruct (f (dev s) (world s)) as [kb w]. exact Hf.
Qed.

Lemma ki_getusbmode (id : Z) : keeps_identity (call_getusbmode E id).
Proof.
  intros s. unfold call_getusbmode, final.
  destruct (getusbmode E id _ _) as [m p]. reflexivity.
Qed.

Lemma ki_malloc (size : Z) : keeps_identity (call_malloc E size).
Proof.
  intros s. unfold call_malloc, final.
  destruct (malloc E size _) as [b w]. reflexivity.
Qed.

Lemma ki_findstore (ser : string) : keeps_identity (call_findstore E ser).
Proof.
  intros s. unfold call_findstore, final.
  destruct (findstore E ser _) as [o w]. reflexivity.
Qed.

Lemma ki_for_each (l : list nat) (body : nat -> M W unit) :
  (forall i, keeps_identity (body i)) -> keeps_identity (for_each l body).
Proof.
  intros Hb. induction l as [|i l IH]; simpl.
  - apply ki_ret.
  - apply ki_bind; [apply Hb | intros _; exact IH].
Qed.

Lemma ki_mutex (m : mutex_id) (v : lockstate) :
  keeps_identity (modify_dev (W := W) (set_lock m v)).
Proof. intros s. destruct m; reflexivity. Qed.

End Identity.

(** One step of a proof that a computation keeps the identity. *)
Ltac ki_step :=
  first
    [ apply ki_bind; [|intros ?]
    | apply ki_ret | apply ki_emit | apply ki_get_dev | apply ki_mutex
    | apply ki_getusbmode | apply ki_malloc | apply ki_findstore
    | apply ki_modify; intros ?; reflexivity
    | apply ki_call_int; auto
    | apply ki_call_void; auto
    | match goal with
      | |- keeps_identity (if ?b then _ else _) => destruct b
      | |- keeps_identity (match ?o with Some _ => _ | None => _ end) =>
          destruct o
      end ].

Section Setup_identity.

Context {W : Type} (E : Env W).
Hypothesis Hkeeps : setup_keeps_identity E.

Lemma ki_setupusb_nonrgb : keeps_identity (setupusb_nonrgb E).
Proof.
  destruct Hkeeps.
  unfold setupusb_nonrgb, call_nk95cmd, call_writefwnode.
  repeat ki_step.
Qed.

Lemma ki_setupusb_restore (fail : bool) : keeps_identity (setupusb_restore E fail).
Proof.
  destruct Hkeeps.
  unfold setupusb_restore, call_hwloadprofile, usleep.
  repeat ki_step.
Qed.

Lemma ki_setupusb_firmware : keeps_identity (setupusb_firmware E).
Proof.
  pose proof ki_setupusb_restore as Hr.
  destruct Hkeeps.
  unfold setupusb_firmware, call_getfwversion, printf.
  repeat (first [apply Hr | ki_step]).
Qed.

Lemma ki_setupusb_queue : keeps_identity (setupusb_queue E).
Proof.
  unfold setupusb_queue, for_upto. apply ki_for_each. intros q.
  repeat ki_step.
Qed.

End Setup_identity.

Lemma substring_length_le (n : nat) (s : string) :
  (String.length (substring 0 n s) <= n)%nat.
Proof.
  revert s. induction n as [|n IH]; intros [|c s]; simpl; try lia.
  specialize (IH s). lia.
Qed.

(** X16. The identity [setupusb] gives a device.  Provided the
    collaborators it hands the record to leave [model], [vendor], [product]
    and [name] alone, every run, whatever it returns, ends with the model
    resolved from the product id (65 for a K65, 70 for a K70 with or
    without RGB, 95 for every other id), with the vendor and product ids it
    was given, and with the name it found if there was one; a device
    without a name is called "Corsair K<model>", followed by " RGB" when
    the masked feature set has RGB, cut to [NAME_LEN - 1] characters. *)
Theorem setupusb_identity {W : Type} (E : Env W) (vid pid : Z)
    (s : machine W) :
  setup_keeps_identity E ->
  let kb' := dev (final (setupusb E vid pid s)) in
  let m := if pid =? P_K65 E then 65
           else if (pid =? P_K70 E) || (pid =? P_K70_NRGB E) then 70
           else 95 in
  let rgb :=
    Z.land (Z.land (if IS_RGB E vid pid then FEAT_STD_RGB E
                    else FEAT_STD_NRGB E) (features_mask s)) (FEAT_RGB E)
      =? FEAT_RGB E in
  model kb' = m /\ vendor kb' = vid /\ product kb' = pid
  /\ (name (dev s) <> "" -> name kb' = name (dev s))
  /\ (name (dev s) = "" ->
      name kb' =
        substring 0 (Z.to_nat (NAME_LEN E - 1))
          ("Corsair K" ++ NilZero.string_of_int (Z.to_int m)
             ++ (if rgb then " RGB" else ""))
      /\ (String.length (name kb') <= Z.to_nat (NAME_LEN E - 1))%nat).
Proof.
  intros Hkeeps. cbv zeta.
  assert (Hrest : forall o : option Z, keeps_identity
    (match o with
     | Some r => ret r
     | None =>
         bind get_dev (fun kb =>
           if negb (HAS_FEATURES kb (FEAT_RGB E)) then setupusb_nonrgb E
           else bind (setupusb_queue E) (fun _ => setupusb_firmware E))
     end)).
  { intros [r|]; [apply ki_ret|].
    apply ki_bind; [apply ki_get_dev|]. intros kb.
    destruct (negb _); [apply ki_setupusb_nonrgb; exact Hkeeps|].
    apply ki_bind; [apply ki_setupusb_queue|].
    intros _. apply ki_setupusb_firmware. exact Hkeeps. }
  assert (Hid : identity (dev (final (setupusb E vid pid s))) =
                identity (dev (final (setupusb_attach E vid pid s)))).
  { unfold setupusb. rewrite final_bind. apply Hrest. }
  clear Hrest.
  unfold setupusb_attach in Hid.
  rewrite !final_bind_modify, final_bind_get_mask, final_bind_modify,
    final_bind_get_dev in Hid.
  cbn [dev features_mask world] in Hid.
  match type of Hid with
  | context [final (bind _ ?k _)] =>
      assert (Hk : keeps_identity (k tt))
  end.
  { destruct Hkeeps.
    unfold pthread_mutex_init, pthread_mutex_lock, pthread_mutex_unlock,
      pthread_mutex_destroy, call_makedevpath, call_inputopen, call_rmdevpath,
      call_updateindicators.
    repeat ki_step. }
  rewrite final_bind in Hid. cbv beta in Hid, Hk. rewrite Hk in Hid. clear Hk.
  change (name (set_features ?f (set_product ?p (set_vendor ?v (set_model ?m ?kb)))))
    with (name kb) in Hid.
  unfold default_name, HAS_FEATURES in Hid.
  assert (Hm := f_equal (fun t => fst (fst (fst t))) Hid).
  assert (Hv := f_equal (fun t => snd (fst (fst t))) Hid).
  assert (Hp := f_equal (fun t => snd (fst t)) Hid).
  assert (Hname := f_equal snd Hid).
  clear Hid. unfold identity in Hm, Hv, Hp, Hname.
  cbn [fst snd] in Hm, Hv, Hp, Hname.
  destruct (String.eqb_spec (name (dev s)) "") as [Hn | Hn];
    cbn [final fst snd dev modify_dev ret model vendor product name features
         set_name set_features set_product set_vendor set_model]
      in Hm, Hv, Hp, Hname.
  - split; [exact Hm|]. split; [exact Hv|]. split; [exact Hp|].
    split; [intros H; contradiction|]. intros _.
    split; [exact Hname|]. rewrite Hname. apply substring_length_le.
  - split; [exact Hm|]. split; [exact Hv|]. split; [exact Hp|].
    split; [intros _; exact Hname|]. intros H; contradiction.
Qed.

Lemma sim_keeps_identity : setup_keeps_identity Sim.env.
Proof.
  split.
  - intros kb w. simpl. destruct (Sim.w_makedevpath w =? 0); reflexivity.
  - intros kb w. reflexivity.
  - intros kb w. reflexivity.
  - intros f kb w. reflexivity.
  - intros c kb w. reflexivity.
  - intros kb w. reflexivity.
  - intros kb w. simpl. unfold Sim.sim_getfwversion.
    destruct (Sim.w_getfw w) as [|r rest]; [reflexivity|].
    destruct (r =? 0); reflexivity.
  - intros a kb w. simpl. destruct (Sim.w_hwload w =? 0); reflexivity.
Qed.

Lemma setupusb_identity_witness :
  name (dev (final (setupusb Sim.env Sim.v_corsair Sim.p_k70
                      (Sim.boot Sim.opened Sim.calm))))
    = "Corsair K70 RGB"
  /\ name (dev (final (setupusb Sim.env Sim.v_corsair Sim.p_k70
                         (Sim.boot named Sim.calm))))
     = "K70 on port 2"
  /\ model (dev (final (setupusb Sim.env Sim.v_corsair 0x1b99
                          (Sim.boot Sim.opened Sim.calm))))
     = 95.
Proof.
  pose proof (setupusb_identity Sim.env Sim.v_corsair Sim.p_k70
                (Sim.boot Sim.opened Sim.calm) sim_keeps_identity) as H1.
  pose proof (setupusb_identity Sim.env Sim.v_corsair Sim.p_k70
                (Sim.boot named Sim.calm) sim_keeps_identity) as H2.
  pose proof (setupusb_identity Sim.env Sim.v_corsair 0x1b99
                (Sim.boot Sim.opened Sim.calm) sim_keeps_identity) as H3.
  cbv zeta in H1, H2, H3.
  destruct H1 as (_ & _ & _ & _ & H1). destruct H2 as (_ & _ & _ & H2 & _).
  destruct H3 as (H3 & _).
  split; [|split].
  - destruct H1 as [H1 _]; [reflexivity|]. rewrite H1. reflexivity.
  - rewrite H2; [reflexivity | discriminate].
  - rewrite H3. reflexivity.
Defined.

(** X17. The name of a reused slot.  Under the same proviso as X16: a
    [setupusb] that follows a [closeusb] of a record with a control path
    never sees the old name, and names the device after the ids it is given
    now; but where the record has no control path, [closeusb] does nothing,
    and a name left in the record, such as the one a failed [setupusb]
    made up, is kept by the next [setupusb] whatever ids it is given. *)
Theorem closeusb_then_setupusb_name {W : Type} (E : Env W) (vid pid : Z)
    (s : machine W) :
  setup_keeps_identity E ->
  let kb' := dev (final (setupusb E vid pid (final (closeusb E s)))) in
  let m := if pid =? P_K65 E then 65
           else if (pid =? P_K70 E) || (pid =? P_K70_NRGB E) then 70
           else 95 in
  let rgb :=
    Z.land (Z.land (if IS_RGB E vid pid then FEAT_STD_RGB E
                    else FEAT_STD_NRGB E) (features_mask s)) (FEAT_RGB E)
      =? FEAT_RGB E in
  (infifo (dev s) <> 0 ->
   name kb' =
     substring 0 (Z.to_nat (NAME_LEN E - 1))
       ("Corsair K" ++ NilZero.string_of_int (Z.to_int m)
          ++ (if rgb then " RGB" else "")))
  /\ (infifo (dev s) = 0 -> name (dev s) <> "" -> name kb' = name (dev s)).
Proof.
  intros Hkeeps. cbv zeta. split.
  - intros Hi.
    assert (Hz : exists w', final (closeusb E s)
                            = Machine (usbdevice_zero E) (features_mask s) w').
    { destruct (Z.eq_dec (handle (dev s)) 0) as [Hh | Hh].
      - destruct (closeusb_nohandle E s Hi Hh) as (w' & ->). exists w'.
        reflexivity.
      - destruct (closeusb_handle E s Hi Hh) as (entry & w' & ->). exists w'.
        reflexivity. }
    destruct Hz as (w' & ->).
    pose proof (setupusb_identity E vid pid
                  (Machine (usbdevice_zero E) (features_mask s) w') Hkeeps) as H.
    cbv zeta in H. destruct H as (_ & _ & _ & _ & H).
    destruct H as [H _]; [reflexivity | exact H].
  - intros Hi Hn. rewrite closeusb_noop by exact Hi.
    pose proof (setupusb_identity E vid pid s Hkeeps) as H.
    cbv zeta in H. destruct H as (_ & _ & _ & H & _).
    apply H. exact Hn.
Qed.

Lemma closeusb_then_setupusb_name_witness :
  name (dev (final (setupusb Sim.env Sim.v_corsair Sim.p_k95_nrgb
                      (final (closeusb Sim.env live_rgb)))))
    = "Corsair K95"
  /\ name (dev (final (setupusb Sim.env Sim.v_corsair Sim.p_k95_nrgb
                         (final (closeusb Sim.env failed_slot)))))
     = "Corsair K70 RGB"
  /\ model (dev (final (setupusb Sim.env Sim.v_corsair Sim.p_k95_nrgb
                          (final (closeusb Sim.env failed_slot)))))
     = 95.
Proof.
  pose proof (closeusb_then_setupusb_name Sim.env Sim.v_corsair Sim.p_k95_nrgb
                live_rgb sim_keeps_identity) as H1.
  pose proof (closeusb_then_setupusb_name Sim.env Sim.v_corsair Sim.p_k95_nrgb
                failed_slot sim_keeps_identity) as H2.
  cbv zeta in H1, H2. destruct H1 as [H1 _]. destruct H2 as [_ H2].
  split; [|split].
  - rewrite H1; [reflexivity | vm_compute; discriminate].
  - rewrite H2; [reflexivity | reflexivity | vm_compute; discriminate].
  - vm_compute. reflexivity.
Defined.
